(** * NexResume: the resume screening pipeline of [Nexresume.py]

    A shallow embedding of the five functions of [Nexresume.py]
    ([load_job_description], [extract_text_from_resume],
    [create_llm_prompt], [get_analysis_from_gpt],
    [process_resumes_in_batch]) and of the script's main block, together
    with the properties the specification states about them.

    The program is embedded twice.  The first embedding describes its
    runs when the standard output accepts every line, a report file that
    has opened is written completely, and the job description is made of
    JSON's values; it is the one in which the course of a turn of the
    loop is followed line by line.  The second embedding, [Full], makes
    none of these assumptions: there [print] may raise, [json.dump] may
    fail in the middle of a report, the job description holds whatever
    [yaml.safe_load] gives and [create_llm_prompt] may raise, and the
    HTTP requests of the client are counted apart from the calls of the
    client.  What may abort a run and what may be left in the output
    directory is stated there.  The two embeddings give the same run
    where the assumptions of the first one hold ([full_batch_plain]).

    Conventions.
    - A Python [str] is a [string]; each character stands for one code
      point below 256, so the text handled here is the Latin-1 part of
      Unicode.  Paths follow [posixpath].
    - A reply of the endpoint is a [pyval], the data model of
      [json.loads]; a job description is a [pyval] in the first
      embedding and a [Full.yval] in the second.  A [dict] keeps its
      insertion order, which [json.dumps] and [str] expose, so it is an
      association list.
    - Everything the program does to the outside (file system, process
      environment, PDF library, inference endpoint, standard output) goes
      through oracles, an [env] and around it a [Full.world], and is
      recorded in the [state]: the files written and the trace of
      operations.  An oracle may raise; [os.path.exists] does not.
      Exceptions are values of [exn]; they stand for instances of
      Python's [Exception] class, the ones an [except Exception] clause
      catches.
    - A [Request] in the trace is one call of
      [client.chat.completions.create].  The client is built with its
      default settings and may send several HTTP requests inside one
      call; [Full.http_sent] counts those.
    - An [Open] in the trace is a call of [open] by the program itself.
      The file [.env] is read inside [load_dotenv], which the trace
      records as [LoadDotenv]. *)

From Stdlib Require Import Ascii String ZArith List Bool Lia.
From stdpp Require Import base option list strings gmap pretty.

Open Scope Z_scope.

(** ** Text *)

Module Str.

(** [s[n:]] and [s[:n]] for a non-negative [n]. *)
Fixpoint drop (n : nat) (s : string) : string :=
  match n, s with
  | O, _ => s
  | S n', String _ s' => drop n' s'
  | S _, EmptyString => EmptyString
  end.

Fixpoint take (n : nat) (s : string) : string :=
  match n, s with
  | O, _ => EmptyString
  | S n', String a s' => String a (take n' s')
  | S _, EmptyString => EmptyString
  end.

(** [s[i:j]] for [0 <= i]. *)
Definition slice (s : string) (i j : Z) : string :=
  take (Z.to_nat (j - i)) (drop (Z.to_nat i) s).

(** [s.endswith(suffix)] *)
Definition endswith (s suffix : string) : bool :=
  (String.length suffix <=? String.length s)%nat
  && String.eqb (drop (String.length s - String.length suffix) s) suffix.

(** [s.startswith(prefix)] *)
Definition startswith (s pre : string) : bool :=
  String.eqb (take (String.length pre) s) pre.

(** [s.rfind(c)] for a one-character [c]: the highest index, or -1. *)
Fixpoint rfind (c : ascii) (s : string) : Z :=
  match s with
  | EmptyString => -1
  | String a s' =>
      let r := rfind c s' in
      if 0 <=? r then r + 1
      else if Ascii.eqb a c then 0 else -1
  end.

(** [c in s] *)
Fixpoint contains (c : ascii) (s : string) : bool :=
  match s with
  | EmptyString => false
  | String a s' => Ascii.eqb a c || contains c s'
  end.

(** [sep.join(parts)] *)
Fixpoint join (sep : string) (parts : list string) : string :=
  match parts with
  | [] => ""
  | [p] => p
  | p :: rest => p +:+ sep +:+ join sep rest
  end.

Fixpoint concat_map (f : ascii -> string) (s : string) : string :=
  match s with
  | EmptyString => ""
  | String a s' => f a +:+ concat_map f s'
  end.

Definition code (a : ascii) : N := N_of_ascii a.

(** The code points below 256 that Python counts as whitespace
    ([str.isspace]): TAB..CR, FS..US, SPACE, NEL and NBSP. *)
Definition is_whitespace (a : ascii) : bool :=
  let n := code a in
  ((9 <=? n) && (n <=? 13) || (28 <=? n) && (n <=? 32)
   || (n =? 133) || (n =? 160))%N.

Fixpoint all_whitespace (s : string) : bool :=
  match s with
  | EmptyString => true
  | String a s' => is_whitespace a && all_whitespace s'
  end.

(** [s.isspace()]: at least one character, and all of them whitespace. *)
Definition isspace (s : string) : bool :=
  match s with
  | EmptyString => false
  | _ => all_whitespace s
  end.

(** [bool(s)] *)
Definition nonempty (s : string) : bool :=
  match s with EmptyString => false | _ => true end.

Definition hex_digit (n : N) : ascii :=
  match n with
  | 0 => "0" | 1 => "1" | 2 => "2" | 3 => "3" | 4 => "4" | 5 => "5"
  | 6 => "6" | 7 => "7" | 8 => "8" | 9 => "9" | 10 => "a" | 11 => "b"
  | 12 => "c" | 13 => "d" | 14 => "e" | _ => "f"
  end%N%char.

(** The two lowercase hexadecimal digits of a code point below 256. *)
Definition hex2 (a : ascii) : string :=
  String (hex_digit (code a / 16)) (String (hex_digit (code a mod 16)) "").

End Str.

(** ** Paths ([posixpath]) *)

(** [os.path.join(a, b)] *)
Definition os_path_join (a b : string) : string :=
  if Str.startswith b "/" then b
  else if negb (Str.nonempty a) || Str.endswith a "/" then a +:+ b
  else a +:+ "/" +:+ b.

(** The loop of [genericpath._splitext] that skips the leading dots of
    the last component: it runs over [p[filenameIndex:dotIndex]] and
    leaves at the first character that is not a dot. *)
Fixpoint only_dots (s : string) : bool :=
  match s with
  | EmptyString => true
  | String a s' => if Ascii.eqb a "." then only_dots s' else false
  end.

(** [os.path.splitext(p)] *)
Definition os_path_splitext (p : string) : string * string :=
  let sepIndex := Str.rfind "/" p in
  let dotIndex := Str.rfind "." p in
  if (sepIndex <? dotIndex)
     && negb (only_dots (Str.slice p (sepIndex + 1) dotIndex))
  then (Str.slice p 0 dotIndex, Str.drop (Z.to_nat dotIndex) p)
  else (p, "").

(** ** Python values *)

(** A [float].  A finite one is carried by the text [float.__repr__]
    prints for it, which determines it. *)
Inductive pyfloat :=
| FNan
| FInf
| FNegInf
| FFinite (repr : string).

#[warnings="-register-all"]
Inductive pyval :=
| PNone
| PBool (b : bool)
| PInt (n : Z)
| PFloat (f : pyfloat)
| PStr (s : string)
| PList (items : list pyval)
| PDict (items : list (string * pyval)).

(** A [dict] with [str] keys, in insertion order. *)
Abbreviation dict := (list (string * pyval)).

(** [d.get(key)] as an option; Python's [None] for a missing key is added
    by [get_or_none]. *)
Fixpoint dict_get (key : string) (d : dict) : option pyval :=
  match d with
  | [] => None
  | (k, v) :: d' => if String.eqb k key then Some v else dict_get key d'
  end.

Definition get_or_none (key : string) (d : dict) : pyval :=
  match dict_get key d with
  | Some v => v
  | None => PNone
  end.

(** [d[key] = value]: an existing key keeps its place, a new one goes
    last. *)
Fixpoint dict_set (key : string) (value : pyval) (d : dict) : dict :=
  match d with
  | [] => [(key, value)]
  | (k, v) :: d' =>
      if String.eqb k key then (k, value) :: d'
      else (k, v) :: dict_set key value d'
  end.

Definition float_is_zero (f : pyfloat) : bool :=
  match f with
  | FFinite r => String.eqb r "0.0" || String.eqb r "-0.0"
  | _ => false
  end.

(** [bool(v)], the test of [if v:]. *)
Definition truthy (v : pyval) : bool :=
  match v with
  | PNone => false
  | PBool b => b
  | PInt n => negb (n =? 0)
  | PFloat f => negb (float_is_zero f)
  | PStr s => Str.nonempty s
  | PList l => match l with [] => false | _ => true end
  | PDict d => match d with [] => false | _ => true end
  end.

(** *** [str] and [repr] *)

Definition float_str (f : pyfloat) : string :=
  match f with
  | FNan => "nan"
  | FInf => "inf"
  | FNegInf => "-inf"
  | FFinite r => r
  end.

(** [str.isprintable] on one code point below 256. *)
Definition is_printable (a : ascii) : bool :=
  let n := Str.code a in
  ((32 <=? n) && (n <=? 126) || (161 <=? n) && negb (n =? 173))%N.

Definition repr_char (quote : ascii) (a : ascii) : string :=
  if Ascii.eqb a quote || Ascii.eqb a "\" then String "\" (String a "")
  else if Ascii.eqb a "009" then "\t"
  else if Ascii.eqb a "010" then "\n"
  else if Ascii.eqb a "013" then "\r"
  else if is_printable a then String a ""
  else "\x" +:+ Str.hex2 a.

(** [repr(s)] of a [str]: single quotes, unless the text has a single
    quote and no double quote. *)
Definition str_repr (s : string) : string :=
  let quote : ascii :=
    if Str.contains "'" s && negb (Str.contains "034" s) then "034"%char
    else "'"%char in
  String quote (Str.concat_map (repr_char quote) s) +:+ String quote "".

Fixpoint py_repr (v : pyval) : string :=
  match v with
  | PNone => "None"
  | PBool true => "True"
  | PBool false => "False"
  | PInt n => pretty n
  | PFloat f => float_str f
  | PStr s => str_repr s
  | PList l => "[" +:+ Str.join ", " (map py_repr l) +:+ "]"
  | PDict d =>
      "{" +:+ Str.join ", "
                (map (fun kv => str_repr (fst kv) +:+ ": " +:+ py_repr (snd kv)) d)
          +:+ "}"
  end.

(** [str(v)], what an f-string field [{v}] renders. *)
Definition py_str (v : pyval) : string :=
  match v with
  | PStr s => s
  | _ => py_repr v
  end.

(** *** [json.dumps] *)

Definition float_json (f : pyfloat) : string :=
  match f with
  | FNan => "NaN"
  | FInf => "Infinity"
  | FNegInf => "-Infinity"
  | FFinite r => r
  end.

(** The one-character text made of a double quote. *)
Definition dquote : string := String "034" "".

Definition json_escape_char (a : ascii) : string :=
  if Ascii.eqb a "034" then "\" +:+ dquote
  else if Ascii.eqb a "\" then "\\"
  else if Ascii.eqb a "010" then "\n"
  else if Ascii.eqb a "013" then "\r"
  else if Ascii.eqb a "009" then "\t"
  else if Ascii.eqb a "008" then "\b"
  else if Ascii.eqb a "012" then "\f"
  else if ((32 <=? Str.code a) && (Str.code a <=? 126))%N then String a ""
  else "\u00" +:+ Str.hex2 a.

(** [json.encoder.py_encode_basestring_ascii] *)
Definition encode_basestring_ascii (s : string) : string :=
  dquote +:+ Str.concat_map json_escape_char s +:+ dquote.

Fixpoint spaces (n : nat) : string :=
  match n with
  | O => ""
  | S n' => String " " (spaces n')
  end.

(** The line break that opens nesting level [level] when the encoder
    runs with [indent]. *)
Definition newline_indent (indent level : nat) : string :=
  String "010" (spaces (indent * level)).

(** The encoder of [json.dumps(o, indent=indent)] at nesting level
    [level]: item separator [","], key separator [": "]. *)
Fixpoint iterencode (indent level : nat) (o : pyval) : string :=
  match o with
  | PNone => "null"
  | PBool true => "true"
  | PBool false => "false"
  | PInt n => pretty n
  | PFloat f => float_json f
  | PStr s => encode_basestring_ascii s
  | PList [] => "[]"
  | PList l =>
      "[" +:+ newline_indent indent (S level)
          +:+ Str.join ("," +:+ newline_indent indent (S level))
                (map (iterencode indent (S level)) l)
          +:+ newline_indent indent level +:+ "]"
  | PDict [] => "{}"
  | PDict d =>
      "{" +:+ newline_indent indent (S level)
          +:+ Str.join ("," +:+ newline_indent indent (S level))
                (map (fun kv => encode_basestring_ascii (fst kv) +:+ ": "
                                +:+ iterencode indent (S level) (snd kv)) d)
          +:+ newline_indent indent level +:+ "}"
  end.

Definition json_dumps (indent : nat) (o : pyval) : string :=
  iterencode indent 0 o.

(** ** The prompt builder *)

Definition quoted (s : string) : string := dquote +:+ s +:+ dquote.

(** The lines of a text, put together with line feeds between them. *)
Definition unlines (lines : list string) : string :=
  Str.join (String "010" "") lines.

(** The text of [json_format_instructions] (lines 28-43). *)
Definition json_format_instructions : string :=
  unlines
    [ "";
      "    {";
      "        " +:+ quoted "matched_required_skills" +:+ ": [],";
      "        " +:+ quoted "missing_required_skills" +:+ ": [],";
      "        " +:+ quoted "matched_optional_skills" +:+ ": [],";
      "        " +:+ quoted "education_match" +:+ ": " +:+ quoted "Yes/No/Partial" +:+ ",";
      "        " +:+ quoted "experience_match" +:+ ": " +:+ quoted "Yes/No" +:+ ",";
      "        " +:+ quoted "keywords_matched" +:+ ": [],";
      "        " +:+ quoted "soft_skills_match" +:+ ": " +:+ quoted "A brief analysis of soft skills match." +:+ ",";
      "        " +:+ quoted "resume_summary" +:+ ": " +:+ quoted "A 2-3 sentence summary of the resume." +:+ ",";
      "        " +:+ quoted "match_score" +:+ ": 0.0,";
      "        " +:+ quoted "city_tier_match" +:+ ": " +:+ quoted "Yes/No/Not Applicable" +:+ ",";
      "        " +:+ quoted "longest_tenure_months" +:+ ": 0,";
      "        " +:+ quoted "final_score" +:+ ": 0";
      "    }";
      "    " ].

(** The f-string of [prompt] (lines 45-75), part 0: up to the field [job_desc.get('City_Tier')]. *)
Definition prompt_part0 : string :=
  unlines
    [ "";
      "    Analyze the following resume against the provided job description for an IT role in India. ";
      "    Your task is to act as an expert IT recruiter and return a JSON object with a detailed analysis.";
      "";
      "    EVALUATION CRITERIA (IMPORTANT):";
      "    1.  Semantic Matching : Do not just keyword match. Understand the context. For example, if the resume lists " +:+ quoted "API development" +:+ " and the job requires " +:+ quoted "REST APIs" +:+ ", that's a strong match.";
      "    2.  Scoring Logic for 'final_score' (0-100 integer):";
      "        * The 'final_score' must summarize the overall quality.";
      "        * **Stability Bonus**: Candidates with a longer tenure in a single job ('longest_tenure_months') are more stable and should receive a higher score. ";
      "        * **Geographic Diversity Bonus**: Candidates from Tier-3 cities are highly valued to promote diversity. If the candidate's location appears to be in a Tier-3 city (any city not in Tier-1 or Tier-2 lists), give them a significant bonus in the score.";
      "    3.  City Tier Logic: Based on the candidate's most recent location in the resume, determine if their city tier matches the tier specified in the job description ('" ].

(** The f-string of [prompt] (lines 45-75), part 1: up to [job_desc.get('Tier-1_cities')]. *)
Definition prompt_part1 : string :=
  unlines
    [ "'). ";
      "        * Tier-1 Cities: " ].

(** The f-string of [prompt] (lines 45-75), part 2: up to [job_desc.get('Tier-2_cities')]. *)
Definition prompt_part2 : string :=
  unlines
    [ " ";
      "        * Tier-2 Cities (Examples): " ].

(** The f-string of [prompt] (lines 45-75), part 3: up to [json.dumps(job_desc, indent=2)]. *)
Definition prompt_part3 : string :=
  unlines
    [ " ";
      "        * Tier-3 Cities: All other cities. ";
      "";
      "    **JOB DESCRIPTION:**";
      "    ```json";
      "    " ].

(** The f-string of [prompt] (lines 45-75), part 4: up to [resume_text]. *)
Definition prompt_part4 : string :=
  unlines
    [ "";
      "    ```";
      "";
      "    **RESUME TEXT:**";
      "    ```";
      "    " ].

(** The f-string of [prompt] (lines 45-75), part 5: up to [json_format_instructions]. *)
Definition prompt_part5 : string :=
  unlines
    [ "";
      "    ```";
      "";
      "    **YOUR RESPONSE (must be ONLY the JSON object below):**";
      "    Return a single, valid JSON object structured exactly as follows:";
      "    ```json";
      "    " ].

(** The f-string of [prompt] (lines 45-75), part 6: the closing lines. *)
Definition prompt_part6 : string :=
  unlines
    [ "";
      "    ```";
      "    " ].

(** [create_llm_prompt(job_desc, resume_text)] for a job description of
    JSON's values: the fields of the f-string are rendered with [str]. *)
Definition create_llm_prompt (job_desc : dict) (resume_text : string) : string :=
  prompt_part0 +:+ py_str (get_or_none "City_Tier" job_desc)
  +:+ prompt_part1 +:+ py_str (get_or_none "Tier-1_cities" job_desc)
  +:+ prompt_part2 +:+ py_str (get_or_none "Tier-2_cities" job_desc)
  +:+ prompt_part3 +:+ json_dumps 2 (PDict job_desc)
  +:+ prompt_part4 +:+ resume_text
  +:+ prompt_part5 +:+ json_format_instructions
  +:+ prompt_part6.

(** ** Exceptions, the environment and the state *)

(** An instance of [Exception]: its class name and [str(e)]. *)
Record exn := Exn { exn_class : string; exn_str : string }.

Inductive result (A : Type) :=
| Ok (a : A)
| Raise (e : exn).
Arguments Ok {A} a.
Arguments Raise {A} e.

(** What [page.extract_text()] gives for one page of a PDF: a text,
    [None], or an exception. *)
Abbreviation page := (result (option string)).

(** The outside of the program: the file system, the process
    environment, the libraries and the inference endpoint.  Each field is
    the outcome of the named operation. *)
Record env := Env {
  (** [open(filepath, 'r')] followed by [yaml.safe_load(file)] *)
  yaml_safe_load : string -> result pyval;
  (** [os.path.exists(path)] *)
  os_path_exists : string -> bool;
  (** [os.makedirs(path)] *)
  os_makedirs : string -> result unit;
  (** [os.listdir(path)] *)
  os_listdir : string -> result (list string);
  (** [open(filepath, 'r')] followed by [file.read()] *)
  file_read : string -> result string;
  (** [open(filepath, 'rb')], [PyPDF2.PdfReader(file)] and the pages of
      [reader.pages] *)
  pdf_pages : string -> result (list page);
  (** [load_dotenv()] *)
  load_dotenv : result unit;
  (** [os.getenv(name)], once [load_dotenv] has run *)
  os_getenv : string -> option string;
  (** [OpenAI(api_key=key)] *)
  OpenAI : option string -> result unit;
  (** [client.chat.completions.create(...)] for the call that comes
      after [n] earlier ones, with whatever the client does inside it,
      then [.choices[0].message.content] *)
  chat_completions_create : nat -> string -> result (option string);
  (** [json.loads(text)] *)
  json_loads : string -> result pyval;
  (** [open(path, 'w')] *)
  open_for_writing : string -> result unit
}.

(** The operations the program performs on the outside, as they occur. *)
Inductive event :=
| Stdout (line : string)
| Makedirs (path : string)
| Listdir (path : string)
| Open (path : string) (mode : string)
| LoadDotenv
| NewClient
| Request (prompt : string)
| Dump (path : string) (content : string).

(** The files written so far and the trace of operations, oldest
    first. *)
Record state := State {
  files : gmap string string;
  trace : list event
}.

Definition initial : state := State ∅ [].

(** ** The monad of effects: state and exceptions *)

Definition M (A : Type) : Type := state -> result A * state.

Definition ret {A} (a : A) : M A := fun s => (Ok a, s).

Definition bind {A B} (m : M A) (k : A -> M B) : M B :=
  fun s =>
    match m s with
    | (Ok a, s') => k a s'
    | (Raise e, s') => (Raise e, s')
    end.

(** The outcome of an operation of the environment. *)
Definition lift {A} (r : result A) : M A := fun s => (r, s).

Definition raise {A} (e : exn) : M A := lift (Raise e).

(** [try: m  except Exception as e: handler e] *)
Definition try_except {A} (m : M A) (handler : exn -> M A) : M A :=
  fun s =>
    match m s with
    | (Ok a, s') => (Ok a, s')
    | (Raise e, s') => handler e s'
    end.

(** The state after the operations [evs], none of which writes a file. *)
Definition log (s : state) (evs : list event) : state :=
  State (files s) (trace s ++ evs).

Definition emit (ev : event) : M unit := fun s => (Ok tt, log s [ev]).

Definition get_trace : M (list event) := fun s => (Ok (trace s), s).

Declare Scope monad_scope.
Delimit Scope monad_scope with monad.
Notation "x <- m ;; k" := (bind m (fun x => k))
  (at level 100, m at next level, right associativity) : monad_scope.
Notation "m ;; k" := (bind m (fun _ => k))
  (at level 100, right associativity) : monad_scope.
Open Scope monad_scope.

(** [print(line)], on a standard output that accepts the line *)
Definition print (line : string) : M unit := emit (Stdout line).

(** [with open(path, 'w') as f: json.dump(obj, f, indent=indent)], when
    the file once opened takes the whole text *)
Definition dump_to_file (w : env) (path : string) (indent : nat) (obj : pyval)
  : M unit :=
  emit (Open path "w") ;;
  lift (open_for_writing w path) ;;
  fun s =>
    let content := json_dumps indent obj in
    (Ok tt, State (<[path := content]> (files s))
                  (trace s ++ [Dump path content])).

(** [for x in xs: body x] *)
Fixpoint for_each {A} (xs : list A) (body : A -> M unit) : M unit :=
  match xs with
  | [] => ret tt
  | x :: rest => body x ;; for_each rest body
  end.

(** The calls of [client.chat.completions.create] so far.  What the
    client sends to the endpoint inside a call is counted by
    [Full.http_sent]. *)
Fixpoint requests (tr : list event) : nat :=
  match tr with
  | [] => O
  | Request _ :: tr' => S (requests tr')
  | _ :: tr' => requests tr'
  end.

(** The [json.dump] calls completed so far. *)
Fixpoint dumps (tr : list event) : list (string * string) :=
  match tr with
  | [] => []
  | Dump path content :: tr' => (path, content) :: dumps tr'
  | _ :: tr' => dumps tr'
  end.

(** The paths the program itself has handed to [open] for reading so
    far.  The file [.env], which [load_dotenv] reads, is not among
    them: see [Full.dotenv_loads]. *)
Fixpoint opened (tr : list event) : list string :=
  match tr with
  | [] => []
  | Open path mode :: tr' =>
      if String.eqb mode "w" then opened tr' else path :: opened tr'
  | _ :: tr' => opened tr'
  end.

(** The lines printed so far. *)
Fixpoint printed (tr : list event) : list string :=
  match tr with
  | [] => []
  | Stdout line :: tr' => line :: printed tr'
  | _ :: tr' => printed tr'
  end.

(** ** The interpreter's own exceptions *)

Definition type_name (v : pyval) : string :=
  match v with
  | PNone => "NoneType"
  | PBool _ => "bool"
  | PInt _ => "int"
  | PFloat _ => "float"
  | PStr _ => "str"
  | PList _ => "list"
  | PDict _ => "dict"
  end.

(** [obj[key] = value] for a [str] key: only a [dict] takes it. *)
Definition setitem (obj : pyval) (key : string) (value : pyval) : result dict :=
  match obj with
  | PDict d => Ok (dict_set key value d)
  | PList _ =>
      Raise (Exn "TypeError" "list indices must be integers or slices, not str")
  | _ =>
      Raise (Exn "TypeError"
               ("'" +:+ type_name obj +:+ "' object does not support item assignment"))
  end.

(** ** The program *)

(** [load_job_description(filepath)] (lines 8-11) *)
Definition load_job_description (w : env) (filepath : string) : M pyval :=
  emit (Open filepath "r") ;;
  lift (yaml_safe_load w filepath).

(** [x or ''] for the result [x] of [extract_text]. *)
Definition or_empty (x : option string) : string :=
  match x with
  | Some t => if Str.nonempty t then t else ""
  | None => ""
  end.

(** [for page in reader.pages: text += page.extract_text() or ''], over
    the outcomes of the pages: the first exception ends the loop. *)
Fixpoint pages_loop (pages : list page) (text : string) : result string :=
  match pages with
  | [] => Ok text
  | Ok x :: rest => pages_loop rest (text +:+ or_empty x)
  | Raise e :: _ => Raise e
  end.

(** [extract_text_from_resume(filepath)] (lines 13-24) *)
Definition extract_text_from_resume (w : env) (filepath : string) : M string :=
  if Str.endswith filepath ".pdf" then
    emit (Open filepath "rb") ;;
    pages <- lift (pdf_pages w filepath) ;;
    lift (pages_loop pages "")
  else if Str.endswith filepath ".txt" then
    emit (Open filepath "r") ;;
    lift (file_read w filepath)
  else ret "".

(** [json.loads(content)] on the content of a reply, which may be
    [None]. *)
Definition loads_content (w : env) (content : option string) : result pyval :=
  match content with
  | Some text => json_loads w text
  | None =>
      Raise (Exn "TypeError"
               "the JSON object must be str, bytes or bytearray, not NoneType")
  end.

(** [get_analysis_from_gpt(prompt)] (lines 78-93) *)
Definition get_analysis_from_gpt (w : env) (prompt : string) : M pyval :=
  emit LoadDotenv ;;
  lift (load_dotenv w) ;;
  emit NewClient ;;
  lift (OpenAI w (os_getenv w "OPENAI_API_KEY")) ;;
  try_except
    (tr <- get_trace ;;
     emit (Request prompt) ;;
     content <- lift (chat_completions_create w (requests tr) prompt) ;;
     lift (loads_content w content))
    (fun e =>
       print ("An error occurred with the API call: " +:+ exn_str e) ;;
       ret PNone).

(** Lines 120-132 of [process_resumes_in_batch]: what is done with the
    result of the analysis. *)
Definition save_report (w : env) (reports_folder filename : string)
    (analysis_result : pyval) : M unit :=
  if truthy analysis_result then
    report <- lift (setitem analysis_result "candidate_name"
                      (PStr (fst (os_path_splitext filename)))) ;;
    let report_filename := fst (os_path_splitext filename) +:+ "_report.json" in
    let report_filepath := os_path_join reports_folder report_filename in
    dump_to_file w report_filepath 4 (PDict report) ;;
    print ("Successfully generated report for " +:+ filename)
  else
    print ("Failed to get analysis for " +:+ filename +:+ ".").

(** [filename.endswith(('.pdf', '.txt'))] *)
Definition eligible (filename : string) : bool :=
  Str.endswith filename ".pdf" || Str.endswith filename ".txt".

(** Lines 108-132: the body of the [try] of one file. *)
Definition process_file (w : env) (job_desc : dict)
    (resumes_folder reports_folder filename : string) : M unit :=
  let filepath := os_path_join resumes_folder filename in
  resume_text <- extract_text_from_resume w filepath ;;
  if negb (Str.nonempty resume_text) || Str.isspace resume_text then
    print ("Could not extract text from " +:+ filename +:+ ". Skipping.")
  else
    let prompt := create_llm_prompt job_desc resume_text in
    analysis_result <- get_analysis_from_gpt w prompt ;;
    save_report w reports_folder filename analysis_result.

(** Lines 102-136: one turn of the loop over the directory listing. *)
Definition iteration (w : env) (job_desc : dict)
    (resumes_folder reports_folder filename : string) : M unit :=
  if eligible filename then
    print ("Processing " +:+ filename +:+ "...") ;;
    try_except
      (process_file w job_desc resumes_folder reports_folder filename)
      (fun e =>
         print ("An error occurred while processing " +:+ filename +:+ ": "
                +:+ exn_str e))
  else ret tt.

(** [process_resumes_in_batch(job_desc, resumes_folder, reports_folder)]
    (lines 95-136) *)
Definition process_resumes_in_batch (w : env) (job_desc : dict)
    (resumes_folder reports_folder : string) : M unit :=
  (if os_path_exists w reports_folder then ret tt
   else emit (Makedirs reports_folder) ;; lift (os_makedirs w reports_folder)) ;;
  emit (Listdir resumes_folder) ;;
  filenames <- lift (os_listdir w resumes_folder) ;;
  for_each filenames (iteration w job_desc resumes_folder reports_folder).

Definition tier1_cities : pyval :=
  PList [PStr "Chennai"; PStr "Bangalore"; PStr "Delhi"; PStr "Hyderabad";
         PStr "Kolkata"; PStr "Mumbai"].

Definition tier2_cities : pyval :=
  PList [PStr "Coimbatore"; PStr "Trichy"; PStr "Madurai"].

(** The main block of the script (lines 139-149). *)
Definition main (w : env) : M unit :=
  print "Starting NexResume Semantic Matcher..." ;;
  job_description <- load_job_description w "job_description.yml" ;;
  with_tier1 <- lift (setitem job_description "Tier-1_cities" tier1_cities) ;;
  with_tier2 <- lift (setitem (PDict with_tier1) "Tier-2_cities" tier2_cities) ;;
  process_resumes_in_batch w with_tier2 "resumes/" "reports/" ;;
  print "Processing complete. Reports are saved in the 'reports/' folder.".

(** ** Notions used in the statements *)

(** The events of [extract_text_from_resume]: one [open], none for a
    path with another ending. *)
Definition extract_events (filepath : string) : list event :=
  if Str.endswith filepath ".pdf" then [Open filepath "rb"]
  else if Str.endswith filepath ".txt" then [Open filepath "r"]
  else [].

(** The path of the report of [filename]. *)
Definition report_path (reports_folder filename : string) : string :=
  os_path_join reports_folder
    (fst (os_path_splitext filename) +:+ "_report.json").

(** [not resume_text or resume_text.isspace()] *)
Definition blank (resume_text : string) : bool :=
  negb (Str.nonempty resume_text) || Str.isspace resume_text.

(** The line printed by the handler of the per-file [try]. *)
Definition error_line (filename : string) (e : exn) : string :=
  "An error occurred while processing " +:+ filename +:+ ": " +:+ exn_str e.

Definition processing_line (filename : string) : string :=
  "Processing " +:+ filename +:+ "...".

Definition skipping_line (filename : string) : string :=
  "Could not extract text from " +:+ filename +:+ ". Skipping.".

(** The store after the completed [json.dump] calls [ds]. *)
Definition apply_dumps (m : gmap string string) (ds : list (string * string))
  : gmap string string :=
  fold_left (fun m pc => <[pc.1 := pc.2]> m) ds m.

(** [s'] is reached from [s] by the operations [evs]. *)
Definition step_of (s s' : state) (evs : list event) : Prop :=
  trace s' = trace s ++ evs /\ files s' = apply_dumps (files s) (dumps evs).

(** What the analysis has to be for a report to be written: a [dict]
    with at least one entry, and the report file has to open. *)
Definition reportable (w : env) (reports_folder filename : string)
    (v : pyval) : Prop :=
  exists kv d,
    v = PDict (kv :: d)
    /\ open_for_writing w (report_path reports_folder filename) = Ok tt.

(** The text written for the analysis [analysis] of [filename]. *)
Definition report_content (filename : string) (analysis : dict) : string :=
  json_dumps 4
    (PDict (dict_set "candidate_name"
              (PStr (fst (os_path_splitext filename))) analysis)).

(** The processing of [filename], started in state [s], gets as far as
    a report: the extraction gives the text [resume_text], which is not
    blank, the analysis gives the non-empty [dict] [analysis], and the
    report file opens. *)
Definition succeeds_with (w : env) (job_desc : dict)
    (resumes_folder reports_folder filename : string) (s : state)
    (resume_text : string) (analysis : dict) : Prop :=
  let s0 := log s [Stdout (processing_line filename)] in
  let extraction :=
    extract_text_from_resume w (os_path_join resumes_folder filename) s0 in
  fst extraction = Ok resume_text
  /\ blank resume_text = false
  /\ fst (get_analysis_from_gpt w (create_llm_prompt job_desc resume_text)
            (snd extraction)) = Ok (PDict analysis)
  /\ analysis <> []
  /\ open_for_writing w (report_path reports_folder filename) = Ok tt.

Definition succeeds (w : env) (job_desc : dict)
    (resumes_folder reports_folder filename : string) (s : state) : Prop :=
  exists resume_text analysis,
    succeeds_with w job_desc resumes_folder reports_folder filename s
      resume_text analysis.

(** The state the loop of [process_resumes_in_batch] ends in. *)
Definition after_loop (w : env) (job_desc : dict)
    (resumes_folder reports_folder : string) (filenames : list string)
    (s : state) : state :=
  snd (for_each filenames
         (iteration w job_desc resumes_folder reports_folder) s).

(** The entries of the input directory that the loop goes through: those
    [os.listdir] returns, none when it raises. *)
Definition listing (w : env) (resumes_folder : string) : list string :=
  match os_listdir w resumes_folder with
  | Ok filenames => filenames
  | Raise _ => []
  end.

(** Following the specification: the input filename with its extension
    removed, the extension being the supported one, [.pdf] or [.txt],
    that the name of an eligible file ends in. *)
Definition without_extension (filename : string) : string :=
  Str.take (String.length filename - 4) filename.

(** The texts of the pages, one behind the other. *)
Definition concat_pages (texts : list (option string)) : string :=
  fold_right String.append "" (map or_empty texts).

(** Following the specification: the text of a page is the text
    extracted from it, and a page whose extraction yields nothing
    contributes the empty string; the text of a document is the text of
    its pages, in page order. *)
Definition page_text (x : option string) : string :=
  match x with
  | Some t => t
  | None => ""
  end.

Fixpoint text_of_pages (texts : list (option string)) : string :=
  match texts with
  | [] => ""
  | x :: rest => page_text x +:+ text_of_pages rest
  end.

(** ** Sample runs *)

Module Sample.

Definition job_description : dict :=
  [("role", PStr "Backend Developer");
   ("required_skills", PList [PStr "Java"; PStr "REST APIs"]);
   ("City_Tier", PStr "Tier-1")].

(** The job description as the main block hands it to the batch. *)
Definition job_desc : dict :=
  dict_set "Tier-2_cities" tier2_cities
    (dict_set "Tier-1_cities" tier1_cities job_description).

Definition alice_analysis : dict :=
  [("match_score", PFloat (FFinite "82.0")); ("final_score", PInt 85)].

Definition alice_text : string := "5 years Java experience, Chennai".

(** A directory of resumes and an endpoint.  The first request is
    answered with the analysis of Alice, the second with an empty JSON
    object, later ones fail.  The parameters are the listing of the
    input directory, the API key of the process environment and the
    outcome of opening a file for writing. *)
Definition office_with (listing : result (list string))
    (api_key : option string) (opening : string -> result unit) : env :=
  {| yaml_safe_load := fun _ => Ok (PDict job_description);
     os_path_exists := fun _ => false;
     os_makedirs := fun _ => Ok tt;
     os_listdir := fun _ => listing;
     file_read := fun path =>
       if String.eqb path "resumes/alice.txt" then Ok alice_text
       else if String.eqb path "resumes/dave.txt" then Ok "Dave, Go"
       else Ok (String " " (String "010" ""));
     pdf_pages := fun path =>
       if String.eqb path "resumes/carol.pdf"
       then Raise (Exn "PdfReadError" "EOF marker not found")
       else Ok [Ok (Some "Bob, "); Ok None; Ok (Some "Python")];
     load_dotenv := Ok tt;
     os_getenv := fun _ => api_key;
     OpenAI := fun key =>
       match key with
       | Some _ => Ok tt
       | None =>
           Raise (Exn "OpenAIError"
                    "The api_key client option must be set either by passing api_key to the client or by setting the OPENAI_API_KEY environment variable")
       end;
     chat_completions_create := fun n _ =>
       match n with
       | O => Ok (Some (json_dumps 0 (PDict alice_analysis)))
       | S O => Ok (Some "{}")
       | _ => Raise (Exn "RateLimitError" "Error code: 429")
       end;
     json_loads := fun text =>
       if String.eqb text "{}" then Ok (PDict [])
       else if String.eqb text (json_dumps 0 (PDict alice_analysis))
            then Ok (PDict alice_analysis)
            else Raise (Exn "JSONDecodeError" "Expecting value");
     open_for_writing := opening |}.

Definition office : env :=
  office_with
    (Ok ["alice.txt"; "notes.md"; "blank.txt"; "bob.pdf"; "carol.pdf";
         "dave.txt"])
    (Some "sk-test") (fun _ => Ok tt).

(** The input directory is missing. *)
Definition no_resumes_folder : env :=
  office_with
    (Raise (Exn "FileNotFoundError"
              "[Errno 2] No such file or directory: 'resumes/'"))
    (Some "sk-test") (fun _ => Ok tt).

(** The output directory does not take new files. *)
Definition read_only_reports : env :=
  office_with (Ok ["alice.txt"]) (Some "sk-test")
    (fun path =>
       Raise (Exn "PermissionError"
                ("[Errno 13] Permission denied: '" +:+ path +:+ "'"))).

(** No API key in the process environment. *)
Definition no_api_key : env :=
  office_with (Ok ["alice.txt"]) None (fun _ => Ok tt).

(** A resume whose whole name is the extension. *)
Definition dotfile : env :=
  office_with (Ok [".pdf"]) (Some "sk-test") (fun _ => Ok tt).

End Sample.

(** ** More sample runs *)

Module Cases.

(** An office whose endpoint gives the analysis of Alice to every
    request.  The parameters are the configuration as loaded, the
    outcome of creating the output directory, the listing of the input
    directory and the pages of every PDF. *)
Definition office (config : result pyval) (made : result unit)
    (filenames : list string) (pages : list page) : env :=
  {| yaml_safe_load := fun _ => config;
     os_path_exists := fun _ => false;
     os_makedirs := fun _ => made;
     os_listdir := fun _ => Ok filenames;
     file_read := file_read Sample.office;
     pdf_pages := fun _ => Ok pages;
     load_dotenv := Ok tt;
     os_getenv := os_getenv Sample.office;
     OpenAI := OpenAI Sample.office;
     chat_completions_create := fun _ _ =>
       Ok (Some (json_dumps 0 (PDict Sample.alice_analysis)));
     json_loads := json_loads Sample.office;
     open_for_writing := fun _ => Ok tt |}.

(** A PDF whose second page cannot be read. *)
Definition torn_pdf : env :=
  office (Ok (PDict Sample.job_description)) (Ok tt) ["eve.pdf"]
    [Ok (Some "Eve"); Raise (Exn "PdfReadError" "Invalid page object");
     Ok (Some "Rust")].

(** An empty configuration file. *)
Definition empty_config : env :=
  office (Ok PNone) (Ok tt) ["alice.txt"] [].

(** The output directory cannot be created. *)
Definition no_reports_folder : env :=
  office (Ok (PDict Sample.job_description))
    (Raise (Exn "PermissionError" "[Errno 13] Permission denied: 'reports/'"))
    ["alice.txt"] [].

(** Two resumes of Alice. *)
Definition two_resumes : env :=
  office (Ok (PDict Sample.job_description)) (Ok tt)
    ["alice.pdf"; "alice.txt"] [Ok (Some "Alice, Java")].

(** A scanned document of three pages. *)
Definition scanned_pdf : env :=
  office (Ok (PDict Sample.job_description)) (Ok tt) ["scan.pdf"]
    [Ok None; Ok (Some ""); Ok (Some " ")].

(** An endpoint whose reply is a JSON list. *)
Definition listed_reply : env :=
  {| yaml_safe_load := yaml_safe_load Sample.office;
     os_path_exists := os_path_exists Sample.office;
     os_makedirs := os_makedirs Sample.office;
     os_listdir := fun _ => Ok ["alice.txt"];
     file_read := file_read Sample.office;
     pdf_pages := pdf_pages Sample.office;
     load_dotenv := Ok tt;
     os_getenv := os_getenv Sample.office;
     OpenAI := OpenAI Sample.office;
     chat_completions_create := fun _ _ => Ok (Some "[...]");
     json_loads := fun _ => Ok (PList [PStr "Java"]);
     open_for_writing := fun _ => Ok tt |}.

End Cases.

(** * The program with every fault

    The embedding above takes four things for granted: a standard output
    that accepts every line, a report file that is written completely
    once it has opened, a job description made of JSON's values, and a
    client that sends one HTTP request for one call.  The program is
    embedded here a second time without them:
    - [print] asks the standard output, which may refuse a line (a name
      it cannot encode, a closed pipe);
    - [json.dump] and the closing of the report file may raise after the
      file has opened, and leave a part of the report behind;
    - the job description is a [yval], with the values [yaml.safe_load]
      gives beyond JSON's (dates, bytes, sets, tuples, keys that are not
      [str]), some of which [json.dumps] refuses, and [create_llm_prompt]
      is a computation that may raise;
    - the HTTP requests that the client makes inside one call of
      [client.chat.completions.create] are counted apart from the calls.
    [extract_text_from_resume] prints nothing and writes nothing: it is
    the one above. *)

Module Full.

(** ** The values of a job description *)

(** What [yaml.safe_load] gives.  [YOther] stands for an object of any
    other type by what the program can see of it: the name of its type,
    its [str], its [repr], and the exception [json.dumps] raises for it
    (a [datetime.date], a [bytes], a [set], a container that holds itself
    through an alias).  The keys of a mapping are values too. *)
#[warnings="-register-all"]
Inductive yval :=
| YNone
| YBool (b : bool)
| YInt (n : Z)
| YFloat (f : pyfloat)
| YStr (s : string)
| YList (items : list yval)
| YTuple (items : list yval)
| YDict (items : list (yval * yval))
| YOther (type_of str_of repr_of : string) (json_error : exn).

Abbreviation ydict := (list (yval * yval)).

(** A [datetime.date], as YAML's timestamps are loaded. *)
Definition date (iso repr_of : string) : yval :=
  YOther "date" iso repr_of
    (Exn "TypeError" "Object of type date is not JSON serializable").

Definition type_name (v : yval) : string :=
  match v with
  | YNone => "NoneType"
  | YBool _ => "bool"
  | YInt _ => "int"
  | YFloat _ => "float"
  | YStr _ => "str"
  | YList _ => "list"
  | YTuple _ => "tuple"
  | YDict _ => "dict"
  | YOther t _ _ _ => t
  end.

(** [job_desc.get(key)] for a [str] key: only a [str] key is equal to
    it. *)
Fixpoint yget (key : string) (d : ydict) : option yval :=
  match d with
  | [] => None
  | (YStr k, v) :: d' => if String.eqb k key then Some v else yget key d'
  | _ :: d' => yget key d'
  end.

Definition yget_or_none (key : string) (d : ydict) : yval :=
  match yget key d with
  | Some v => v
  | None => YNone
  end.

(** [d[key] = value] for a [str] key. *)
Fixpoint ydict_set (key : string) (value : yval) (d : ydict) : ydict :=
  match d with
  | [] => [(YStr key, value)]
  | (YStr k, v) :: d' =>
      if String.eqb k key then (YStr k, value) :: d'
      else (YStr k, v) :: ydict_set key value d'
  | kv :: d' => kv :: ydict_set key value d'
  end.

(** [obj[key] = value] for a [str] key. *)
Definition ysetitem (obj : yval) (key : string) (value : yval) : result ydict :=
  match obj with
  | YDict d => Ok (ydict_set key value d)
  | YList _ =>
      Raise (Exn "TypeError" "list indices must be integers or slices, not str")
  | _ =>
      Raise (Exn "TypeError"
               ("'" +:+ type_name obj +:+ "' object does not support item assignment"))
  end.

(** *** Results in sequence *)

Definition and_then {A B} (r : result A) (k : A -> result B) : result B :=
  match r with
  | Ok a => k a
  | Raise e => Raise e
  end.

Section Each.

Context {A B : Type} (f : A -> result B).

(** [f] on every item, from the left, up to the first exception. *)
Fixpoint each (l : list A) : result (list B) :=
  match l with
  | [] => Ok []
  | a :: l' =>
      and_then (f a) (fun b => and_then (each l') (fun bs => Ok (b :: bs)))
  end.

End Each.

(** *** [str] and [repr] *)

(** The decimal text of an [int] is refused beyond 4300 digits. *)
Definition int_limit : Z := 10 ^ 4300.

Definition int_text (n : Z) : result string :=
  if Z.abs n <? int_limit then Ok (pretty n)
  else
    Raise (Exn "ValueError"
             "Exceeds the limit (4300 digits) for integer string conversion; use sys.set_int_max_str_digits() to increase the limit").

Fixpoint yrepr (v : yval) : result string :=
  match v with
  | YNone => Ok "None"
  | YBool true => Ok "True"
  | YBool false => Ok "False"
  | YInt n => int_text n
  | YFloat f => Ok (float_str f)
  | YStr s => Ok (str_repr s)
  | YList l =>
      and_then (each yrepr l)
        (fun parts => Ok ("[" +:+ Str.join ", " parts +:+ "]"))
  | YTuple l =>
      and_then (each yrepr l)
        (fun parts =>
           match parts with
           | [part] => Ok ("(" +:+ part +:+ ",)")
           | _ => Ok ("(" +:+ Str.join ", " parts +:+ ")")
           end)
  | YDict d =>
      and_then
        (each (fun kv =>
                 and_then (yrepr (fst kv))
                   (fun k =>
                      and_then (yrepr (snd kv))
                        (fun x => Ok (k +:+ ": " +:+ x)))) d)
        (fun parts => Ok ("{" +:+ Str.join ", " parts +:+ "}"))
  | YOther _ _ r _ => Ok r
  end.

(** [str(v)], what an f-string field [{v}] renders. *)
Definition ystr (v : yval) : result string :=
  match v with
  | YStr s => Ok s
  | YOther _ s _ _ => Ok s
  | _ => yrepr v
  end.

(** *** [json.dumps] *)

(** The text a key of a mapping is written as. *)
Definition json_key (k : yval) : result string :=
  match k with
  | YStr s => Ok s
  | YFloat f => Ok (float_json f)
  | YBool true => Ok "true"
  | YBool false => Ok "false"
  | YNone => Ok "null"
  | YInt n => int_text n
  | _ =>
      Raise (Exn "TypeError"
               ("keys must be str, int, float, bool or None, not "
                +:+ type_name k))
  end.

(** The encoder of [json.dumps(o, indent=indent)] at nesting level
    [level]; a [tuple] is written as a [list]. *)
Fixpoint yiterencode (indent level : nat) (o : yval) : result string :=
  match o with
  | YNone => Ok "null"
  | YBool true => Ok "true"
  | YBool false => Ok "false"
  | YInt n => int_text n
  | YFloat f => Ok (float_json f)
  | YStr s => Ok (encode_basestring_ascii s)
  | YList [] | YTuple [] => Ok "[]"
  | YList l | YTuple l =>
      and_then (each (yiterencode indent (S level)) l)
        (fun parts =>
           Ok ("[" +:+ newline_indent indent (S level)
               +:+ Str.join ("," +:+ newline_indent indent (S level)) parts
               +:+ newline_indent indent level +:+ "]"))
  | YDict [] => Ok "{}"
  | YDict d =>
      and_then
        (each (fun kv =>
                 and_then (json_key (fst kv))
                   (fun k =>
                      and_then (yiterencode indent (S level) (snd kv))
                        (fun x =>
                           Ok (encode_basestring_ascii k +:+ ": " +:+ x)))) d)
        (fun parts =>
           Ok ("{" +:+ newline_indent indent (S level)
               +:+ Str.join ("," +:+ newline_indent indent (S level)) parts
               +:+ newline_indent indent level +:+ "}"))
  | YOther _ _ _ e => Raise e
  end.

Definition yjson_dumps (indent : nat) (o : yval) : result string :=
  yiterencode indent 0 o.

(** ** The outside *)

(** The environment [base] of the first embedding, and what it leaves
    out. *)
Record world := World {
  base : env;
  (** [open(filepath, 'r')] followed by [yaml.safe_load(file)] *)
  load_yaml : string -> result yval;
  (** [print(line)] after [n] lines have been printed *)
  stdout_write : nat -> string -> result unit;
  (** [json.dump(obj, f, indent=4)] and the closing of [f], for the file
      opened at [path] and the text [content] of [obj]: [None] when both
      complete, the exception and the number of characters that reached
      the file otherwise *)
  dump_fault : string -> string -> option (exn * nat);
  (** the HTTP requests the client makes inside the call of
      [client.chat.completions.create] that comes after [n] earlier
      calls *)
  http_requests : nat -> string -> nat
}.

(** ** The program *)

(** [print(line)] *)
Definition print (x : world) (line : string) : M unit :=
  fun s =>
    match stdout_write x (length (printed (trace s))) line with
    | Ok _ => (Ok tt, log s [Stdout line])
    | Raise e => (Raise e, s)
    end.

(** [with open(path, 'w') as f: json.dump(obj, f, indent=indent)] *)
Definition dump_to_file (x : world) (path : string) (indent : nat)
    (obj : pyval) : M unit :=
  emit (Open path "w") ;;
  lift (open_for_writing (base x) path) ;;
  fun s =>
    let content := json_dumps indent obj in
    match dump_fault x path content with
    | None =>
        (Ok tt, State (<[path := content]> (files s))
                      (trace s ++ [Dump path content]))
    | Some (e, reached) =>
        (Raise e, State (<[path := Str.take reached content]> (files s))
                        (trace s))
    end.

(** [load_job_description(filepath)] (lines 8-11) *)
Definition load_job_description (x : world) (filepath : string) : M yval :=
  emit (Open filepath "r") ;;
  lift (load_yaml x filepath).

(** [create_llm_prompt(job_desc, resume_text)] (lines 26-76): the fields
    of the f-string are rendered one after the other. *)
Definition create_llm_prompt (job_desc : ydict) (resume_text : string)
  : M string :=
  city_tier <- lift (ystr (yget_or_none "City_Tier" job_desc)) ;;
  tier1_cities <- lift (ystr (yget_or_none "Tier-1_cities" job_desc)) ;;
  tier2_cities <- lift (ystr (yget_or_none "Tier-2_cities" job_desc)) ;;
  job_json <- lift (yjson_dumps 2 (YDict job_desc)) ;;
  ret (prompt_part0 +:+ city_tier
       +:+ prompt_part1 +:+ tier1_cities
       +:+ prompt_part2 +:+ tier2_cities
       +:+ prompt_part3 +:+ job_json
       +:+ prompt_part4 +:+ resume_text
       +:+ prompt_part5 +:+ json_format_instructions
       +:+ prompt_part6).

(** [get_analysis_from_gpt(prompt)] (lines 78-93) *)
Definition get_analysis_from_gpt (x : world) (prompt : string) : M pyval :=
  emit LoadDotenv ;;
  lift (load_dotenv (base x)) ;;
  emit NewClient ;;
  lift (OpenAI (base x) (os_getenv (base x) "OPENAI_API_KEY")) ;;
  try_except
    (tr <- get_trace ;;
     emit (Request prompt) ;;
     content <- lift (chat_completions_create (base x) (requests tr) prompt) ;;
     lift (loads_content (base x) content))
    (fun e =>
       print x ("An error occurred with the API call: " +:+ exn_str e) ;;
       ret PNone).

(** Lines 120-132 of [process_resumes_in_batch]: what is done with the
    result of the analysis. *)
Definition save_report (x : world) (reports_folder filename : string)
    (analysis_result : pyval) : M unit :=
  if truthy analysis_result then
    report <- lift (setitem analysis_result "candidate_name"
                      (PStr (fst (os_path_splitext filename)))) ;;
    let report_filename := fst (os_path_splitext filename) +:+ "_report.json" in
    let report_filepath := os_path_join reports_folder report_filename in
    dump_to_file x report_filepath 4 (PDict report) ;;
    print x ("Successfully generated report for " +:+ filename)
  else
    print x ("Failed to get analysis for " +:+ filename +:+ ".").

(** Lines 108-132: the body of the [try] of one file. *)
Definition process_file (x : world) (job_desc : ydict)
    (resumes_folder reports_folder filename : string) : M unit :=
  let filepath := os_path_join resumes_folder filename in
  resume_text <- extract_text_from_resume (base x) filepath ;;
  if negb (Str.nonempty resume_text) || Str.isspace resume_text then
    print x ("Could not extract text from " +:+ filename +:+ ". Skipping.")
  else
    prompt <- create_llm_prompt job_desc resume_text ;;
    analysis_result <- get_analysis_from_gpt x prompt ;;
    save_report x reports_folder filename analysis_result.

(** Lines 102-136: one turn of the loop over the directory listing. *)
Definition iteration (x : world) (job_desc : ydict)
    (resumes_folder reports_folder filename : string) : M unit :=
  if eligible filename then
    print x ("Processing " +:+ filename +:+ "...") ;;
    try_except
      (process_file x job_desc resumes_folder reports_folder filename)
      (fun e =>
         print x ("An error occurred while processing " +:+ filename +:+ ": "
                  +:+ exn_str e))
  else ret tt.

(** [process_resumes_in_batch(job_desc, resumes_folder, reports_folder)]
    (lines 95-136) *)
Definition process_resumes_in_batch (x : world) (job_desc : ydict)
    (resumes_folder reports_folder : string) : M unit :=
  (if os_path_exists (base x) reports_folder then ret tt
   else emit (Makedirs reports_folder) ;;
        lift (os_makedirs (base x) reports_folder)) ;;
  emit (Listdir resumes_folder) ;;
  filenames <- lift (os_listdir (base x) resumes_folder) ;;
  for_each filenames (iteration x job_desc resumes_folder reports_folder).

Definition tier1_cities : yval :=
  YList [YStr "Chennai"; YStr "Bangalore"; YStr "Delhi"; YStr "Hyderabad";
         YStr "Kolkata"; YStr "Mumbai"].

Definition tier2_cities : yval :=
  YList [YStr "Coimbatore"; YStr "Trichy"; YStr "Madurai"].

(** The main block of the script (lines 139-149). *)
Definition main (x : world) : M unit :=
  print x "Starting NexResume Semantic Matcher..." ;;
  job_description <- load_job_description x "job_description.yml" ;;
  with_tier1 <- lift (ysetitem job_description "Tier-1_cities" tier1_cities) ;;
  with_tier2 <- lift (ysetitem (YDict with_tier1) "Tier-2_cities" tier2_cities) ;;
  process_resumes_in_batch x with_tier2 "resumes/" "reports/" ;;
  print x "Processing complete. Reports are saved in the 'reports/' folder.".

(** ** Notions used in the statements *)

(** The number of the next line of the standard output. *)
Definition next_line (s : state) : nat := length (printed (trace s)).

(** The calls of [load_dotenv], which reads the file [.env]. *)
Fixpoint dotenv_loads (tr : list event) : nat :=
  match tr with
  | [] => O
  | LoadDotenv :: tr' => S (dotenv_loads tr')
  | _ :: tr' => dotenv_loads tr'
  end.

(** The HTTP requests made inside the calls of
    [client.chat.completions.create] of a trace, the first of which comes
    after [n] earlier calls. *)
Fixpoint http_from (x : world) (n : nat) (tr : list event) : nat :=
  match tr with
  | [] => O
  | Request prompt :: tr' => (http_requests x n prompt + http_from x (S n) tr')%nat
  | _ :: tr' => http_from x n tr'
  end.

Definition http_sent (x : world) (tr : list event) : nat := http_from x 0 tr.

(** The outcome of building the prompt: [create_llm_prompt] in the
    first state. *)
Definition prompt_of (job_desc : ydict) (resume_text : string) : result string :=
  fst (create_llm_prompt job_desc resume_text initial).

(** The outcome of the call of [client.chat.completions.create] that
    comes after [n] earlier ones, and of decoding its reply. *)
Definition reply (x : world) (n : nat) (prompt : string) : result pyval :=
  match chat_completions_create (base x) n prompt with
  | Ok content => loads_content (base x) content
  | Raise e => Raise e
  end.

Definition api_error_line (e : exn) : string :=
  "An error occurred with the API call: " +:+ exn_str e.

Definition success_line (filename : string) : string :=
  "Successfully generated report for " +:+ filename.

Definition failed_line (filename : string) : string :=
  "Failed to get analysis for " +:+ filename +:+ ".".

(** [load_dotenv()] and the constructor of the client both return. *)
Definition client_made (x : world) : bool :=
  match load_dotenv (base x) with
  | Ok _ =>
      match OpenAI (base x) (os_getenv (base x) "OPENAI_API_KEY") with
      | Ok _ => true
      | Raise _ => false
      end
  | Raise _ => false
  end.

(** The text of a resume, when its extraction gives one that is not
    blank, and the prompt built from it, when it can be built. *)
Definition text_of (x : world) (resumes_folder filename : string)
  : option string :=
  match fst (extract_text_from_resume (base x)
               (os_path_join resumes_folder filename) initial) with
  | Ok resume_text => if blank resume_text then None else Some resume_text
  | Raise _ => None
  end.

Definition prompt_for (x : world) (job_desc : ydict)
    (resumes_folder filename : string) : option string :=
  match text_of x resumes_folder filename with
  | Some resume_text =>
      match prompt_of job_desc resume_text with
      | Ok prompt => Some prompt
      | Raise _ => None
      end
  | None => None
  end.

(** The turn of [filename], begun in state [s], gets as far as the
    writing of a report: its first line is printed, the extraction gives
    the text [resume_text], which is not blank, the prompt is built, the
    analysis gives the non-empty [dict] [analysis], and the report file
    opens. *)
Definition succeeds_with (x : world) (job_desc : ydict)
    (resumes_folder reports_folder filename : string) (s : state)
    (resume_text : string) (analysis : dict) : Prop :=
  let s0 := log s [Stdout (processing_line filename)] in
  let extraction :=
    extract_text_from_resume (base x) (os_path_join resumes_folder filename)
      s0 in
  stdout_write x (next_line s) (processing_line filename) = Ok tt
  /\ fst extraction = Ok resume_text
  /\ blank resume_text = false
  /\ (exists prompt,
        prompt_of job_desc resume_text = Ok prompt
        /\ fst (get_analysis_from_gpt x prompt (snd extraction))
           = Ok (PDict analysis))
  /\ analysis <> []
  /\ open_for_writing (base x) (report_path reports_folder filename) = Ok tt.

Definition succeeds (x : world) (job_desc : ydict)
    (resumes_folder reports_folder filename : string) (s : state) : Prop :=
  exists resume_text analysis,
    succeeds_with x job_desc resumes_folder reports_folder filename s
      resume_text analysis.

(** The standard output accepts every line. *)
Definition stdout_works (x : world) : Prop :=
  forall n line, stdout_write x n line = Ok tt.

(** The standard output refuses, with [e], one of the two lines that are
    printed outside the [try] of a file: the first line of the turn of
    an eligible entry of [filenames] (line 104), or the line of the
    handler of its [try] (line 136). *)
Definition print_fault (x : world) (filenames : list string) (e : exn) : Prop :=
  exists n filename,
    In filename filenames
    /\ eligible filename = true
    /\ (stdout_write x n (processing_line filename) = Raise e
        \/ exists e', stdout_write x n (error_line filename e') = Raise e).

(** What reaches the report file at [path] of the text [content]: the
    whole of it, or its first characters when [json.dump] or the closing
    of the file fails. *)
Definition written (x : world) (path content : string) : string :=
  match dump_fault x path content with
  | None => content
  | Some (_, reached) => Str.take reached content
  end.

(** The [json.dump] calls that complete when the report file at [path]
    has opened for [content]. *)
Definition completed (x : world) (path content : string)
  : list (string * string) :=
  match dump_fault x path content with
  | None => [(path, content)]
  | Some _ => []
  end.

(** Nothing is written between [s] and [s']. *)
Definition same_store (s s' : state) : Prop :=
  dumps (trace s') = dumps (trace s) /\ files s' = files s.


End Full.

(** ** Sample runs with faults *)

Module Faulty.

(** The world of an environment in which nothing more fails: every line
    is printed, every report that opens is written completely, and the
    client makes one HTTP request in a call. *)
Definition plain_world (w : env) (config : result Full.yval) : Full.world :=
  {| Full.base := w;
     Full.load_yaml := fun _ => config;
     Full.stdout_write := fun _ _ => Ok tt;
     Full.dump_fault := fun _ _ => None;
     Full.http_requests := fun _ _ => 1%nat |}.

Definition job_description : Full.ydict :=
  [(Full.YStr "role", Full.YStr "Backend Developer");
   (Full.YStr "required_skills",
    Full.YList [Full.YStr "Java"; Full.YStr "REST APIs"]);
   (Full.YStr "City_Tier", Full.YStr "Tier-1")].

(** The job description as the main block hands it to the batch. *)
Definition job_desc : Full.ydict :=
  Full.ydict_set "Tier-2_cities" Full.tier2_cities
    (Full.ydict_set "Tier-1_cities" Full.tier1_cities job_description).

Definition office : Full.world :=
  plain_world Sample.office (Ok (Full.YDict job_description)).

(** The input directory is missing. *)
Definition no_resumes_folder : Full.world :=
  plain_world Sample.no_resumes_folder (Ok (Full.YDict job_description)).

(** The output directory does not take new files. *)
Definition read_only_reports : Full.world :=
  plain_world Sample.read_only_reports (Ok (Full.YDict job_description)).

(** No API key in the process environment. *)
Definition no_api_key : Full.world :=
  plain_world Sample.no_api_key (Ok (Full.YDict job_description)).

(** A resume named with a letter beyond ASCII. *)
Definition resume_name : string := String "r" (String "233" "sum.txt").

Fixpoint has_non_ascii (line : string) : bool :=
  match line with
  | EmptyString => false
  | String a rest => (128 <=? Str.code a)%N || has_non_ascii rest
  end.

(** A standard output that encodes in ASCII, and a listing with a name
    it cannot encode between two it can. *)
Definition ascii_stdout : Full.world :=
  {| Full.base :=
       Sample.office_with (Ok ["alice.txt"; resume_name; "dave.txt"])
         (Some "sk-test") (fun _ => Ok tt);
     Full.load_yaml := fun _ => Ok (Full.YDict job_description);
     Full.stdout_write := fun _ line =>
       if has_non_ascii line
       then Raise (Exn "UnicodeEncodeError"
                     "'ascii' codec can't encode character '\xe9' in position 12: ordinal not in range(128)")
       else Ok tt;
     Full.dump_fault := fun _ _ => None;
     Full.http_requests := fun _ _ => 1%nat |}.

(** The disk is full: the report file opens and takes the first 16
    characters. *)
Definition disk_full : Full.world :=
  {| Full.base := Sample.office_with (Ok ["alice.txt"]) (Some "sk-test")
                    (fun _ => Ok tt);
     Full.load_yaml := fun _ => Ok (Full.YDict job_description);
     Full.stdout_write := fun _ _ => Ok tt;
     Full.dump_fault := fun _ _ =>
       Some (Exn "OSError" "[Errno 28] No space left on device", 16%nat);
     Full.http_requests := fun _ _ => 1%nat |}.

(** A job description that misses the three fields of the template and
    holds a date, as the YAML line [posted: 2024-01-15] gives one. *)
Definition dated : Full.ydict :=
  [(Full.YStr "role", Full.YStr "Backend Developer");
   (Full.YStr "posted",
    Full.date "2024-01-15" "datetime.date(2024, 1, 15)")].

(** The client of the sample office with its default retries: a call
    that ends in an exception has made three HTTP requests. *)
Definition retrying : Full.world :=
  {| Full.base := Sample.office;
     Full.load_yaml := fun _ => Ok (Full.YDict job_description);
     Full.stdout_write := fun _ _ => Ok tt;
     Full.dump_fault := fun _ _ => None;
     Full.http_requests := fun n prompt =>
       match chat_completions_create Sample.office n prompt with
       | Ok _ => 1%nat
       | Raise _ => 3%nat
       end |}.

End Faulty.

(** * Properties *)

Ltac run_monad :=
  unfold bind, ret, lift, raise, try_except, print, emit, get_trace; simpl.

(** ** The model at work *)

Example splitext_plain : os_path_splitext "alice.pdf" = ("alice", ".pdf").
Proof. reflexivity. Qed.

Example splitext_hidden :
  os_path_splitext ".hidden.txt" = (".hidden", ".txt").
Proof. reflexivity. Qed.

Example splitext_leading_dots : os_path_splitext "..pdf" = ("..pdf", "").
Proof. reflexivity. Qed.

Example isspace_blank_lines :
  Str.isspace (String " " (String "009" (String "010" ""))) = true
  /\ Str.isspace "" = false
  /\ Str.isspace " a " = false.
Proof. repeat split. Qed.

Example str_of_tier_list :
  py_str tier2_cities = "['Coimbatore', 'Trichy', 'Madurai']".
Proof. reflexivity. Qed.

(** The scenario of the specification: [alice.txt] and a reply with the
    scores 82.0 and 85 give [reports/alice_report.json], which names the
    candidate and keeps the scores. *)
Example sample_run_report :
  fst (main Sample.office initial) = Ok tt
  /\ files (snd (main Sample.office initial))
     = {[ "reports/alice_report.json"
          := json_dumps 4
               (PDict [("match_score", PFloat (FFinite "82.0"));
                       ("final_score", PInt 85);
                       ("candidate_name", PStr "alice")]) ]}.
Proof. split; vm_compute; reflexivity. Qed.

(** Two resumes with the same root share one report file. *)
Example same_root_same_report :
  report_path "reports/" "alice.pdf" = report_path "reports/" "alice.txt".
Proof. reflexivity. Qed.

Example sample_run_lines :
  printed (trace (snd (main Sample.office initial)))
  = ["Starting NexResume Semantic Matcher...";
     "Processing alice.txt...";
     "Successfully generated report for alice.txt";
     "Processing blank.txt...";
     "Could not extract text from blank.txt. Skipping.";
     "Processing bob.pdf...";
     "Failed to get analysis for bob.pdf.";
     "Processing carol.pdf...";
     "An error occurred while processing carol.pdf: EOF marker not found";
     "Processing dave.txt...";
     "An error occurred with the API call: Error code: 429";
     "Failed to get analysis for dave.txt.";
     "Processing complete. Reports are saved in the 'reports/' folder."].
Proof. reflexivity. Qed.

(** ** Text and paths *)

Section StrFacts.

Lemma append_nil (s : string) : "" +:+ s = s.
Proof. reflexivity. Qed.

Lemma append_cons (a : ascii) (s t : string) :
  String a s +:+ t = String a (s +:+ t).
Proof. reflexivity. Qed.

Lemma append_empty_r (s : string) : s +:+ "" = s.
Proof.
  induction s as [|a s IH]; [reflexivity |].
  now rewrite append_cons, IH.
Qed.

Lemma append_assoc (s t u : string) : (s +:+ t) +:+ u = s +:+ (t +:+ u).
Proof.
  induction s as [|a s IH]; [reflexivity |].
  now rewrite !append_cons, IH.
Qed.

Lemma length_append (s t : string) :
  String.length (s +:+ t) = (String.length s + String.length t)%nat.
Proof.
  induction s as [|a s IH]; [reflexivity |].
  rewrite append_cons. simpl. now rewrite IH.
Qed.

Lemma drop_append (s t : string) : Str.drop (String.length s) (s +:+ t) = t.
Proof.
  induction s as [|a s IH]; [now destruct t |].
  rewrite append_cons. exact IH.
Qed.

Lemma take_append (s t : string) : Str.take (String.length s) (s +:+ t) = s.
Proof.
  induction s as [|a s IH]; [now destruct t |].
  rewrite append_cons. simpl. now rewrite IH.
Qed.

Lemma take_drop (n : nat) (s : string) : Str.take n s +:+ Str.drop n s = s.
Proof.
  revert s; induction n as [|n IH]; intros [|a s]; simpl; try reflexivity.
  now rewrite append_cons, IH.
Qed.

Lemma endswith_append (s suffix : string) :
  Str.endswith (s +:+ suffix) suffix = true.
Proof.
  unfold Str.endswith. rewrite length_append.
  replace (String.length s + String.length suffix - String.length suffix)%nat
    with (String.length s) by lia.
  rewrite drop_append, String.eqb_refl, andb_true_r.
  apply Nat.leb_le; lia.
Qed.

Lemma endswith_split (s suffix : string) :
  Str.endswith s suffix = true ->
  s = Str.take (String.length s - String.length suffix) s +:+ suffix.
Proof.
  unfold Str.endswith. intros H.
  apply andb_true_iff in H as [_ H]. apply String.eqb_eq in H.
  set (n := (String.length s - String.length suffix)%nat) in *.
  rewrite <- H. symmetry; apply take_drop.
Qed.

Lemma contains_append (c : ascii) (s t : string) :
  Str.contains c (s +:+ t) = Str.contains c s || Str.contains c t.
Proof.
  induction s as [|a s IH]; [reflexivity |].
  rewrite append_cons. simpl. now rewrite IH, orb_assoc.
Qed.

Lemma rfind_absent (c : ascii) (s : string) :
  Str.contains c s = false -> Str.rfind c s = -1.
Proof.
  induction s as [|a s IH]; simpl; [reflexivity |].
  intros H. apply orb_false_iff in H as [Ha Hs].
  rewrite (IH Hs), Ha. reflexivity.
Qed.

Lemma rfind_last (c : ascii) (s t : string) :
  Str.contains c t = false ->
  Str.rfind c (s +:+ String c t) = Z.of_nat (String.length s).
Proof.
  intros Ht. induction s as [|a s IH].
  - rewrite append_nil. simpl.
    rewrite (rfind_absent _ _ Ht), Ascii.eqb_refl. reflexivity.
  - rewrite append_cons. simpl Str.rfind. rewrite IH.
    destruct (0 <=? Z.of_nat (String.length s)) eqn:E.
    + simpl String.length. lia.
    + apply Z.leb_gt in E; lia.
Qed.

End StrFacts.

(** [os.path.splitext] on a name without directory part whose last dot
    opens the suffix [ext] and whose stem is not made of dots only: the
    split falls at that dot. *)
Lemma splitext_stem (stem ext : string) :
  Str.contains "/" stem = false ->
  Str.contains "/" ext = false ->
  Str.contains "." ext = false ->
  only_dots stem = false ->
  os_path_splitext (stem +:+ String "." ext) = (stem, String "." ext).
Proof.
  intros Hs He Hd Hstem. unfold os_path_splitext.
  rewrite (rfind_last "." stem ext Hd).
  rewrite rfind_absent
    by (rewrite contains_append; simpl; now rewrite Hs, He).
  assert (Hlt : (-1 <? Z.of_nat (String.length stem)) = true)
    by (apply Z.ltb_lt; lia).
  rewrite Hlt. unfold Str.slice.
  change (-1 + 1) with 0. rewrite Z.sub_0_r, Nat2Z.id.
  change (Z.to_nat 0) with O. simpl Str.drop at 1 2.
  now rewrite take_append, drop_append, Hstem.
Qed.

(** When the stem has only dots (the empty stem too), nothing is split
    off. *)
Lemma splitext_dots (stem ext : string) :
  Str.contains "/" stem = false ->
  Str.contains "/" ext = false ->
  Str.contains "." ext = false ->
  only_dots stem = true ->
  os_path_splitext (stem +:+ String "." ext) = (stem +:+ String "." ext, "").
Proof.
  intros Hs He Hd Hstem. unfold os_path_splitext.
  rewrite (rfind_last "." stem ext Hd).
  rewrite rfind_absent
    by (rewrite contains_append; simpl; now rewrite Hs, He).
  unfold Str.slice.
  change (-1 + 1) with 0. rewrite Z.sub_0_r, Nat2Z.id.
  change (Z.to_nat 0) with O. simpl Str.drop at 1.
  now rewrite take_append, Hstem, andb_false_r.
Qed.

(** A relative name is put behind the directory, with a separator when
    the directory does not end in one. *)
Lemma os_path_join_relative (a b : string) :
  Str.startswith b "/" = false ->
  os_path_join a b
  = a +:+ (if negb (Str.nonempty a) || Str.endswith a "/" then "" else "/")
      +:+ b.
Proof.
  intros H. unfold os_path_join. rewrite H.
  now destruct (negb (Str.nonempty a) || Str.endswith a "/").
Qed.

Lemma startswith_no_sep (s t : string) :
  Str.contains "/" s = false ->
  Str.startswith t "/" = false ->
  Str.startswith (s +:+ t) "/" = false.
Proof.
  intros Hs Ht. destruct s as [|a s]; [exact Ht |].
  simpl in Hs. apply orb_false_iff in Hs as [Ha _].
  rewrite append_cons. unfold Str.startswith. simpl.
  now rewrite Ha.
Qed.

Lemma endswith_more (prefix s suffix : string) :
  Str.endswith s suffix = true ->
  Str.endswith (prefix +:+ s) suffix = true.
Proof.
  intros H. apply endswith_split in H. rewrite H, <- append_assoc.
  apply endswith_append.
Qed.

(** The joined path ends as its last component does. *)
Lemma os_path_join_endswith (a b suffix : string) :
  Str.endswith b suffix = true ->
  Str.endswith (os_path_join a b) suffix = true.
Proof.
  intros H. unfold os_path_join.
  destruct (Str.startswith b "/"); [exact H |].
  destruct (negb (Str.nonempty a) || Str.endswith a "/").
  - now apply endswith_more.
  - rewrite <- append_assoc. now apply endswith_more.
Qed.

Lemma append_cancel_r (s t u : string) : s +:+ u = t +:+ u -> s = t.
Proof.
  revert t. induction s as [|a s IH]; intros [|b t] H.
  - reflexivity.
  - apply (f_equal String.length) in H.
    rewrite append_nil, append_cons in H. simpl in H.
    rewrite length_append in H. lia.
  - apply (f_equal String.length) in H.
    rewrite append_nil, append_cons in H. simpl in H.
    rewrite length_append in H. lia.
  - rewrite !append_cons in H. injection H as -> H.
    now rewrite (IH t H).
Qed.

(** ** Traces *)

Section TraceFacts.

Lemma requests_app (t u : list event) :
  requests (t ++ u) = (requests t + requests u)%nat.
Proof.
  induction t as [|ev t IH]; [reflexivity |].
  destruct ev; simpl; rewrite IH; reflexivity.
Qed.

Lemma dumps_app (t u : list event) : dumps (t ++ u) = dumps t ++ dumps u.
Proof.
  induction t as [|ev t IH]; [reflexivity |].
  destruct ev; simpl; rewrite IH; reflexivity.
Qed.

Lemma printed_app (t u : list event) :
  printed (t ++ u) = printed t ++ printed u.
Proof.
  induction t as [|ev t IH]; [reflexivity |].
  destruct ev; simpl; rewrite IH; reflexivity.
Qed.

Lemma opened_app (t u : list event) : opened (t ++ u) = opened t ++ opened u.
Proof.
  induction t as [|ev t IH]; [reflexivity |].
  destruct ev; simpl; rewrite IH; try reflexivity.
  now destruct (String.eqb mode "w").
Qed.

Lemma log_log (s : state) (t u : list event) :
  log (log s t) u = log s (t ++ u).
Proof. unfold log; simpl. now rewrite app_assoc. Qed.

Lemma log_nil (s : state) : log s [] = s.
Proof. destruct s; unfold log; simpl. now rewrite app_nil_r. Qed.

End TraceFacts.

(** ** What each function does, case by case *)

Lemma extract_run (w : env) (filepath : string) (s : state) :
  extract_text_from_resume w filepath s =
  (fst (extract_text_from_resume w filepath initial),
   log s (extract_events filepath)).
Proof.
  unfold extract_text_from_resume, extract_events.
  destruct (Str.endswith filepath ".pdf").
  - run_monad. destruct (pdf_pages w filepath); reflexivity.
  - destruct (Str.endswith filepath ".txt").
    + run_monad. reflexivity.
    + run_monad. now rewrite log_nil.
Qed.

Lemma eligible_opened (resumes_folder filename : string) :
  eligible filename = true ->
  opened (extract_events (os_path_join resumes_folder filename))
  = [os_path_join resumes_folder filename].
Proof.
  unfold eligible, extract_events. intros H.
  apply orb_true_iff in H as [H | H];
    apply (os_path_join_endswith resumes_folder) in H.
  - now rewrite H.
  - rewrite H.
    now destruct (Str.endswith (os_path_join resumes_folder filename) ".pdf").
Qed.

Lemma get_analysis_run (w : env) (prompt : string) (s : state) :
  get_analysis_from_gpt w prompt s =
  match load_dotenv w with
  | Raise e => (Raise e, log s [LoadDotenv])
  | Ok _ =>
      match OpenAI w (os_getenv w "OPENAI_API_KEY") with
      | Raise e => (Raise e, log s [LoadDotenv; NewClient])
      | Ok _ =>
          match
            match chat_completions_create w (requests (trace s)) prompt with
            | Ok content => loads_content w content
            | Raise e => Raise e
            end
          with
          | Ok v => (Ok v, log s [LoadDotenv; NewClient; Request prompt])
          | Raise e =>
              (Ok PNone,
               log s [LoadDotenv; NewClient; Request prompt;
                      Stdout ("An error occurred with the API call: "
                              +:+ exn_str e)])
          end
      end
  end.
Proof.
  unfold get_analysis_from_gpt. run_monad.
  destruct (load_dotenv w); [| reflexivity].
  destruct (OpenAI w _); [| now rewrite log_log].
  rewrite !requests_app. simpl. rewrite !Nat.add_0_r.
  destruct (chat_completions_create w _ prompt) as [content|e].
  - destruct (loads_content w content); now rewrite !log_log.
  - now rewrite !log_log.
Qed.

Lemma save_report_run (w : env) (reports_folder filename : string)
    (v : pyval) (s : state) :
  save_report w reports_folder filename v s =
  if truthy v then
    match setitem v "candidate_name"
            (PStr (fst (os_path_splitext filename))) with
    | Raise e => (Raise e, s)
    | Ok report =>
        let path := report_path reports_folder filename in
        match open_for_writing w path with
        | Raise e => (Raise e, log s [Open path "w"])
        | Ok _ =>
            (Ok tt,
             State (<[path := json_dumps 4 (PDict report)]> (files s))
               (trace s ++ [Open path "w";
                            Dump path (json_dumps 4 (PDict report));
                            Stdout ("Successfully generated report for "
                                    +:+ filename)]))
        end
    end
  else
    (Ok tt, log s [Stdout ("Failed to get analysis for " +:+ filename +:+ ".")]).
Proof.
  unfold save_report, report_path, dump_to_file.
  destruct (truthy v); [| reflexivity].
  run_monad.
  destruct (setitem v _ _) as [report|e]; [| reflexivity].
  destruct (open_for_writing w _); [| reflexivity].
  unfold log; simpl. now rewrite <- !app_assoc.
Qed.

Lemma iteration_not_eligible (w : env) (job_desc : dict)
    (resumes_folder reports_folder filename : string) (s : state) :
  eligible filename = false ->
  iteration w job_desc resumes_folder reports_folder filename s = (Ok tt, s).
Proof. intros H. unfold iteration. now rewrite H. Qed.

Lemma iteration_run (w : env) (job_desc : dict)
    (resumes_folder reports_folder filename : string) (s : state) :
  eligible filename = true ->
  iteration w job_desc resumes_folder reports_folder filename s =
  let '(r1, s1) :=
    extract_text_from_resume w (os_path_join resumes_folder filename)
      (log s [Stdout (processing_line filename)]) in
  match r1 with
  | Raise e => (Ok tt, log s1 [Stdout (error_line filename e)])
  | Ok resume_text =>
      if blank resume_text then
        (Ok tt, log s1 [Stdout (skipping_line filename)])
      else
        let '(r2, s2) :=
          get_analysis_from_gpt w (create_llm_prompt job_desc resume_text) s1 in
        match r2 with
        | Raise e => (Ok tt, log s2 [Stdout (error_line filename e)])
        | Ok v =>
            let '(r3, s3) := save_report w reports_folder filename v s2 in
            match r3 with
            | Raise e => (Ok tt, log s3 [Stdout (error_line filename e)])
            | Ok _ => (Ok tt, s3)
            end
        end
  end.
Proof.
  intros H. unfold iteration, process_file. rewrite H.
  unfold bind at 1, print at 1, emit at 1, try_except, bind at 1.
  fold (processing_line filename). fold error_line.
  destruct (extract_text_from_resume w _ _) as [[resume_text|e] s1];
    [| reflexivity].
  fold (blank resume_text). destruct (blank resume_text).
  - reflexivity.
  - unfold bind.
    destruct (get_analysis_from_gpt w _ s1) as [[v|e] s2]; [| reflexivity].
    destruct (save_report w reports_folder filename v s2) as [[[]|e] s3];
      reflexivity.
Qed.

(** No exception leaves a turn of the loop. *)
Lemma iteration_ok (w : env) (job_desc : dict)
    (resumes_folder reports_folder filename : string) (s : state) :
  fst (iteration w job_desc resumes_folder reports_folder filename s) = Ok tt.
Proof.
  unfold iteration. destruct (eligible filename); [| reflexivity].
  unfold bind, print, emit, try_except.
  now destruct (process_file w job_desc resumes_folder reports_folder filename _)
    as [[[]|e] s'].
Qed.

(** The loop over the listing runs every turn, each from the state the
    one before left, and ends normally. *)
Lemma for_each_iteration (w : env) (job_desc : dict)
    (resumes_folder reports_folder : string) (filenames : list string)
    (s : state) :
  for_each filenames (iteration w job_desc resumes_folder reports_folder) s =
  (Ok tt,
   fold_left
     (fun st filename =>
        snd (iteration w job_desc resumes_folder reports_folder filename st))
     filenames s).
Proof.
  revert s. induction filenames as [|filename rest IH]; intros s.
  - reflexivity.
  - simpl. unfold bind.
    pose proof (iteration_ok w job_desc resumes_folder reports_folder filename s)
      as Hok.
    destruct (iteration w job_desc resumes_folder reports_folder filename s)
      as [r s1].
    simpl in Hok; subst r. simpl. apply IH.
Qed.

(** ** The files follow the trace *)

Section StepFacts.

Lemma step_refl (s : state) : step_of s s [].
Proof. split; [now rewrite app_nil_r | reflexivity]. Qed.

Lemma step_log (s : state) (evs : list event) :
  dumps evs = [] -> step_of s (log s evs) evs.
Proof. intros H. split; [reflexivity |]. now rewrite H. Qed.

Lemma step_trans (s s1 s2 : state) (e1 e2 : list event) :
  step_of s s1 e1 -> step_of s1 s2 e2 -> step_of s s2 (e1 ++ e2).
Proof.
  intros [Ht1 Hf1] [Ht2 Hf2]. split.
  - now rewrite Ht2, Ht1, app_assoc.
  - rewrite Hf2, Hf1, dumps_app. unfold apply_dumps.
    now rewrite fold_left_app.
Qed.

Lemma apply_dumps_size (m : gmap string string) (ds : list (string * string)) :
  (size (apply_dumps m ds) <= size m + length ds)%nat.
Proof.
  revert m. induction ds as [|[p c] ds IH]; intros m; simpl.
  - lia.
  - etransitivity; [apply IH |].
    rewrite map_size_insert. destruct (m !! p); simpl; lia.
Qed.

End StepFacts.

Lemma extract_step (w : env) (filepath : string) (s : state) :
  step_of s (snd (extract_text_from_resume w filepath s))
    (extract_events filepath)
  /\ dumps (extract_events filepath) = []
  /\ requests (extract_events filepath) = O
  /\ printed (extract_events filepath) = [].
Proof.
  assert (H : dumps (extract_events filepath) = []
              /\ requests (extract_events filepath) = O
              /\ printed (extract_events filepath) = []).
  { unfold extract_events.
    destruct (Str.endswith filepath ".pdf"); [now repeat split |].
    destruct (Str.endswith filepath ".txt"); now repeat split. }
  split; [| exact H].
  rewrite extract_run. simpl. apply step_log, H.
Qed.

Lemma get_analysis_step (w : env) (prompt : string) (s : state) :
  exists evs,
    step_of s (snd (get_analysis_from_gpt w prompt s)) evs
    /\ dumps evs = []
    /\ (requests evs <= 1)%nat.
Proof.
  rewrite get_analysis_run.
  destruct (load_dotenv w).
  2:{ eexists; split; [apply step_log |]; simpl; auto. }
  destruct (OpenAI w _).
  2:{ eexists; split; [apply step_log |]; simpl; auto. }
  destruct (match chat_completions_create w _ prompt with
            | Ok content => loads_content w content
            | Raise e => Raise e
            end);
    eexists; (split; [apply step_log |]); simpl; auto.
Qed.

Lemma classic_dict (v : pyval) :
  (exists kv d, v = PDict (kv :: d)) \/ (forall kv d, v <> PDict (kv :: d)).
Proof.
  destruct v as [| b | n | f | t | l | [|kv d]];
    try (right; intros kv' d' H; discriminate H).
  left. now exists kv, d.
Qed.

Lemma save_report_quiet (w : env) (reports_folder filename : string)
    (v : pyval) (s : state) :
  (forall kv d, v <> PDict (kv :: d)) ->
  exists evs,
    step_of s (snd (save_report w reports_folder filename v s)) evs
    /\ dumps evs = [].
Proof.
  intros Hv. rewrite save_report_run.
  destruct (truthy v) eqn:Ht.
  - destruct v as [| b | n | f | t | l | [|kv d]]; simpl setitem; cbv iota;
      try (exists []; split; [apply step_refl | reflexivity]).
    + discriminate Ht.
    + now destruct (Hv kv d).
  - eexists; split; [apply step_log |]; reflexivity.
Qed.

Lemma save_report_step (w : env) (reports_folder filename : string)
    (v : pyval) (s : state) :
  let path := report_path reports_folder filename in
  (exists kv d evs,
      v = PDict (kv :: d)
      /\ open_for_writing w path = Ok tt
      /\ fst (save_report w reports_folder filename v s) = Ok tt
      /\ step_of s (snd (save_report w reports_folder filename v s)) evs
      /\ dumps evs = [(path, report_content filename (kv :: d))])
  \/ (~ reportable w reports_folder filename v
      /\ exists evs,
           step_of s (snd (save_report w reports_folder filename v s)) evs
           /\ dumps evs = []).
Proof.
  intros path.
  destruct (classic_dict v) as [(kv & d & ->) | Hv].
  - rewrite save_report_run. fold path. simpl truthy. simpl setitem. cbv iota zeta.
    destruct (open_for_writing w path) as [[]|e] eqn:Hopen.
    + left. exists kv, d. eexists. repeat split; reflexivity.
    + right. split.
      * intros (kv' & d' & _ & Hw). fold path in Hw. congruence.
      * eexists; split; [apply step_log |]; reflexivity.
  - right. split.
    + intros (kv & d & Hd & _). now apply (Hv kv d).
    + now apply save_report_quiet.
Qed.

Lemma iteration_step (w : env) (job_desc : dict)
    (resumes_folder reports_folder filename : string) (s : state) :
  eligible filename = true ->
  let s' := snd (iteration w job_desc resumes_folder reports_folder filename s) in
  (exists resume_text analysis evs,
      succeeds_with w job_desc resumes_folder reports_folder filename s
        resume_text analysis
      /\ step_of s s' (Stdout (processing_line filename) :: evs)
      /\ dumps evs = [(report_path reports_folder filename,
                       report_content filename analysis)])
  \/ (~ succeeds w job_desc resumes_folder reports_folder filename s
      /\ exists evs,
           step_of s s' (Stdout (processing_line filename) :: evs)
           /\ dumps evs = []).
Proof.
  intros Helig s'. subst s'. unfold succeeds, succeeds_with. cbv zeta.
  rewrite (iteration_run _ _ _ _ _ _ Helig).
  set (s0 := log s [Stdout (processing_line filename)]).
  assert (H0 : step_of s s0 [Stdout (processing_line filename)])
    by now apply step_log.
  set (path := os_path_join resumes_folder filename).
  pose proof (extract_step w path s0) as (H1 & Hd1 & _).
  destruct (extract_text_from_resume w path s0) as [r1 s1]. simpl in H1.
  simpl fst. simpl snd.
  pose proof (step_trans _ _ _ _ _ H0 H1) as H01.
  assert (Hquiet : forall s2 evs2 line,
             step_of s1 s2 evs2 -> dumps evs2 = [] ->
             exists evs,
               step_of s (log s2 [Stdout line])
                 (Stdout (processing_line filename) :: evs)
               /\ dumps evs = []).
  { intros s2 evs2 line H2 Hd2.
    exists (extract_events path ++ evs2 ++ [Stdout line]). split.
    - apply (step_trans _ _ _ _ _ H01).
      apply (step_trans _ _ _ _ _ H2). now apply step_log.
    - rewrite !dumps_app, Hd1, Hd2. reflexivity. }
  destruct r1 as [resume_text|e].
  2:{ right. split.
      - intros (t & a & Hr & _). discriminate Hr.
      - apply (Hquiet s1 []); [apply step_refl | reflexivity]. }
  destruct (blank resume_text) eqn:Hblank.
  { right. split.
    - intros (t & a & Hr & Hb & _). injection Hr as <-. congruence.
    - apply (Hquiet s1 []); [apply step_refl | reflexivity]. }
  set (prompt := create_llm_prompt job_desc resume_text).
  pose proof (get_analysis_step w prompt s1) as (evs2 & H2 & Hd2 & _).
  destruct (get_analysis_from_gpt w prompt s1) as [r2 s2] eqn:E2.
  simpl in H2.
  destruct r2 as [v|e].
  2:{ right. split.
      - intros (t & a & Hr & _ & Hv & _). injection Hr as <-.
        fold prompt in Hv. rewrite E2 in Hv. discriminate Hv.
      - now apply (Hquiet s2 evs2). }
  pose proof (save_report_step w reports_folder filename v s2) as Hsave.
  destruct (save_report w reports_folder filename v s2) as [r3 s3].
  simpl in Hsave.
  destruct Hsave as [(kv & d & evs3 & -> & Hopen & -> & H3 & Hd3)
                    | (Hnot & evs3 & H3 & Hd3)].
  - left. exists resume_text, (kv :: d), (extract_events path ++ evs2 ++ evs3).
    split; [| split].
    + fold prompt. rewrite E2. repeat split; try assumption. discriminate.
    + apply (step_trans _ _ _ _ _ H01). apply (step_trans _ _ _ _ _ H2 H3).
    + rewrite !dumps_app, Hd1, Hd2, Hd3. reflexivity.
  - right. split.
    + intros (t & a & Hr & _ & Hv & Hne & Hopen). injection Hr as <-.
      fold prompt in Hv. rewrite E2 in Hv. injection Hv as ->.
      apply Hnot. destruct a as [|kv d]; [congruence |]. now exists kv, d.
    + pose proof (step_trans _ _ _ _ _ H2 H3) as H23.
      assert (Hd23 : dumps (evs2 ++ evs3) = [])
        by (now rewrite dumps_app, Hd2, Hd3).
      destruct r3 as [[]|e].
      * exists (extract_events path ++ evs2 ++ evs3). split.
        -- apply (step_trans _ _ _ _ _ H01 H23).
        -- now rewrite dumps_app, Hd1, Hd23.
      * destruct (Hquiet s3 _ (error_line filename e) H23 Hd23)
          as (evs & He & Hde).
        now exists evs.
Qed.

Lemma after_loop_cons (w : env) (job_desc : dict)
    (resumes_folder reports_folder filename : string)
    (rest : list string) (s : state) :
  after_loop w job_desc resumes_folder reports_folder (filename :: rest) s =
  after_loop w job_desc resumes_folder reports_folder rest
    (snd (iteration w job_desc resumes_folder reports_folder filename s)).
Proof.
  unfold after_loop. now rewrite !for_each_iteration.
Qed.

(** What the whole loop does: one announcement per eligible file, at
    most one dump per eligible file, each dump the report of one of
    them. *)
Lemma loop_step (w : env) (job_desc : dict)
    (resumes_folder reports_folder : string) (filenames : list string)
    (s : state) :
  exists evs,
    step_of s (after_loop w job_desc resumes_folder reports_folder filenames s)
      evs
    /\ (length (dumps evs) <= length (List.filter eligible filenames))%nat
    /\ (forall filename,
          In filename filenames -> eligible filename = true ->
          In (Stdout (processing_line filename)) evs)
    /\ (forall path content,
          In (path, content) (dumps evs) ->
          exists filename analysis,
            In filename filenames
            /\ eligible filename = true
            /\ path = report_path reports_folder filename
            /\ content = report_content filename analysis).
Proof.
  revert s. induction filenames as [|filename rest IH]; intros s.
  - exists []. split; [apply step_refl |]. simpl.
    split; [lia |]. split; [contradiction |].
    intros path content [].
  - rewrite after_loop_cons.
    set (s1 := snd (iteration w job_desc resumes_folder reports_folder
                      filename s)).
    destruct (IH s1) as (evs2 & H2 & Hlen & Hann & Hrep).
    destruct (eligible filename) eqn:Helig.
    + assert (H1 : exists evs1 ds,
                 step_of s s1 (Stdout (processing_line filename) :: evs1)
                 /\ dumps evs1 = ds
                 /\ (length ds <= 1)%nat
                 /\ forall path content,
                      In (path, content) ds ->
                      exists analysis,
                        path = report_path reports_folder filename
                        /\ content = report_content filename analysis).
      { destruct (iteration_step w job_desc resumes_folder reports_folder
                    filename s Helig)
          as [(t & analysis & evs1 & _ & H1 & Hd1) | (_ & evs1 & H1 & Hd1)].
        - exists evs1, (dumps evs1). rewrite Hd1.
          split; [exact H1 |]. split; [reflexivity |].
          split; [simpl; lia |].
          intros path content [Heq | []]. injection Heq as <- <-.
          now exists analysis.
        - exists evs1, (dumps evs1). rewrite Hd1.
          split; [exact H1 |]. split; [reflexivity |].
          split; [simpl; lia | contradiction]. }
      destruct H1 as (evs1 & ds & H1 & Hd1 & Hlen1 & Hrep1).
      exists ((Stdout (processing_line filename) :: evs1) ++ evs2).
      split; [apply (step_trans _ _ _ _ _ H1 H2) |].
      simpl List.filter. rewrite Helig. rewrite dumps_app. simpl dumps.
      rewrite Hd1, length_app. simpl length.
      split; [| split].
      * lia.
      * intros f [<- | Hin] He; [now left |].
        right. apply in_or_app. right. now apply Hann.
      * intros path content Hin. apply in_app_or in Hin as [Hin | Hin].
        -- destruct (Hrep1 _ _ Hin) as (analysis & Hp & Hc).
           exists filename, analysis. repeat split; auto. now left.
        -- destruct (Hrep _ _ Hin) as (f & analysis & Hf & He & Hp & Hc).
           exists f, analysis. repeat split; auto. now right.
    + assert (Hs1 : s1 = s).
      { unfold s1. now rewrite iteration_not_eligible. }
      exists evs2. rewrite Hs1 in *.
      split; [exact H2 |]. simpl List.filter. rewrite Helig.
      split; [| split].
      * exact Hlen.
      * intros f [<- | Hin] He; [congruence | now apply Hann].
      * intros path content Hin.
        destruct (Hrep _ _ Hin) as (f & analysis & Hf & He & Hp & Hc).
        exists f, analysis. repeat split; auto. now right.
Qed.

(** ** The batch and the script *)

Lemma batch_run (w : env) (job_desc : dict)
    (resumes_folder reports_folder : string) (s : state) :
  process_resumes_in_batch w job_desc resumes_folder reports_folder s =
  let made :=
    if os_path_exists w reports_folder then Ok tt
    else os_makedirs w reports_folder in
  let before :=
    if os_path_exists w reports_folder then [] else [Makedirs reports_folder] in
  match made with
  | Raise e => (Raise e, log s before)
  | Ok _ =>
      let s0 := log s (before ++ [Listdir resumes_folder]) in
      match os_listdir w resumes_folder with
      | Raise e => (Raise e, s0)
      | Ok filenames =>
          (Ok tt,
           after_loop w job_desc resumes_folder reports_folder filenames s0)
      end
  end.
Proof.
  unfold process_resumes_in_batch, after_loop.
  destruct (os_path_exists w reports_folder); run_monad.
  - destruct (os_listdir w resumes_folder) as [filenames|e]; [| reflexivity].
    now rewrite for_each_iteration.
  - destruct (os_makedirs w reports_folder) as [[]|e]; [| reflexivity].
    rewrite log_log. simpl.
    destruct (os_listdir w resumes_folder) as [filenames|e]; [| reflexivity].
    now rewrite for_each_iteration.
Qed.

(** What the whole batch does to the files: the reports of the loop over
    the listing, nothing else. *)
Lemma batch_step (w : env) (job_desc : dict)
    (resumes_folder reports_folder : string) (s : state) :
  exists evs,
    step_of s
      (snd (process_resumes_in_batch w job_desc resumes_folder reports_folder
              s)) evs
    /\ (length (dumps evs)
        <= length (List.filter eligible (listing w resumes_folder)))%nat
    /\ (forall path content,
          In (path, content) (dumps evs) ->
          exists filename analysis,
            In filename (listing w resumes_folder)
            /\ eligible filename = true
            /\ path = report_path reports_folder filename
            /\ content = report_content filename analysis).
Proof.
  rewrite batch_run. cbv zeta. unfold listing.
  set (before := if os_path_exists w reports_folder then []
                 else [Makedirs reports_folder]).
  assert (Hb : dumps before = [])
    by (unfold before; now destruct (os_path_exists w reports_folder)).
  assert (Hnone : forall evs r,
             dumps evs = [] ->
             exists evs',
               step_of s (snd (r : result unit, log s evs)) evs'
               /\ (length (dumps evs')
                   <= length (List.filter eligible
                                match os_listdir w resumes_folder with
                                | Ok filenames => filenames
                                | Raise _ => []
                                end))%nat
               /\ (forall path content,
                     In (path, content) (dumps evs') ->
                     exists filename analysis,
                       In filename
                         match os_listdir w resumes_folder with
                         | Ok filenames => filenames
                         | Raise _ => []
                         end
                       /\ eligible filename = true
                       /\ path = report_path reports_folder filename
                       /\ content = report_content filename analysis)).
  { intros evs r Hd. exists evs. split; [now apply step_log |].
    rewrite Hd. split; [simpl; lia | intros path content []]. }
  destruct (if os_path_exists w reports_folder then Ok tt
            else os_makedirs w reports_folder) as [[]|e].
  2:{ now apply Hnone. }
  destruct (os_listdir w resumes_folder) as [filenames|e].
  2:{ apply Hnone. now rewrite dumps_app, Hb. }
  set (s0 := log s (before ++ [Listdir resumes_folder])).
  assert (H0 : step_of s s0 (before ++ [Listdir resumes_folder]))
    by (apply step_log; now rewrite dumps_app, Hb).
  destruct (loop_step w job_desc resumes_folder reports_folder filenames s0)
    as (evs & Hloop & Hlen & _ & Hrep).
  exists ((before ++ [Listdir resumes_folder]) ++ evs).
  split; [apply (step_trans _ _ _ _ _ H0 Hloop) |].
  rewrite !dumps_app, Hb. simpl. split; [exact Hlen | exact Hrep].
Qed.

(** * Properties of the program with every fault *)

(** ** Traces *)

Lemma dotenv_loads_app (t u : list event) :
  Full.dotenv_loads (t ++ u) = (Full.dotenv_loads t + Full.dotenv_loads u)%nat.
Proof.
  induction t as [|ev t IH]; [reflexivity |].
  destruct ev; simpl; rewrite IH; reflexivity.
Qed.

Lemma http_from_app (x : Full.world) (n : nat) (t u : list event) :
  Full.http_from x n (t ++ u)
  = (Full.http_from x n t + Full.http_from x (n + requests t) u)%nat.
Proof.
  revert n. induction t as [|ev t IH]; intros n.
  - simpl. now rewrite Nat.add_0_r.
  - destruct ev; simpl; rewrite IH; try reflexivity.
    rewrite Nat.add_assoc. do 2 f_equal. lia.
Qed.

Lemma next_line_log (s : state) (evs : list event) :
  printed evs = [] -> Full.next_line (log s evs) = Full.next_line s.
Proof.
  intros H. unfold Full.next_line. simpl.
  now rewrite printed_app, H, app_nil_r.
Qed.

(** ** What each function does, case by case *)

Lemma full_print_run (x : Full.world) (line : string) (s : state) :
  Full.print x line s =
  match Full.stdout_write x (Full.next_line s) line with
  | Ok _ => (Ok tt, log s [Stdout line])
  | Raise e => (Raise e, s)
  end.
Proof. reflexivity. Qed.

(** Building the prompt changes nothing, and its outcome does not depend
    on the state. *)
Lemma full_prompt_run (job_desc : Full.ydict) (resume_text : string)
    (s : state) :
  Full.create_llm_prompt job_desc resume_text s
  = (Full.prompt_of job_desc resume_text, s).
Proof.
  unfold Full.prompt_of, Full.create_llm_prompt. run_monad.
  destruct (Full.ystr (Full.yget_or_none "City_Tier" job_desc));
    [| reflexivity].
  destruct (Full.ystr (Full.yget_or_none "Tier-1_cities" job_desc));
    [| reflexivity].
  destruct (Full.ystr (Full.yget_or_none "Tier-2_cities" job_desc));
    [| reflexivity].
  now destruct (Full.yjson_dumps 2 (Full.YDict job_desc)).
Qed.

Lemma full_prompt_of (job_desc : Full.ydict) (resume_text : string) :
  Full.prompt_of job_desc resume_text =
  Full.and_then (Full.ystr (Full.yget_or_none "City_Tier" job_desc))
    (fun city_tier =>
       Full.and_then (Full.ystr (Full.yget_or_none "Tier-1_cities" job_desc))
         (fun tier1 =>
            Full.and_then
              (Full.ystr (Full.yget_or_none "Tier-2_cities" job_desc))
              (fun tier2 =>
                 Full.and_then (Full.yjson_dumps 2 (Full.YDict job_desc))
                   (fun job_json =>
                      Ok (prompt_part0 +:+ city_tier
                          +:+ prompt_part1 +:+ tier1
                          +:+ prompt_part2 +:+ tier2
                          +:+ prompt_part3 +:+ job_json
                          +:+ prompt_part4 +:+ resume_text
                          +:+ prompt_part5 +:+ json_format_instructions
                          +:+ prompt_part6))))).
Proof.
  unfold Full.prompt_of, Full.create_llm_prompt. run_monad.
  destruct (Full.ystr (Full.yget_or_none "City_Tier" job_desc));
    [| reflexivity].
  destruct (Full.ystr (Full.yget_or_none "Tier-1_cities" job_desc));
    [| reflexivity].
  destruct (Full.ystr (Full.yget_or_none "Tier-2_cities" job_desc));
    [| reflexivity].
  now destruct (Full.yjson_dumps 2 (Full.YDict job_desc)).
Qed.

Lemma full_get_analysis_run (x : Full.world) (prompt : string) (s : state) :
  Full.get_analysis_from_gpt x prompt s =
  match load_dotenv (Full.base x) with
  | Raise e => (Raise e, log s [LoadDotenv])
  | Ok _ =>
      match OpenAI (Full.base x) (os_getenv (Full.base x) "OPENAI_API_KEY") with
      | Raise e => (Raise e, log s [LoadDotenv; NewClient])
      | Ok _ =>
          match Full.reply x (requests (trace s)) prompt with
          | Ok v => (Ok v, log s [LoadDotenv; NewClient; Request prompt])
          | Raise e =>
              match Full.stdout_write x (Full.next_line s)
                      (Full.api_error_line e) with
              | Ok _ =>
                  (Ok PNone,
                   log s [LoadDotenv; NewClient; Request prompt;
                          Stdout (Full.api_error_line e)])
              | Raise e' =>
                  (Raise e', log s [LoadDotenv; NewClient; Request prompt])
              end
          end
      end
  end.
Proof.
  unfold Full.get_analysis_from_gpt, Full.reply.
  unfold bind, ret, lift, try_except, emit, get_trace, Full.print.
  cbv beta iota zeta.
  destruct (load_dotenv (Full.base x)); [| reflexivity].
  destruct (OpenAI (Full.base x) _); [| now rewrite log_log].
  rewrite !log_log. simpl app. simpl trace.
  rewrite !requests_app. simpl requests. rewrite !Nat.add_0_r.
  fold (Full.api_error_line).
  assert (Hn : Full.next_line (log s [LoadDotenv; NewClient; Request prompt])
               = Full.next_line s) by now apply next_line_log.
  destruct (chat_completions_create (Full.base x) _ prompt) as [content|e].
  - destruct (loads_content (Full.base x) content) as [v|e]; [reflexivity |].
    fold (Full.api_error_line e).
    fold (Full.next_line (log s [LoadDotenv; NewClient; Request prompt])).
    rewrite Hn.
    destruct (Full.stdout_write x _ _); [| reflexivity].
    now rewrite log_log.
  - fold (Full.api_error_line e).
    fold (Full.next_line (log s [LoadDotenv; NewClient; Request prompt])).
    rewrite Hn.
    destruct (Full.stdout_write x _ _); [| reflexivity].
    now rewrite log_log.
Qed.

Lemma full_save_report_run (x : Full.world) (reports_folder filename : string)
    (v : pyval) (s : state) :
  Full.save_report x reports_folder filename v s =
  if truthy v then
    match setitem v "candidate_name"
            (PStr (fst (os_path_splitext filename))) with
    | Raise e => (Raise e, s)
    | Ok report =>
        let path := report_path reports_folder filename in
        let content := json_dumps 4 (PDict report) in
        match open_for_writing (Full.base x) path with
        | Raise e => (Raise e, log s [Open path "w"])
        | Ok _ =>
            match Full.dump_fault x path content with
            | Some (e, reached) =>
                (Raise e,
                 State (<[path := Str.take reached content]> (files s))
                   (trace s ++ [Open path "w"]))
            | None =>
                match Full.stdout_write x (Full.next_line s)
                        (Full.success_line filename) with
                | Ok _ =>
                    (Ok tt,
                     State (<[path := content]> (files s))
                       (trace s ++ [Open path "w"; Dump path content;
                                    Stdout (Full.success_line filename)]))
                | Raise e =>
                    (Raise e,
                     State (<[path := content]> (files s))
                       (trace s ++ [Open path "w"; Dump path content]))
                end
            end
        end
    end
  else
    match Full.stdout_write x (Full.next_line s) (Full.failed_line filename) with
    | Ok _ => (Ok tt, log s [Stdout (Full.failed_line filename)])
    | Raise e => (Raise e, s)
    end.
Proof.
  unfold Full.save_report, report_path, Full.dump_to_file.
  destruct (truthy v); [| reflexivity].
  unfold bind, ret, lift, emit, Full.print. cbv beta iota zeta.
  destruct (setitem v _ _) as [report|e]; [| reflexivity].
  simpl.
  destruct (open_for_writing (Full.base x) _); [| reflexivity].
  destruct (Full.dump_fault x _ _) as [[e reached]|]; [reflexivity |].
  unfold Full.next_line. simpl.
  rewrite <- !app_assoc. simpl app.
  rewrite !printed_app. simpl printed. rewrite app_nil_r.
  fold (Full.success_line filename).
  destruct (Full.stdout_write x _ _); [| reflexivity].
  unfold log. simpl. now rewrite <- !app_assoc.
Qed.

Lemma full_process_file_run (x : Full.world) (job_desc : Full.ydict)
    (resumes_folder reports_folder filename : string) (s : state) :
  Full.process_file x job_desc resumes_folder reports_folder filename s =
  let path := os_path_join resumes_folder filename in
  let s1 := log s (extract_events path) in
  match fst (extract_text_from_resume (Full.base x) path initial) with
  | Raise e => (Raise e, s1)
  | Ok resume_text =>
      if blank resume_text then Full.print x (skipping_line filename) s1
      else
        match Full.prompt_of job_desc resume_text with
        | Raise e => (Raise e, s1)
        | Ok prompt =>
            let '(r2, s2) := Full.get_analysis_from_gpt x prompt s1 in
            match r2 with
            | Raise e => (Raise e, s2)
            | Ok v => Full.save_report x reports_folder filename v s2
            end
        end
  end.
Proof.
  unfold Full.process_file. cbv zeta. unfold bind at 1.
  rewrite extract_run.
  destruct (fst (extract_text_from_resume (Full.base x) _ initial))
    as [resume_text|e]; [| reflexivity].
  fold (blank resume_text). fold (skipping_line filename).
  destruct (blank resume_text); [reflexivity |].
  unfold bind at 1. rewrite full_prompt_run.
  destruct (Full.prompt_of job_desc resume_text) as [prompt|e];
    [| reflexivity].
  unfold bind.
  now destruct (Full.get_analysis_from_gpt x prompt _) as [[v|e] s2].
Qed.

Lemma full_iteration_not_eligible (x : Full.world) (job_desc : Full.ydict)
    (resumes_folder reports_folder filename : string) (s : state) :
  eligible filename = false ->
  Full.iteration x job_desc resumes_folder reports_folder filename s
  = (Ok tt, s).
Proof. intros H. unfold Full.iteration. now rewrite H. Qed.

Lemma full_iteration_run (x : Full.world) (job_desc : Full.ydict)
    (resumes_folder reports_folder filename : string) (s : state) :
  eligible filename = true ->
  Full.iteration x job_desc resumes_folder reports_folder filename s =
  match Full.stdout_write x (Full.next_line s) (processing_line filename) with
  | Raise e => (Raise e, s)
  | Ok _ =>
      let '(r, s1) :=
        Full.process_file x job_desc resumes_folder reports_folder filename
          (log s [Stdout (processing_line filename)]) in
      match r with
      | Ok _ => (Ok tt, s1)
      | Raise e => Full.print x (error_line filename e) s1
      end
  end.
Proof.
  intros H. unfold Full.iteration. rewrite H.
  unfold bind at 1, Full.print at 1.
  fold (processing_line filename). fold (Full.next_line s).
  destruct (Full.stdout_write x _ _); [| reflexivity].
  unfold try_except. fold error_line.
  now destruct (Full.process_file x job_desc _ _ filename _) as [[[]|e] s1].
Qed.

(** ** What leaves a turn, the loop, the batch and the script *)

(** An exception leaves the turn of a file only from one of its two
    [print]s outside the [try]: the first line, or the line of the
    handler. *)
Lemma full_iteration_escape (x : Full.world) (job_desc : Full.ydict)
    (resumes_folder reports_folder filename : string) (s : state) (e : exn) :
  fst (Full.iteration x job_desc resumes_folder reports_folder filename s)
  = Raise e <->
  eligible filename = true
  /\ (Full.stdout_write x (Full.next_line s) (processing_line filename)
      = Raise e
      \/ (Full.stdout_write x (Full.next_line s) (processing_line filename)
          = Ok tt
          /\ exists e' s1,
               Full.process_file x job_desc resumes_folder reports_folder
                 filename (log s [Stdout (processing_line filename)])
               = (Raise e', s1)
               /\ Full.stdout_write x (Full.next_line s1)
                    (error_line filename e') = Raise e)).
Proof.
  destruct (eligible filename) eqn:Helig.
  2:{ rewrite full_iteration_not_eligible by exact Helig. simpl.
      split; [discriminate | intros [[=] _]]. }
  rewrite (full_iteration_run _ _ _ _ _ _ Helig).
  destruct (Full.stdout_write x (Full.next_line s) (processing_line filename))
    as [[]|e0].
  2:{ simpl. split.
      - intros [= ->]. split; [reflexivity | now left].
      - intros [_ [H | [[=] _]]]. exact H. }
  destruct (Full.process_file x job_desc _ _ filename _) as [[[]|e0] s1].
  - simpl. split; [discriminate |].
    intros [_ [[=] | [_ (e' & s1' & [=] & _)]]].
  - rewrite full_print_run. split.
    + intros H. split; [reflexivity |]. right. split; [reflexivity |].
      exists e0, s1. split; [reflexivity |].
      now destruct (Full.stdout_write x (Full.next_line s1) _) as [[]|e1].
    + intros [_ [[=] | [_ (e' & s1' & [= <- <-] & H)]]]. now rewrite H.
Qed.

(** The handler of a file: an exception of the body of the [try] ends
    the turn with the line of the handler, and normally when that line
    is printed. *)
Lemma full_iteration_caught (x : Full.world) (job_desc : Full.ydict)
    (resumes_folder reports_folder filename : string) (s s1 : state)
    (e : exn) :
  eligible filename = true ->
  Full.stdout_write x (Full.next_line s) (processing_line filename) = Ok tt ->
  Full.process_file x job_desc resumes_folder reports_folder filename
    (log s [Stdout (processing_line filename)]) = (Raise e, s1) ->
  Full.iteration x job_desc resumes_folder reports_folder filename s =
  match Full.stdout_write x (Full.next_line s1) (error_line filename e) with
  | Ok _ => (Ok tt, log s1 [Stdout (error_line filename e)])
  | Raise e' => (Raise e', s1)
  end.
Proof.
  intros Helig Hout Hbody.
  now rewrite (full_iteration_run _ _ _ _ _ _ Helig), Hout, Hbody.
Qed.

Lemma full_loop_escape (x : Full.world) (job_desc : Full.ydict)
    (resumes_folder reports_folder : string) (filenames : list string)
    (s : state) (e : exn) :
  fst (for_each filenames
         (Full.iteration x job_desc resumes_folder reports_folder) s)
  = Raise e ->
  Full.print_fault x filenames e.
Proof.
  revert s. induction filenames as [|filename rest IH]; intros s.
  - discriminate.
  - simpl. unfold bind.
    destruct (Full.iteration x job_desc resumes_folder reports_folder
                filename s) as [[[]|e0] s1] eqn:Hturn.
    + intros H. destruct (IH _ H) as (n & f & Hin & He & Hf).
      exists n, f. split; [now right | now split].
    + simpl. intros [= ->].
      assert (Hraise : fst (Full.iteration x job_desc resumes_folder
                              reports_folder filename s) = Raise e)
        by now rewrite Hturn.
      apply full_iteration_escape in Hraise as [Helig [H | [_ H]]].
      * exists (Full.next_line s), filename.
        split; [now left |]. split; [exact Helig | now left].
      * destruct H as (e' & s1' & _ & H).
        exists (Full.next_line s1'), filename.
        split; [now left |]. split; [exact Helig |]. right. now exists e'.
Qed.

Lemma full_batch_run (x : Full.world) (job_desc : Full.ydict)
    (resumes_folder reports_folder : string) (s : state) :
  Full.process_resumes_in_batch x job_desc resumes_folder reports_folder s =
  let made :=
    if os_path_exists (Full.base x) reports_folder then Ok tt
    else os_makedirs (Full.base x) reports_folder in
  let before :=
    if os_path_exists (Full.base x) reports_folder then []
    else [Makedirs reports_folder] in
  match made with
  | Raise e => (Raise e, log s before)
  | Ok _ =>
      let s0 := log s (before ++ [Listdir resumes_folder]) in
      match os_listdir (Full.base x) resumes_folder with
      | Raise e => (Raise e, s0)
      | Ok filenames =>
          for_each filenames
            (Full.iteration x job_desc resumes_folder reports_folder) s0
      end
  end.
Proof.
  unfold Full.process_resumes_in_batch.
  destruct (os_path_exists (Full.base x) reports_folder); run_monad.
  - now destruct (os_listdir (Full.base x) resumes_folder).
  - destruct (os_makedirs (Full.base x) reports_folder) as [[]|e];
      [| reflexivity].
    rewrite log_log. simpl.
    now destruct (os_listdir (Full.base x) resumes_folder).
Qed.

(** The batch ends with an exception only when the output directory
    cannot be made, the input directory cannot be listed, or a line
    outside the [try] of a file cannot be printed. *)
Lemma full_batch_abort (x : Full.world) (job_desc : Full.ydict)
    (resumes_folder reports_folder : string) (s : state) (e : exn) :
  fst (Full.process_resumes_in_batch x job_desc resumes_folder reports_folder
         s) = Raise e ->
  (os_path_exists (Full.base x) reports_folder = false
   /\ os_makedirs (Full.base x) reports_folder = Raise e)
  \/ os_listdir (Full.base x) resumes_folder = Raise e
  \/ (exists filenames,
        os_listdir (Full.base x) resumes_folder = Ok filenames
        /\ Full.print_fault x filenames e).
Proof.
  rewrite full_batch_run. cbv zeta.
  destruct (os_path_exists (Full.base x) reports_folder).
  - destruct (os_listdir (Full.base x) resumes_folder) as [filenames|e0].
    + intros H. right; right. exists filenames.
      split; [reflexivity |]. now apply full_loop_escape in H.
    + simpl. intros [= ->]. right. now left.
  - destruct (os_makedirs (Full.base x) reports_folder) as [[]|e'].
    + destruct (os_listdir (Full.base x) resumes_folder) as [filenames|e0].
      * intros H. right; right. exists filenames.
        split; [reflexivity |]. now apply full_loop_escape in H.
      * simpl. intros [= ->]. right. now left.
    + simpl. intros [= ->]. now left.
Qed.

Lemma full_main_abort (x : Full.world) (s : state) (e : exn) :
  fst (Full.main x s) = Raise e ->
  (exists n,
     Full.stdout_write x n "Starting NexResume Semantic Matcher..." = Raise e
     \/ Full.stdout_write x n
          "Processing complete. Reports are saved in the 'reports/' folder."
        = Raise e)
  \/ Full.load_yaml x "job_description.yml" = Raise e
  \/ (exists v, Full.load_yaml x "job_description.yml" = Ok v
                /\ Full.ysetitem v "Tier-1_cities" Full.tier1_cities = Raise e)
  \/ (os_path_exists (Full.base x) "reports/" = false
      /\ os_makedirs (Full.base x) "reports/" = Raise e)
  \/ os_listdir (Full.base x) "resumes/" = Raise e
  \/ (exists filenames,
        os_listdir (Full.base x) "resumes/" = Ok filenames
        /\ Full.print_fault x filenames e).
Proof.
  unfold Full.main, Full.load_job_description.
  unfold bind at 1. rewrite full_print_run.
  destruct (Full.stdout_write x (Full.next_line s) _) as [[]|e0] eqn:Hfirst.
  2:{ simpl. intros [= ->]. left. exists (Full.next_line s). now left. }
  unfold bind at 1. unfold bind at 1. unfold emit, lift.
  destruct (Full.load_yaml x "job_description.yml") as [v|e0] eqn:Hload.
  2:{ simpl. intros [= ->]. right. now left. }
  unfold bind at 1.
  destruct (Full.ysetitem v "Tier-1_cities" Full.tier1_cities) as [d|e0]
    eqn:Hset.
  2:{ simpl. intros [= ->]. right; right; left. now exists v. }
  unfold bind at 1. simpl Full.ysetitem. cbv iota beta.
  unfold bind.
  match goal with
  | |- context [Full.process_resumes_in_batch x ?jd ?src ?dst ?st] =>
      pose proof (full_batch_abort x jd src dst st) as Hb;
      destruct (Full.process_resumes_in_batch x jd src dst st)
        as [[[]|e0] s1]
  end.
  - rewrite full_print_run.
    destruct (Full.stdout_write x (Full.next_line s1) _) as [[]|e0] eqn:Hlast.
    + discriminate.
    + simpl. intros [= ->]. left. exists (Full.next_line s1). now right.
  - simpl. intros [= ->]. right; right; right. now apply Hb.
Qed.

(** With a standard output that accepts every line, no exception leaves
    a turn of the loop. *)
Lemma full_iteration_ok (x : Full.world) (job_desc : Full.ydict)
    (resumes_folder reports_folder filename : string) (s : state) :
  Full.stdout_works x ->
  fst (Full.iteration x job_desc resumes_folder reports_folder filename s)
  = Ok tt.
Proof.
  intros Hout.
  destruct (Full.iteration x job_desc resumes_folder reports_folder filename s)
    as [[[]|e] s1] eqn:Hturn; [reflexivity |].
  assert (Hraise : fst (Full.iteration x job_desc resumes_folder reports_folder
                          filename s) = Raise e) by now rewrite Hturn.
  apply full_iteration_escape in Hraise as [_ [H | [_ (e' & s' & _ & H)]]];
    rewrite Hout in H; discriminate H.
Qed.

Lemma full_loop_ok (x : Full.world) (job_desc : Full.ydict)
    (resumes_folder reports_folder : string) (filenames : list string)
    (s : state) :
  Full.stdout_works x ->
  fst (for_each filenames
         (Full.iteration x job_desc resumes_folder reports_folder) s) = Ok tt.
Proof.
  intros Hout.
  destruct (for_each filenames _ s) as [[[]|e] s1] eqn:Hloop; [reflexivity |].
  assert (Hraise : fst (for_each filenames
                          (Full.iteration x job_desc resumes_folder
                             reports_folder) s) = Raise e)
    by now rewrite Hloop.
  apply full_loop_escape in Hraise as (n & f & _ & _ & [H | [e' H]]);
    rewrite Hout in H; discriminate H.
Qed.

(** ** One turn of the loop, case by case *)

Create Rewrite HintDb fulltrace.
#[local] Hint Rewrite requests_app dumps_app printed_app opened_app
  dotenv_loads_app http_from_app : fulltrace.

(** Splits a goal on a turn of the loop into one goal per way through
    lines 104-136. *)
Ltac full_cases :=
  repeat
    (cbv beta iota zeta;
     first
       [ rewrite full_print_run
       | rewrite full_get_analysis_run
       | rewrite full_save_report_run
       | match goal with
         | |- context [match Full.stdout_write ?x ?n ?l with _ => _ end] =>
             destruct (Full.stdout_write x n l) as [[]|?e] eqn:?Hout
         | |- context [match fst (extract_text_from_resume ?w ?p initial)
                       with _ => _ end] =>
             destruct (fst (extract_text_from_resume w p initial))
               as [?resume_text|?e] eqn:?Htext
         | |- context [if blank ?t then _ else _] =>
             destruct (blank t) eqn:?Hblank
         | |- context [match Full.prompt_of ?j ?t with _ => _ end] =>
             destruct (Full.prompt_of j t) as [?prompt|?e] eqn:?Hprompt
         | |- context [match load_dotenv ?w with _ => _ end] =>
             destruct (load_dotenv w) as [[]|?e] eqn:?Hdotenv
         | |- context [match OpenAI ?w ?k with _ => _ end] =>
             destruct (OpenAI w k) as [[]|?e] eqn:?Hclient
         | |- context [match Full.reply ?x ?n ?p with _ => _ end] =>
             destruct (Full.reply x n p) as [?v|?e] eqn:?Hreply
         | |- context [if truthy ?v then _ else _] =>
             destruct (truthy v) eqn:?Htruthy
         | |- context [match setitem ?v ?k ?c with _ => _ end] =>
             destruct (setitem v k c) as [?report|?e] eqn:?Hset
         | |- context [match open_for_writing ?w ?p with _ => _ end] =>
             destruct (open_for_writing w p) as [[]|?e] eqn:?Hopen
         | |- context [match Full.dump_fault ?x ?p ?c with _ => _ end] =>
             destruct (Full.dump_fault x p c) as [[?e ?reached]|] eqn:?Hdump
         end ]).

Lemma extract_events_quiet (filepath : string) :
  dumps (extract_events filepath) = []
  /\ requests (extract_events filepath) = O
  /\ printed (extract_events filepath) = []
  /\ Full.dotenv_loads (extract_events filepath) = O
  /\ forall x n, Full.http_from x n (extract_events filepath) = O.
Proof.
  unfold extract_events.
  destruct (Str.endswith filepath ".pdf"); [now repeat split |].
  destruct (Str.endswith filepath ".txt"); now repeat split.
Qed.

(** A turn that does not print its first line does nothing. *)
Lemma full_iteration_not_started (x : Full.world) (job_desc : Full.ydict)
    (resumes_folder reports_folder filename : string) (s : state) (e : exn) :
  eligible filename = true ->
  Full.stdout_write x (Full.next_line s) (processing_line filename) = Raise e ->
  Full.iteration x job_desc resumes_folder reports_folder filename s
  = (Raise e, s).
Proof.
  intros Helig Hout.
  now rewrite (full_iteration_run _ _ _ _ _ _ Helig), Hout.
Qed.

(** What a turn that prints its first line reads and whom it calls. *)
Lemma full_iteration_profile (x : Full.world) (job_desc : Full.ydict)
    (resumes_folder reports_folder filename : string) (s : state) :
  eligible filename = true ->
  Full.stdout_write x (Full.next_line s) (processing_line filename) = Ok tt ->
  let s' := snd (Full.iteration x job_desc resumes_folder reports_folder
                   filename s) in
  let called :=
    match Full.prompt_for x job_desc resumes_folder filename with
    | Some prompt => if Full.client_made x then Some prompt else None
    | None => None
    end in
  opened (trace s')
  = opened (trace s) ++ [os_path_join resumes_folder filename]
  /\ Full.dotenv_loads (trace s')
     = (Full.dotenv_loads (trace s)
        + match Full.prompt_for x job_desc resumes_folder filename with
          | Some _ => 1
          | None => 0
          end)%nat
  /\ requests (trace s')
     = (requests (trace s)
        + match called with Some _ => 1 | None => 0 end)%nat
  /\ Full.http_sent x (trace s')
     = (Full.http_sent x (trace s)
        + match called with
          | Some prompt => Full.http_requests x (requests (trace s)) prompt
          | None => 0
          end)%nat.
Proof.
  intros Helig Hstart. cbv zeta.
  pose proof (eligible_opened resumes_folder filename Helig) as Hx.
  pose proof (extract_events_quiet (os_path_join resumes_folder filename))
    as (Hd & Hr & Hp & Hl & Hh).
  rewrite (full_iteration_run _ _ _ _ _ _ Helig), Hstart.
  rewrite full_process_file_run.
  unfold Full.prompt_for, Full.text_of, Full.client_made, Full.http_sent.
  full_cases; simpl; autorewrite with fulltrace; simpl;
    rewrite ?Hx, ?Hr, ?Hl, ?Hh; autorewrite with fulltrace; simpl;
    rewrite ?Hx, ?Hr, ?Hl, ?Hh, ?app_nil_r, ?Nat.add_0_r;
    repeat split; try reflexivity; try lia.
Qed.

(** The lines of a turn follow the lines printed before it, and begin
    with the first line of the turn when that line is printed. *)
Lemma full_iteration_printed (x : Full.world) (job_desc : Full.ydict)
    (resumes_folder reports_folder filename : string) (s : state) :
  let s' := snd (Full.iteration x job_desc resumes_folder reports_folder
                   filename s) in
  exists lines,
    printed (trace s') = printed (trace s) ++ lines
    /\ (eligible filename = true ->
        Full.stdout_write x (Full.next_line s) (processing_line filename)
        = Ok tt ->
        exists rest, lines = processing_line filename :: rest).
Proof.
  cbv zeta. destruct (eligible filename) eqn:Helig.
  2:{ rewrite full_iteration_not_eligible by exact Helig.
      exists []. split; [now rewrite app_nil_r | discriminate]. }
  pose proof (extract_events_quiet (os_path_join resumes_folder filename))
    as (_ & _ & Hp & _).
  rewrite (full_iteration_run _ _ _ _ _ _ Helig).
  destruct (Full.stdout_write x (Full.next_line s) (processing_line filename))
    as [[]|e] eqn:Hstart.
  2:{ exists []. split; [now rewrite app_nil_r | discriminate]. }
  rewrite full_process_file_run.
  full_cases;
    (eexists; split;
     [ simpl; autorewrite with fulltrace; simpl;
       rewrite ?Hp; autorewrite with fulltrace; simpl; rewrite ?Hp;
       rewrite <- ?app_assoc; simpl; reflexivity
     | intros _ _; eexists; reflexivity ]).
Qed.

(** With a standard output that accepts every line, the loop prints the
    first line of every eligible entry. *)
Lemma full_loop_announces (x : Full.world) (job_desc : Full.ydict)
    (resumes_folder reports_folder : string) (filenames : list string)
    (s : state) :
  Full.stdout_works x ->
  let s' := snd (for_each filenames
                   (Full.iteration x job_desc resumes_folder reports_folder)
                   s) in
  (forall line, In line (printed (trace s)) -> In line (printed (trace s')))
  /\ forall filename,
       In filename filenames -> eligible filename = true ->
       In (processing_line filename) (printed (trace s')).
Proof.
  intros Hout. cbv zeta. revert s.
  induction filenames as [|filename rest IH]; intros s.
  - simpl. split; [auto | contradiction].
  - simpl. unfold bind.
    pose proof (full_iteration_ok x job_desc resumes_folder reports_folder
                  filename s Hout) as Hok.
    pose proof (full_iteration_printed x job_desc resumes_folder
                  reports_folder filename s) as (lines & Hlines & Hfirst).
    destruct (Full.iteration x job_desc resumes_folder reports_folder
                filename s) as [r s1].
    simpl in Hok, Hlines. subst r.
    destruct (IH s1) as [Hkeep Hann].
    split.
    + intros line Hin. apply Hkeep. rewrite Hlines.
      apply in_or_app. now left.
    + intros f [<- | Hin] Helig.
      * apply Hkeep. rewrite Hlines. apply in_or_app. right.
        destruct (Hfirst Helig (Hout _ _)) as (rest' & ->). now left.
      * now apply Hann.
Qed.

(** ** The files follow the turns *)

Section FullStoreFacts.

Lemma same_store_refl (s : state) : Full.same_store s s.
Proof. now split. Qed.

Lemma same_store_trans (s s1 s2 : state) :
  Full.same_store s s1 -> Full.same_store s1 s2 -> Full.same_store s s2.
Proof. intros [Hd1 Hf1] [Hd2 Hf2]. split; congruence. Qed.

Lemma same_store_log (s : state) (evs : list event) :
  dumps evs = [] -> Full.same_store s (log s evs).
Proof.
  intros H. split; [| reflexivity].
  simpl. now rewrite dumps_app, H, app_nil_r.
Qed.

End FullStoreFacts.

Lemma full_print_same (x : Full.world) (line : string) (s : state) :
  Full.same_store s (snd (Full.print x line s)).
Proof.
  rewrite full_print_run.
  destruct (Full.stdout_write x _ line).
  - now apply same_store_log.
  - apply same_store_refl.
Qed.

Lemma full_get_analysis_same (x : Full.world) (prompt : string) (s : state) :
  Full.same_store s (snd (Full.get_analysis_from_gpt x prompt s)).
Proof.
  rewrite full_get_analysis_run.
  full_cases; now apply same_store_log.
Qed.

(** The end of a turn: the handler of the [try] writes nothing. *)
Lemma full_handler_same (x : Full.world) (filename : string)
    (r : result unit) (s : state) :
  Full.same_store s
    (snd match r with
         | Ok _ => (Ok tt, s)
         | Raise e => Full.print x (error_line filename e) s
         end).
Proof.
  destruct r as [[]|e]; [apply same_store_refl | apply full_print_same].
Qed.

Lemma full_save_report_quiet (x : Full.world)
    (reports_folder filename : string) (v : pyval) (s : state) :
  (forall kv d, v <> PDict (kv :: d)) ->
  Full.same_store s (snd (Full.save_report x reports_folder filename v s)).
Proof.
  intros Hv. rewrite full_save_report_run.
  destruct (truthy v) eqn:Ht.
  - destruct v as [| b | n | f | t | l | [|kv d]]; simpl setitem; cbv iota;
      try apply same_store_refl.
    + discriminate Ht.
    + now destruct (Hv kv d).
  - full_cases; [now apply same_store_log | apply same_store_refl].
Qed.

(** What [save_report] leaves at the path of the report. *)
Lemma full_save_report_step (x : Full.world)
    (reports_folder filename : string) (v : pyval) (s : state) :
  let path := report_path reports_folder filename in
  let s' := snd (Full.save_report x reports_folder filename v s) in
  (exists kv d,
      v = PDict (kv :: d)
      /\ open_for_writing (Full.base x) path = Ok tt
      /\ files s'
         = <[path := Full.written x path (report_content filename (kv :: d))]>
             (files s)
      /\ dumps (trace s')
         = dumps (trace s)
           ++ Full.completed x path (report_content filename (kv :: d)))
  \/ (~ reportable (Full.base x) reports_folder filename v
      /\ Full.same_store s s').
Proof.
  intros path s'. subst s'.
  destruct (classic_dict v) as [(kv & d & ->) | Hv].
  - rewrite full_save_report_run. fold path.
    simpl truthy. simpl setitem. cbv iota zeta.
    fold (report_content filename (kv :: d)).
    destruct (open_for_writing (Full.base x) path) as [[]|e] eqn:Hopen.
    + left. exists kv, d. split; [reflexivity |]. split; [reflexivity |].
      unfold Full.written, Full.completed.
      destruct (Full.dump_fault x path _) as [[e reached]|].
      * simpl. rewrite dumps_app. simpl. now rewrite !app_nil_r.
      * destruct (Full.stdout_write x _ _); simpl; rewrite dumps_app;
          now split.
    + right. split.
      * intros (kv' & d' & _ & Hw). fold path in Hw. congruence.
      * now apply same_store_log.
  - right. split.
    + intros (kv & d & Hd & _). now apply (Hv kv d).
    + now apply full_save_report_quiet.
Qed.

(** What a turn on an eligible file leaves in the store. *)
Lemma full_iteration_step (x : Full.world) (job_desc : Full.ydict)
    (resumes_folder reports_folder filename : string) (s : state) :
  eligible filename = true ->
  let path := report_path reports_folder filename in
  let s' := snd (Full.iteration x job_desc resumes_folder reports_folder
                   filename s) in
  (exists resume_text analysis,
      Full.succeeds_with x job_desc resumes_folder reports_folder filename s
        resume_text analysis
      /\ files s'
         = <[path := Full.written x path (report_content filename analysis)]>
             (files s)
      /\ dumps (trace s')
         = dumps (trace s)
           ++ Full.completed x path (report_content filename analysis))
  \/ (~ Full.succeeds x job_desc resumes_folder reports_folder filename s
      /\ Full.same_store s s').
Proof.
  intros Helig path s'. subst s'.
  unfold Full.succeeds, Full.succeeds_with. cbv zeta.
  rewrite (full_iteration_run _ _ _ _ _ _ Helig).
  destruct (Full.stdout_write x (Full.next_line s) (processing_line filename))
    as [[]|e] eqn:Hstart.
  2:{ right. split.
      - intros (t & a & H & _). discriminate H.
      - apply same_store_refl. }
  rewrite full_process_file_run. cbv zeta.
  rewrite extract_run. simpl fst. simpl snd.
  set (s0 := log s [Stdout (processing_line filename)]).
  set (file := os_path_join resumes_folder filename).
  set (s1 := log s0 (extract_events file)).
  assert (H01 : Full.same_store s s1).
  { apply (same_store_trans _ s0); apply same_store_log; [reflexivity |].
    apply extract_events_quiet. }
  assert (Hquiet : forall (r : result unit) (s2 : state),
             Full.same_store s1 s2 ->
             Full.same_store s
               (snd match r with
                    | Ok _ => (Ok tt, s2)
                    | Raise e => Full.print x (error_line filename e) s2
                    end)).
  { intros r s2 H. apply (same_store_trans _ s1); [exact H01 |].
    apply (same_store_trans _ s2); [exact H |].
    apply full_handler_same. }
  destruct (fst (extract_text_from_resume (Full.base x) file initial))
    as [resume_text|e].
  2:{ right. split.
      - intros (t & a & _ & Hr & _). discriminate Hr.
      - apply (Hquiet (Raise e) s1), same_store_refl. }
  destruct (blank resume_text) eqn:Hblank.
  { right. split.
    - intros (t & a & _ & Hr & Hb & _). injection Hr as <-. congruence.
    - pose proof (full_print_same x (skipping_line filename) s1) as Hp.
      destruct (Full.print x (skipping_line filename) s1) as [r s2].
      now apply (Hquiet r s2). }
  destruct (Full.prompt_of job_desc resume_text) as [prompt|e] eqn:Hprompt.
  2:{ right. split.
      - intros (t & a & _ & Hr & _ & (p & Hp & _) & _). injection Hr as <-.
        congruence.
      - apply (Hquiet (Raise e) s1), same_store_refl. }
  pose proof (full_get_analysis_same x prompt s1) as H12.
  destruct (Full.get_analysis_from_gpt x prompt s1) as [r2 s2] eqn:E2.
  simpl in H12.
  destruct r2 as [v|e].
  2:{ right. split.
      - intros (t & a & _ & Hr & _ & (p & Hp & Hv) & _). injection Hr as <-.
        rewrite Hprompt in Hp. injection Hp as <-.
        rewrite E2 in Hv. discriminate Hv.
      - now apply (Hquiet (Raise e) s2). }
  pose proof (full_save_report_step x reports_folder filename v s2) as Hsave.
  destruct (Full.save_report x reports_folder filename v s2) as [r3 s3].
  cbv zeta in Hsave. simpl snd in Hsave. fold path in Hsave.
  pose proof (full_handler_same x filename r3 s3) as [Hd3 Hf3].
  destruct Hsave as [(kv & d & -> & Hopen & Hfiles & Hdumps) | (Hnot & H23)].
  - left. exists resume_text, (kv :: d). split; [| split].
    + split; [reflexivity |]. split; [reflexivity |].
      split; [exact Hblank |]. split.
      * exists prompt. split; [exact Hprompt |]. now rewrite E2.
      * split; [discriminate | exact Hopen].
    + rewrite Hf3, Hfiles. f_equal.
      destruct H12 as [_ ->]. apply H01.
    + rewrite Hd3, Hdumps. f_equal.
      destruct H12 as [-> _]. apply H01.
  - right. split.
    + intros (t & a & _ & Hr & _ & (p & Hp & Hv) & Hne & Hopen).
      injection Hr as <-. rewrite Hprompt in Hp. injection Hp as <-.
      rewrite E2 in Hv. injection Hv as ->.
      apply Hnot. destruct a as [|kv d]; [congruence |]. now exists kv, d.
    + apply (Hquiet r3 s3). now apply (same_store_trans _ s2).
Qed.

(** ** The loop and the batch *)

(** A turn makes at most one call, completes at most one dump and adds
    at most one file; a turn on another entry none. *)
Lemma full_iteration_bounds (x : Full.world) (job_desc : Full.ydict)
    (resumes_folder reports_folder filename : string) (s : state) :
  let s' := snd (Full.iteration x job_desc resumes_folder reports_folder
                   filename s) in
  let one := if eligible filename then 1%nat else 0%nat in
  (requests (trace s') <= requests (trace s) + one)%nat
  /\ (length (dumps (trace s')) <= length (dumps (trace s)) + one)%nat
  /\ (size (files s') <= size (files s) + one)%nat.
Proof.
  cbv zeta. destruct (eligible filename) eqn:Helig.
  2:{ rewrite full_iteration_not_eligible by exact Helig. simpl. lia. }
  destruct (Full.stdout_write x (Full.next_line s) (processing_line filename))
    as [[]|e] eqn:Hstart.
  2:{ rewrite (full_iteration_not_started _ _ _ _ _ _ _ Helig Hstart).
      simpl. lia. }
  split.
  - destruct (full_iteration_profile x job_desc resumes_folder reports_folder
                filename s Helig Hstart) as (_ & _ & Hr & _).
    rewrite Hr.
    destruct (Full.prompt_for x job_desc resumes_folder filename);
      [destruct (Full.client_made x) |]; lia.
  - destruct (full_iteration_step x job_desc resumes_folder reports_folder
                filename s Helig)
      as [(t & a & _ & Hf & Hd) | (_ & Hd & Hf)].
    + rewrite Hf, Hd, length_app, map_size_insert. split.
      * unfold Full.completed.
        destruct (Full.dump_fault x _ _) as [[e k]|]; simpl; lia.
      * destruct (files s !! _); simpl; lia.
    + rewrite Hf, Hd. lia.
Qed.

Lemma full_loop_bounds (x : Full.world) (job_desc : Full.ydict)
    (resumes_folder reports_folder : string) (filenames : list string)
    (s : state) :
  let s' := snd (for_each filenames
                   (Full.iteration x job_desc resumes_folder reports_folder)
                   s) in
  let n := length (List.filter eligible filenames) in
  (requests (trace s') <= requests (trace s) + n)%nat
  /\ (length (dumps (trace s')) <= length (dumps (trace s)) + n)%nat
  /\ (size (files s') <= size (files s) + n)%nat.
Proof.
  cbv zeta. revert s. induction filenames as [|filename rest IH]; intros s.
  - simpl. lia.
  - simpl for_each. unfold bind.
    pose proof (full_iteration_bounds x job_desc resumes_folder reports_folder
                  filename s) as (Hr & Hd & Hf).
    cbv zeta in Hr, Hd, Hf.
    simpl List.filter.
    destruct (Full.iteration x job_desc resumes_folder reports_folder
                filename s) as [[[]|e] s1];
      simpl in Hr, Hd, Hf.
    + destruct (IH s1) as (Hr' & Hd' & Hf').
      destruct (eligible filename); simpl length; lia.
    + simpl snd. destruct (eligible filename); simpl length; lia.
Qed.

Lemma full_batch_bounds (x : Full.world) (job_desc : Full.ydict)
    (resumes_folder reports_folder : string) (s : state) :
  let s' := snd (Full.process_resumes_in_batch x job_desc resumes_folder
                   reports_folder s) in
  let n :=
    length (List.filter eligible (listing (Full.base x) resumes_folder)) in
  (requests (trace s') <= requests (trace s) + n)%nat
  /\ (length (dumps (trace s')) <= length (dumps (trace s)) + n)%nat
  /\ (size (files s') <= size (files s) + n)%nat.
Proof.
  cbv zeta. rewrite full_batch_run. cbv zeta. unfold listing.
  set (before := if os_path_exists (Full.base x) reports_folder then []
                 else [Makedirs reports_folder]).
  assert (Hb : requests before = O /\ dumps before = [])
    by (unfold before;
        now destruct (os_path_exists (Full.base x) reports_folder)).
  destruct Hb as [Hbr Hbd].
  destruct (if os_path_exists (Full.base x) reports_folder then Ok tt
            else os_makedirs (Full.base x) reports_folder) as [[]|e].
  2:{ simpl. rewrite requests_app, dumps_app, Hbr, Hbd, app_nil_r. lia. }
  destruct (os_listdir (Full.base x) resumes_folder) as [filenames|e].
  2:{ simpl. rewrite requests_app, dumps_app, requests_app, dumps_app,
        Hbr, Hbd. simpl. rewrite app_nil_r. lia. }
  pose proof (full_loop_bounds x job_desc resumes_folder reports_folder
                filenames (log s (before ++ [Listdir resumes_folder])))
    as (Hr & Hd & Hf).
  cbv zeta in Hr, Hd, Hf. simpl trace in Hr, Hd. simpl files in Hf.
  rewrite requests_app, requests_app, Hbr in Hr.
  rewrite dumps_app, dumps_app, Hbd in Hd. simpl in Hr, Hd.
  rewrite app_nil_r in Hd. rewrite Nat.add_0_r in Hr.
  auto.
Qed.

(** The entries of a listing whose turn gets as far as the analysis. *)
Lemma full_loop_profile (x : Full.world) (job_desc : Full.ydict)
    (resumes_folder reports_folder : string) (filenames : list string)
    (s : state) :
  fst (for_each filenames
         (Full.iteration x job_desc resumes_folder reports_folder) s)
  = Ok tt ->
  let s' := snd (for_each filenames
                   (Full.iteration x job_desc resumes_folder reports_folder)
                   s) in
  let eligible_files := List.filter eligible filenames in
  opened (trace s')
  = opened (trace s) ++ map (os_path_join resumes_folder) eligible_files
  /\ Full.dotenv_loads (trace s')
     = (Full.dotenv_loads (trace s)
        + length (List.filter
                    (fun filename =>
                       bool_decide
                         (is_Some (Full.prompt_for x job_desc resumes_folder
                                     filename)))
                    eligible_files))%nat.
Proof.
  cbv zeta. revert s. induction filenames as [|filename rest IH]; intros s.
  - simpl. intros _. now rewrite app_nil_r, Nat.add_0_r.
  - simpl for_each. unfold bind.
    destruct (Full.iteration x job_desc resumes_folder reports_folder
                filename s) as [[[]|e] s1] eqn:Hturn; [| discriminate].
    intros Hrest. destruct (IH s1 Hrest) as [Ho Hl].
    rewrite Ho, Hl. simpl List.filter.
    destruct (eligible filename) eqn:Helig.
    + destruct (Full.stdout_write x (Full.next_line s)
                  (processing_line filename)) as [[]|e] eqn:Hstart.
      2:{ rewrite (full_iteration_not_started _ _ _ _ _ _ _ Helig Hstart)
            in Hturn. discriminate Hturn. }
      destruct (full_iteration_profile x job_desc resumes_folder
                  reports_folder filename s Helig Hstart)
        as (Ho1 & Hl1 & _).
      rewrite Hturn in Ho1, Hl1. simpl in Ho1, Hl1.
      rewrite Ho1, Hl1. simpl List.filter. simpl map.
      rewrite <- app_assoc. split; [reflexivity |].
      destruct (Full.prompt_for x job_desc resumes_folder filename) eqn:Hp.
      * rewrite bool_decide_true by (now eexists). simpl length. lia.
      * rewrite bool_decide_false by (now intros [? ?]). lia.
    + rewrite full_iteration_not_eligible in Hturn by exact Helig.
      now injection Hturn as <-.
Qed.

(** ** A job description of JSON's values *)








(** * The claims *)

(** ** C1: faults are contained per file *)

(** C1, as stated, fails: only configuration loading may abort the whole
    run.  Here the configuration loads, the input directory is missing,
    and [os.listdir], which is called outside the per-file [try], ends the
    run with its exception. *)
Lemma C1_listing_fault_aborts_run :
  fst (Full.load_job_description Faulty.no_resumes_folder
         "job_description.yml" initial)
  = Ok (Full.YDict Faulty.job_description)
  /\ fst (Full.main Faulty.no_resumes_folder initial)
     = Raise (Exn "FileNotFoundError"
                "[Errno 2] No such file or directory: 'resumes/'").
Proof. split; reflexivity. Qed.

(** C1, amended: an exception raised while one eligible file is processed
    (by the extraction, by the building of the prompt, by the analysis,
    by the writing of the report) is an exception of the body of the
    [try] of that file; it is caught there and the handler prints a line
    naming the file and the exception, after which the turn ends
    normally.  An exception leaves a turn only from a [print] outside the
    [try]: the first line of the turn (line 104) or the line of the
    handler (line 136).  So the batch aborts only when the output
    directory cannot be created, the input directory cannot be listed, or
    one of these two lines cannot be printed, and the script only for
    these reasons, when the configuration cannot be loaded as a mapping,
    or when its opening or closing line cannot be printed.  With a
    standard output that accepts every line the loop ends normally and
    starts every eligible file of the listing. *)
Theorem C1_faults_contained_per_file (x : Full.world) (job_desc : Full.ydict)
    (resumes_folder reports_folder : string) :
  (forall filename s e s1,
      eligible filename = true ->
      Full.stdout_write x (Full.next_line s) (processing_line filename)
      = Ok tt ->
      Full.process_file x job_desc resumes_folder reports_folder filename
        (log s [Stdout (processing_line filename)]) = (Raise e, s1) ->
      Full.iteration x job_desc resumes_folder reports_folder filename s
      = match Full.stdout_write x (Full.next_line s1)
                (error_line filename e) with
        | Ok _ => (Ok tt, log s1 [Stdout (error_line filename e)])
        | Raise e' => (Raise e', s1)
        end)
  /\ (forall filename s e,
        let file := os_path_join resumes_folder filename in
        let s1 := log s (extract_events file) in
        let body :=
          Full.process_file x job_desc resumes_folder reports_folder filename
            s in
        (fst (extract_text_from_resume (Full.base x) file initial) = Raise e ->
         body = (Raise e, s1))
        /\ (forall resume_text,
              fst (extract_text_from_resume (Full.base x) file initial)
              = Ok resume_text ->
              blank resume_text = false ->
              (Full.prompt_of job_desc resume_text = Raise e ->
               body = (Raise e, s1))
              /\ forall prompt,
                   Full.prompt_of job_desc resume_text = Ok prompt ->
                   (fst (Full.get_analysis_from_gpt x prompt s1) = Raise e ->
                    fst body = Raise e)
                   /\ forall v,
                        fst (Full.get_analysis_from_gpt x prompt s1) = Ok v ->
                        fst (Full.save_report x reports_folder filename v
                               (snd (Full.get_analysis_from_gpt x prompt s1)))
                        = Raise e ->
                        fst body = Raise e))
  /\ (forall filename s e,
        fst (Full.iteration x job_desc resumes_folder reports_folder filename
               s) = Raise e
        <-> eligible filename = true
            /\ (Full.stdout_write x (Full.next_line s)
                  (processing_line filename) = Raise e
                \/ (Full.stdout_write x (Full.next_line s)
                      (processing_line filename) = Ok tt
                    /\ exists e' s1,
                         Full.process_file x job_desc resumes_folder
                           reports_folder filename
                           (log s [Stdout (processing_line filename)])
                         = (Raise e', s1)
                         /\ Full.stdout_write x (Full.next_line s1)
                              (error_line filename e') = Raise e)))
  /\ (forall s e,
        fst (Full.process_resumes_in_batch x job_desc resumes_folder
               reports_folder s) = Raise e ->
        (os_path_exists (Full.base x) reports_folder = false
         /\ os_makedirs (Full.base x) reports_folder = Raise e)
        \/ os_listdir (Full.base x) resumes_folder = Raise e
        \/ (exists filenames,
              os_listdir (Full.base x) resumes_folder = Ok filenames
              /\ Full.print_fault x filenames e))
  /\ (forall s e,
        fst (Full.main x s) = Raise e ->
        (exists n,
           Full.stdout_write x n "Starting NexResume Semantic Matcher..."
           = Raise e
           \/ Full.stdout_write x n
                "Processing complete. Reports are saved in the 'reports/' folder."
              = Raise e)
        \/ Full.load_yaml x "job_description.yml" = Raise e
        \/ (exists v, Full.load_yaml x "job_description.yml" = Ok v
                      /\ Full.ysetitem v "Tier-1_cities" Full.tier1_cities
                         = Raise e)
        \/ (os_path_exists (Full.base x) "reports/" = false
            /\ os_makedirs (Full.base x) "reports/" = Raise e)
        \/ os_listdir (Full.base x) "resumes/" = Raise e
        \/ (exists filenames,
              os_listdir (Full.base x) "resumes/" = Ok filenames
              /\ Full.print_fault x filenames e))
  /\ (Full.stdout_works x ->
      forall filenames s,
        let loop :=
          for_each filenames
            (Full.iteration x job_desc resumes_folder reports_folder) s in
        fst loop = Ok tt
        /\ forall filename,
             In filename filenames -> eligible filename = true ->
             In (processing_line filename) (printed (trace (snd loop)))).
Proof.
  split; [| split; [| split; [| split; [| split]]]].
  - intros filename s e s1. apply full_iteration_caught.
  - intros filename s e file s1 body. subst file s1 body.
    rewrite full_process_file_run. cbv zeta. split.
    + now intros ->.
    + intros resume_text -> ->. split.
      * now intros ->.
      * intros prompt ->. split.
        -- intros H.
           destruct (Full.get_analysis_from_gpt x prompt _) as [[v|e0] s2];
             simpl in H; [discriminate H |]. simpl. now injection H as ->.
        -- intros v Hv Hsave.
           destruct (Full.get_analysis_from_gpt x prompt _) as [[v0|e0] s2];
             simpl in Hv; [| discriminate Hv].
           injection Hv as ->. simpl in Hsave. exact Hsave.
  - intros filename s e. apply full_iteration_escape.
  - intros s e. apply full_batch_abort.
  - intros s e. apply full_main_abort.
  - intros Hout filenames s loop. subst loop. split.
    + now apply full_loop_ok.
    + now apply full_loop_announces.
Qed.

(** The job description holds a date, so that the prompt of [alice.txt]
    cannot be built: the [TypeError] of [json.dumps] is caught by the
    [try] of the file, reported in a line, and the turn ends normally. *)
Lemma C1_faults_contained_per_file_witness :
  Full.iteration Faulty.office Faulty.dated "resumes/" "reports/" "alice.txt"
    initial
  = (Ok tt,
     log (log initial [Stdout (processing_line "alice.txt");
                       Open "resumes/alice.txt" "r"])
       [Stdout (error_line "alice.txt"
                  (Exn "TypeError"
                     "Object of type date is not JSON serializable"))]).
Proof.
  apply (proj1 (C1_faults_contained_per_file Faulty.office Faulty.dated
                  "resumes/" "reports/")
           "alice.txt" initial
           (Exn "TypeError" "Object of type date is not JSON serializable")
           (log initial [Stdout (processing_line "alice.txt");
                         Open "resumes/alice.txt" "r"]));
    reflexivity.
Defined.

(** ** C2: the reports written *)

(** C2, as stated, fails: a report is written whenever the extraction
    gave a text that is not blank and the analysis returned a result.
    Here both hold for [alice.txt], every line is printed, the report
    file cannot be opened, and nothing is written. *)
Lemma C2_write_fault_leaves_no_report :
  eligible "alice.txt" = true
  /\ fst (extract_text_from_resume (Full.base Faulty.read_only_reports)
            "resumes/alice.txt"
            (log initial [Stdout (processing_line "alice.txt")]))
     = Ok Sample.alice_text
  /\ blank Sample.alice_text = false
  /\ (exists prompt,
        Full.prompt_of Faulty.job_desc Sample.alice_text = Ok prompt
        /\ fst (Full.get_analysis_from_gpt Faulty.read_only_reports prompt
                  (snd (extract_text_from_resume
                          (Full.base Faulty.read_only_reports)
                          "resumes/alice.txt"
                          (log initial [Stdout (processing_line "alice.txt")]))))
           = Ok (PDict Sample.alice_analysis))
  /\ dumps (trace (snd (Full.process_resumes_in_batch Faulty.read_only_reports
                          Faulty.job_desc "resumes/" "reports/" initial)))
     = []
  /\ files (snd (Full.process_resumes_in_batch Faulty.read_only_reports
                   Faulty.job_desc "resumes/" "reports/" initial))
     = ∅.
Proof.
  split; [reflexivity |]. split; [reflexivity |]. split; [reflexivity |].
  split.
  - eexists. split; [vm_compute; reflexivity |]. vm_compute. reflexivity.
  - split; vm_compute; reflexivity.
Qed.

(** C2, amended: the report files that a batch writes are at most as
    many as the entries of the listing that end in [.pdf] or [.txt],
    counted as completed dumps and as files; an entry with another ending
    changes nothing.  For an eligible entry the report is written
    completely, under the path and with the content of that entry, if
    and only if the first line of its turn was printed, its extraction
    gave a text that is not blank, the prompt was built, the analysis
    returned a non-empty mapping, the report file opened, and
    [json.dump] and the closing of the file completed.  When the report
    file opened and [json.dump] or the closing failed, the file holds
    the first characters of the report and no dump is completed.  In
    every other case the turn writes nothing. *)
Theorem C2_reports_bounded_and_characterised (x : Full.world)
    (job_desc : Full.ydict) (resumes_folder reports_folder : string) :
  (forall s,
      let s' := snd (Full.process_resumes_in_batch x job_desc resumes_folder
                       reports_folder s) in
      let eligible_files :=
        List.filter eligible (listing (Full.base x) resumes_folder) in
      (length (dumps (trace s'))
       <= length (dumps (trace s)) + length eligible_files)%nat
      /\ (size (files s') <= size (files s) + length eligible_files)%nat)
  /\ (forall filename s,
        eligible filename = false ->
        Full.iteration x job_desc resumes_folder reports_folder filename s
        = (Ok tt, s))
  /\ (forall filename s,
        eligible filename = true ->
        let s' := snd (Full.iteration x job_desc resumes_folder reports_folder
                         filename s) in
        let path := report_path reports_folder filename in
        (forall resume_text analysis,
            Full.succeeds_with x job_desc resumes_folder reports_folder
              filename s resume_text analysis ->
            let content := report_content filename analysis in
            match Full.dump_fault x path content with
            | None =>
                dumps (trace s') = dumps (trace s) ++ [(path, content)]
                /\ files s' = <[path := content]> (files s)
            | Some (_, reached) =>
                dumps (trace s') = dumps (trace s)
                /\ files s' = <[path := Str.take reached content]> (files s)
            end)
        /\ (~ Full.succeeds x job_desc resumes_folder reports_folder filename
                s ->
            dumps (trace s') = dumps (trace s) /\ files s' = files s)).
Proof.
  split; [| split].
  - intros s s' eligible_files. subst s' eligible_files.
    pose proof (full_batch_bounds x job_desc resumes_folder reports_folder s)
      as (_ & Hd & Hf).
    now split.
  - intros filename s. apply full_iteration_not_eligible.
  - intros filename s Helig s' path. subst s' path.
    destruct (full_iteration_step x job_desc resumes_folder reports_folder
                filename s Helig)
      as [(t & a & Hwith & Hfiles & Hdumps) | (Hnot & Hsame)].
    + split.
      * intros t' a' Hwith' content. subst content.
        assert (a' = a) as ->.
        { destruct Hwith as (_ & Hr & _ & (p & Hp & Hv) & _).
          destruct Hwith' as (_ & Hr' & _ & (p' & Hp' & Hv') & _).
          rewrite Hr in Hr'. injection Hr' as <-.
          rewrite Hp in Hp'. injection Hp' as <-.
          rewrite Hv in Hv'. now injection Hv' as <-. }
        rewrite Hfiles, Hdumps. unfold Full.written, Full.completed.
        destruct (Full.dump_fault x _ _) as [[e reached]|].
        -- now rewrite app_nil_r.
        -- now split.
      * intros Hnot. destruct Hnot. now exists t, a.
    + split.
      * intros t a Hwith. destruct Hnot. now exists t, a.
      * intros _. exact Hsame.
Qed.

(** The disk is full: the report of [alice.txt] opens, and the file keeps
    the first 16 characters of the report. *)
Lemma C2_reports_bounded_and_characterised_witness :
  dumps (trace (snd (Full.iteration Faulty.disk_full Faulty.job_desc
                       "resumes/" "reports/" "alice.txt" initial)))
  = dumps (trace initial)
  /\ files (snd (Full.iteration Faulty.disk_full Faulty.job_desc "resumes/"
                   "reports/" "alice.txt" initial))
     = <[report_path "reports/" "alice.txt"
         := Str.take 16 (report_content "alice.txt" Sample.alice_analysis)]>
         (files initial).
Proof.
  apply (proj1 (proj2 (proj2 (C2_reports_bounded_and_characterised
                                Faulty.disk_full Faulty.job_desc
                                "resumes/" "reports/"))
                 "alice.txt" initial eq_refl)
           Sample.alice_text Sample.alice_analysis).
  split; [reflexivity |]. split; [reflexivity |]. split; [reflexivity |].
  split; [| split; [discriminate | reflexivity]].
  eexists. split; vm_compute; reflexivity.
Defined.

(** ** C3: the analysis client *)

(** C3, as stated, fails: [get_analysis_from_gpt] never raises and makes
    exactly one attempt.  With no API key in the environment the
    constructor of the client, which is called before the [try], raises:
    the exception leaves the function and no call is made.  And the one
    call that the function makes is not one attempt: the client is built
    with its default settings, and on a rate-limited endpoint it repeats
    the HTTP request inside the call, here three requests for one
    call. *)
Lemma C3_missing_key_raises :
  (fst (Full.get_analysis_from_gpt Faulty.no_api_key "prompt" initial)
   = Raise (Exn "OpenAIError"
              "The api_key client option must be set either by passing api_key to the client or by setting the OPENAI_API_KEY environment variable")
   /\ requests (trace (snd (Full.get_analysis_from_gpt Faulty.no_api_key
                              "prompt" initial))) = O)
  /\ (let s := log initial [Request "first"; Request "second"] in
      let s' := snd (Full.get_analysis_from_gpt Faulty.retrying "prompt" s) in
      requests (trace s') = S (requests (trace s))
      /\ Full.http_sent Faulty.retrying (trace s')
         = (Full.http_sent Faulty.retrying (trace s) + 3)%nat).
Proof. split; split; reflexivity. Qed.

(** C3, amended: [get_analysis_from_gpt] calls
    [client.chat.completions.create] at most once.  Once [load_dotenv]
    and the constructor of the client have returned, it calls it exactly
    once; the HTTP requests sent are those the client makes inside that
    call, which the function does not limit.  When the call and the
    decoding of the reply return, the function returns the decoded
    reply; when either raises, the exception is caught, the line of the
    error is printed and [None] is returned.  An exception of
    [load_dotenv] or of the constructor leaves the function, with no call
    made, and so does an exception of the [print] in the handler. *)
Theorem C3_one_attempt_failure_as_none (x : Full.world) (prompt : string)
    (s : state) :
  let outcome := Full.get_analysis_from_gpt x prompt s in
  let n := requests (trace s) in
  (requests (trace (snd outcome)) <= S n)%nat
  /\ (load_dotenv (Full.base x) = Ok tt ->
      OpenAI (Full.base x) (os_getenv (Full.base x) "OPENAI_API_KEY") = Ok tt ->
      requests (trace (snd outcome)) = S n
      /\ Full.http_sent x (trace (snd outcome))
         = (Full.http_sent x (trace s) + Full.http_requests x n prompt)%nat
      /\ match Full.reply x n prompt with
         | Ok v =>
             fst outcome = Ok v
             /\ printed (trace (snd outcome)) = printed (trace s)
         | Raise e =>
             match Full.stdout_write x (Full.next_line s)
                     (Full.api_error_line e) with
             | Ok _ =>
                 fst outcome = Ok PNone
                 /\ printed (trace (snd outcome))
                    = printed (trace s) ++ [Full.api_error_line e]
             | Raise e' => fst outcome = Raise e'
             end
         end)
  /\ (forall e,
        load_dotenv (Full.base x) = Raise e
        \/ (load_dotenv (Full.base x) = Ok tt
            /\ OpenAI (Full.base x) (os_getenv (Full.base x) "OPENAI_API_KEY")
               = Raise e) ->
        fst outcome = Raise e
        /\ requests (trace (snd outcome)) = n
        /\ Full.http_sent x (trace (snd outcome)) = Full.http_sent x (trace s)).
Proof.
  intros outcome n. subst outcome n. rewrite full_get_analysis_run.
  unfold Full.http_sent.
  destruct (load_dotenv (Full.base x)) as [[]|e0].
  2:{ simpl. autorewrite with fulltrace. simpl. split; [lia |].
      split; [discriminate |].
      intros e [[= ->] | [[=] _]]. repeat split; lia. }
  destruct (OpenAI (Full.base x) _) as [[]|e0].
  2:{ simpl. autorewrite with fulltrace. simpl. split; [lia |].
      split; [discriminate |].
      intros e [[=] | [_ [= ->]]]. repeat split; lia. }
  split; [| split].
  - full_cases; simpl; autorewrite with fulltrace; simpl; lia.
  - intros _ _.
    full_cases; simpl; autorewrite with fulltrace; simpl;
      rewrite ?app_nil_r; repeat split; lia.
  - intros e [[=] | [_ [=]]].
Qed.

(** The third call of the sample endpoint is refused: the exception is
    caught, its line is printed and [None] is returned. *)
Lemma C3_one_attempt_failure_as_none_witness :
  requests (trace (snd (Full.get_analysis_from_gpt Faulty.office "prompt"
                          (log initial [Request "first"; Request "second"]))))
  = 3%nat
  /\ fst (Full.get_analysis_from_gpt Faulty.office "prompt"
            (log initial [Request "first"; Request "second"]))
     = Ok PNone
  /\ printed (trace (snd (Full.get_analysis_from_gpt Faulty.office "prompt"
                            (log initial [Request "first";
                                          Request "second"]))))
     = ["An error occurred with the API call: Error code: 429"].
Proof.
  destruct (proj1 (proj2 (C3_one_attempt_failure_as_none Faulty.office
                            "prompt"
                            (log initial [Request "first"; Request "second"])))
              eq_refl eq_refl) as (Hcalls & _ & Hreply).
  split; [exact Hcalls | exact Hreply].
Defined.

(** ** C4: blank text *)

(** [blank] is the test of the specification: the text is empty or has
    only whitespace. *)
Lemma blank_all_whitespace (resume_text : string) :
  blank resume_text = Str.all_whitespace resume_text.
Proof. now destruct resume_text. Qed.

(** C4: when the text extracted from an eligible file is empty or has
    only whitespace, the turn of the loop ends normally after the line
    that announces the skip: no file is written, no request is made, no
    error line is printed, and the loop goes on with the rest of the
    listing. *)
Theorem C4_blank_text_skipped (w : env) (job_desc : dict)
    (resumes_folder reports_folder filename : string) (rest : list string)
    (s s1 : state) (resume_text : string) :
  eligible filename = true ->
  extract_text_from_resume w (os_path_join resumes_folder filename)
    (log s [Stdout (processing_line filename)]) = (Ok resume_text, s1) ->
  Str.all_whitespace resume_text = true ->
  let s' := log s1 [Stdout (skipping_line filename)] in
  iteration w job_desc resumes_folder reports_folder filename s = (Ok tt, s')
  /\ files s' = files s
  /\ dumps (trace s') = dumps (trace s)
  /\ requests (trace s') = requests (trace s)
  /\ printed (trace s')
     = printed (trace s) ++ [processing_line filename; skipping_line filename]
  /\ for_each (filename :: rest)
       (iteration w job_desc resumes_folder reports_folder) s
     = for_each rest (iteration w job_desc resumes_folder reports_folder) s'.
Proof.
  intros Helig Hextract Hblank s'. subst s'.
  rewrite <- blank_all_whitespace in Hblank.
  assert (Hrun : iteration w job_desc resumes_folder reports_folder filename s
                 = (Ok tt, log s1 [Stdout (skipping_line filename)])).
  { rewrite (iteration_run _ _ _ _ _ _ Helig), Hextract. now rewrite Hblank. }
  pose proof (extract_step w (os_path_join resumes_folder filename)
                (log s [Stdout (processing_line filename)]))
    as ([Htrace Hfiles] & Hd & Hr & Hp).
  rewrite Hextract in Htrace, Hfiles. simpl in Htrace, Hfiles.
  rewrite Hd in Hfiles. simpl in Hfiles.
  split; [exact Hrun |].
  split; [exact Hfiles |].
  simpl trace. rewrite Htrace.
  rewrite !dumps_app, !requests_app, !printed_app, Hd, Hr, Hp. simpl.
  rewrite !app_nil_r, !Nat.add_0_r, <- app_assoc.
  repeat split; try reflexivity.
  unfold bind. now rewrite Hrun.
Qed.

Lemma C4_blank_text_skipped_witness :
  iteration Sample.office Sample.job_desc "resumes/" "reports/" "blank.txt"
    initial
  = (Ok tt,
     log (log initial [Stdout (processing_line "blank.txt");
                       Open "resumes/blank.txt" "r"])
       [Stdout (skipping_line "blank.txt")]).
Proof.
  apply (C4_blank_text_skipped Sample.office Sample.job_desc "resumes/"
           "reports/" "blank.txt" [] initial
           (log initial [Stdout (processing_line "blank.txt");
                         Open "resumes/blank.txt" "r"])
           (String " " (String "010" "")));
    reflexivity.
Defined.

(** ** C5: name and content of a report *)

Lemma dict_get_cons (key k : string) (v : pyval) (d : dict) :
  dict_get key ((k, v) :: d)
  = if String.eqb k key then Some v else dict_get key d.
Proof. reflexivity. Qed.

Lemma dict_get_set (key : string) (value : pyval) (d : dict) :
  dict_get key (dict_set key value d) = Some value.
Proof.
  induction d as [|[k v] d IH]; simpl.
  - now rewrite String.eqb_refl.
  - destruct (String.eqb k key) eqn:E; simpl; now rewrite E.
Qed.

Lemma dict_set_nonempty (key : string) (value : pyval) (d : dict) :
  dict_set key value d <> [].
Proof.
  destruct d as [|[k v] d]; simpl; [discriminate |].
  destruct (String.eqb k key); discriminate.
Qed.

(** A non-empty [dict] is printed with one member per line, each behind
    the indentation of its level. *)
Lemma json_dumps_dict (indent : nat) (d : dict) :
  d <> [] ->
  json_dumps indent (PDict d)
  = "{" +:+ newline_indent indent 1
        +:+ Str.join ("," +:+ newline_indent indent 1)
              (map (fun kv => encode_basestring_ascii (fst kv) +:+ ": "
                              +:+ iterencode indent 1 (snd kv)) d)
        +:+ newline_indent indent 0 +:+ "}".
Proof.
  destruct d as [|kv d]; [congruence | reflexivity].
Qed.

Lemma eligible_split (filename : string) :
  eligible filename = true ->
  exists ext,
    (ext = "pdf" \/ ext = "txt")
    /\ filename = without_extension filename +:+ String "." ext.
Proof.
  unfold eligible, without_extension. intros H.
  apply orb_true_iff in H as [H | H]; apply endswith_split in H.
  - exists "pdf". split; [now left | exact H].
  - exists "txt". split; [now right | exact H].
Qed.

Lemma splitext_eligible (filename : string) :
  eligible filename = true ->
  Str.contains "/" filename = false ->
  os_path_splitext filename
  = if only_dots (without_extension filename) then (filename, "")
    else (without_extension filename,
          Str.drop (String.length filename - 4) filename).
Proof.
  intros Helig Hsep.
  destruct (eligible_split filename Helig) as (ext & Hext & Hname).
  set (stem := without_extension filename) in *.
  assert (Hdrop : Str.drop (String.length filename - 4) filename
                  = String "." ext).
  { rewrite Hname at 2.
    replace (String.length filename - 4)%nat with (String.length stem).
    - apply drop_append.
    - rewrite Hname at 1. rewrite length_append.
      destruct Hext as [-> | ->]; simpl; lia. }
  rewrite Hdrop.
  assert (Hs : Str.contains "/" stem = false
               /\ Str.contains "/" ext = false
               /\ Str.contains "." ext = false).
  { rewrite Hname, contains_append in Hsep.
    apply orb_false_iff in Hsep as [Hs _].
    destruct Hext as [-> | ->]; now repeat split. }
  destruct Hs as (Hs & He & Hd).
  destruct (only_dots stem) eqn:Hdots; rewrite Hname at 1.
  - rewrite (splitext_dots stem ext Hs He Hd Hdots). now rewrite <- Hname.
  - apply (splitext_stem stem ext Hs He Hd Hdots).
Qed.

(** C5, as stated, fails: the report is named after the input filename
    with its extension removed.  The file [.pdf] is eligible, and with
    the extension removed its name is empty; [os.path.splitext] takes the
    leading dot as part of the root, so the report is
    [.pdf_report.json] and the candidate is named [.pdf]. *)
Lemma C5_dotfile_keeps_its_extension :
  eligible ".pdf" = true
  /\ without_extension ".pdf" = ""
  /\ dumps (trace (snd (process_resumes_in_batch Sample.dotfile
                          Sample.job_desc "resumes/" "reports/" initial)))
     = [("reports/.pdf_report.json",
         json_dumps 4
           (PDict (Sample.alice_analysis
                   ++ [("candidate_name", PStr ".pdf")])))].
Proof. repeat split; vm_compute; reflexivity. Qed.

(** C5, amended: every report written by [process_resumes_in_batch]
    belongs to an eligible entry of the listing; its path is the output
    directory joined with [<root>_report.json], its content is the
    analysis with the field [candidate_name] set to [<root>], printed by
    [json.dumps] with an indentation of 4 spaces, one member per line;
    [<root>] is the first component of [os.path.splitext]: for a name
    without directory part that is the input filename with its extension
    removed, unless what comes before the extension has only dots (or is
    empty), in which case it is the whole filename. *)
Theorem C5_report_name_and_content (w : env) (job_desc : dict)
    (resumes_folder reports_folder : string) (s : state)
    (path content : string) :
  In (path, content)
    (dumps (trace (snd (process_resumes_in_batch w job_desc resumes_folder
                          reports_folder s)))) ->
  In (path, content) (dumps (trace s))
  \/ exists filename analysis report,
       let root := fst (os_path_splitext filename) in
       In filename (listing w resumes_folder)
       /\ eligible filename = true
       /\ path = os_path_join reports_folder (root +:+ "_report.json")
       /\ report = dict_set "candidate_name" (PStr root) analysis
       /\ dict_get "candidate_name" report = Some (PStr root)
       /\ content = json_dumps 4 (PDict report)
       /\ content
          = "{" +:+ String "010" "    "
                +:+ Str.join ("," +:+ String "010" "    ")
                      (map (fun kv => encode_basestring_ascii (fst kv) +:+ ": "
                                      +:+ iterencode 4 1 (snd kv)) report)
                +:+ String "010" "" +:+ "}"
       /\ (Str.contains "/" filename = false ->
           root = (if only_dots (without_extension filename) then filename
                   else without_extension filename)
           /\ path
              = reports_folder
                +:+ (if negb (Str.nonempty reports_folder)
                        || Str.endswith reports_folder "/"
                     then "" else "/")
                +:+ root +:+ "_report.json").
Proof.
  intros Hin.
  destruct (batch_step w job_desc resumes_folder reports_folder s)
    as (evs & [Htrace _] & _ & Hrep).
  rewrite Htrace, dumps_app in Hin.
  apply in_app_or in Hin as [Hin | Hin]; [now left | right].
  destruct (Hrep _ _ Hin) as (filename & analysis & Hf & Helig & Hp & Hc).
  exists filename, analysis,
    (dict_set "candidate_name" (PStr (fst (os_path_splitext filename)))
       analysis).
  cbv zeta.
  split; [exact Hf |]. split; [exact Helig |]. split; [exact Hp |].
  split; [reflexivity |]. split; [apply dict_get_set |].
  split; [exact Hc |]. split.
  - rewrite Hc. unfold report_content.
    now rewrite json_dumps_dict by apply dict_set_nonempty.
  - intros Hsep.
    assert (Hroot : fst (os_path_splitext filename)
                    = if only_dots (without_extension filename) then filename
                      else without_extension filename).
    { rewrite (splitext_eligible filename Helig Hsep).
      now destruct (only_dots (without_extension filename)). }
    split; [exact Hroot |].
    rewrite Hp. unfold report_path. apply os_path_join_relative.
    apply startswith_no_sep; [| reflexivity].
    rewrite Hroot. destruct (only_dots (without_extension filename));
      [exact Hsep |].
    destruct (eligible_split filename Helig) as (ext & _ & Hname).
    rewrite Hname, contains_append in Hsep.
    now apply orb_false_iff in Hsep as [Hs _].
Qed.

(** The only report of the sample run is that of [alice.txt]. *)
Lemma C5_report_name_and_content_witness :
  exists filename analysis report,
    In filename (listing Sample.office "resumes/")
    /\ eligible filename = true
    /\ "reports/alice_report.json"
       = os_path_join "reports/"
           (fst (os_path_splitext filename) +:+ "_report.json")
    /\ report = dict_set "candidate_name"
                  (PStr (fst (os_path_splitext filename))) analysis
    /\ dict_get "candidate_name" report
       = Some (PStr (fst (os_path_splitext filename))).
Proof.
  destruct (C5_report_name_and_content Sample.office Sample.job_desc
              "resumes/" "reports/" initial
              "reports/alice_report.json"
              (report_content "alice.txt" Sample.alice_analysis))
    as [[] | (filename & analysis & report & H1 & H2 & H3 & H4 & H5 & _)].
  - vm_compute. now left.
  - exists filename, analysis, report. now repeat split.
Defined.

(** ** C6: the text of a PDF *)

Lemma pages_loop_all (texts : list (option string)) (text : string) :
  pages_loop (map Ok texts) text = Ok (text +:+ concat_pages texts).
Proof.
  revert text. induction texts as [|x texts IH]; intros text; simpl.
  - unfold concat_pages. simpl. now rewrite append_empty_r.
  - rewrite IH. unfold concat_pages. simpl. now rewrite append_assoc.
Qed.

Lemma or_empty_page_text (x : option string) : or_empty x = page_text x.
Proof. now destruct x as [[|a t]|]. Qed.

Lemma concat_pages_text (texts : list (option string)) :
  concat_pages texts = text_of_pages texts.
Proof.
  unfold concat_pages. induction texts as [|x texts IH]; [reflexivity |].
  simpl. now rewrite IH, or_empty_page_text.
Qed.

Lemma text_of_pages_app (before after : list (option string)) :
  text_of_pages (before ++ after)
  = text_of_pages before +:+ text_of_pages after.
Proof.
  induction before as [|x before IH]; simpl; [reflexivity |].
  now rewrite IH, append_assoc.
Qed.

(** C6: for a path that ends in [.pdf], when the document opens and
    [extract_text] returns for every page, [extract_text_from_resume]
    returns the texts of all pages, concatenated in page order: the text
    of a page stands, as it was extracted, between the texts of the
    pages before it and of the pages after it, and a page for which
    [extract_text] returns [None] or the empty text adds nothing and is
    no error. *)
Theorem C6_pdf_text_is_concatenation (w : env) (filepath : string)
    (s : state) (texts : list (option string)) :
  Str.endswith filepath ".pdf" = true ->
  pdf_pages w filepath = Ok (map Ok texts) ->
  fst (extract_text_from_resume w filepath s) = Ok (text_of_pages texts)
  /\ (forall before t after,
        texts = before ++ Some t :: after ->
        fst (extract_text_from_resume w filepath s)
        = Ok (text_of_pages before +:+ t +:+ text_of_pages after))
  /\ (forall before after,
        texts = before ++ None :: after ->
        fst (extract_text_from_resume w filepath s)
        = Ok (text_of_pages before +:+ text_of_pages after)).
Proof.
  intros Hpdf Hpages.
  assert (Hrun : fst (extract_text_from_resume w filepath s)
                 = Ok (text_of_pages texts)).
  { unfold extract_text_from_resume. rewrite Hpdf. run_monad.
    now rewrite Hpages, pages_loop_all, concat_pages_text. }
  split; [exact Hrun |]. split.
  - intros before t after ->. rewrite Hrun. f_equal.
    now rewrite text_of_pages_app.
  - intros before after ->. rewrite Hrun. f_equal.
    now rewrite text_of_pages_app.
Qed.

(** The three pages of [bob.pdf], the second without text. *)
Lemma C6_pdf_text_is_concatenation_witness :
  fst (extract_text_from_resume Sample.office "resumes/bob.pdf" initial)
  = Ok "Bob, Python".
Proof.
  apply (C6_pdf_text_is_concatenation Sample.office "resumes/bob.pdf" initial
           [Some "Bob, "; None; Some "Python"]);
    reflexivity.
Defined.

(** ** C7: the prompt as a function of its arguments *)

Lemma yget_cons (key k : string) (v : Full.yval) (d : Full.ydict) :
  Full.yget key ((Full.YStr k, v) :: d)
  = if String.eqb k key then Some v else Full.yget key d.
Proof. reflexivity. Qed.

(** C7, as stated, fails: equal job-description mappings give the
    identical prompt.  The two job descriptions below are the same
    mapping, entered in a different order; [json.dumps] prints the
    members in insertion order, and the prompts differ. *)
Lemma C7_key_order_changes_prompt :
  let job_desc1 :=
    [(Full.YStr "role", Full.YStr "Developer");
     (Full.YStr "City_Tier", Full.YStr "Tier-1")] in
  let job_desc2 :=
    [(Full.YStr "City_Tier", Full.YStr "Tier-1");
     (Full.YStr "role", Full.YStr "Developer")] in
  (forall key, Full.yget key job_desc1 = Full.yget key job_desc2)
  /\ (exists prompt1 prompt2,
        Full.prompt_of job_desc1 "Java" = Ok prompt1
        /\ Full.prompt_of job_desc2 "Java" = Ok prompt2
        /\ prompt1 <> prompt2).
Proof.
  cbv zeta. split.
  - intros key. rewrite !yget_cons.
    destruct (String.eqb "role" key) eqn:E1;
      destruct (String.eqb "City_Tier" key) eqn:E2; try reflexivity.
    apply String.eqb_eq in E1, E2. congruence.
  - eexists. eexists. split; [vm_compute; reflexivity |].
    split; [vm_compute; reflexivity |].
    intros H. discriminate H.
Qed.

(** The same for values that Python holds to be equal without being the
    same: [1 == True], and the field is rendered as [1] in one prompt and
    as [True] in the other. *)
Example equal_values_of_two_types_change_prompt :
  exists prompt1 prompt2,
    Full.prompt_of [(Full.YStr "City_Tier", Full.YInt 1)] "Java" = Ok prompt1
    /\ Full.prompt_of [(Full.YStr "City_Tier", Full.YBool true)] "Java"
       = Ok prompt2
    /\ prompt1 <> prompt2.
Proof.
  eexists. eexists. split; [vm_compute; reflexivity |].
  split; [vm_compute; reflexivity |].
  intros H. discriminate H.
Qed.

Lemma append_cancel_l (s t u : string) : s +:+ t = s +:+ u -> t = u.
Proof.
  induction s as [|a s IH]; [auto |].
  rewrite !append_cons. intros [= H]. auto.
Qed.

(** C7, amended: [create_llm_prompt] is a function of its two arguments
    alone, the job description being taken as it is held, with the order
    of its keys and with the types of its values (job descriptions that
    are merely equal for [==], with keys in another order or [1] for
    [True], may give different prompts).  Called in any state, it
    performs no operation, leaves the state as it is, and ends as it
    ends in every other state: with the same prompt, or with the same
    exception.  Whether it raises depends on the job description alone;
    and for one job description two prompts are the same only when the
    resume texts are. *)
Theorem C7_prompt_is_function_of_ordered_mapping (job_desc : Full.ydict)
    (resume_text : string) :
  (forall s,
      Full.create_llm_prompt job_desc resume_text s
      = (fst (Full.create_llm_prompt job_desc resume_text initial), s))
  /\ (forall x resumes_folder reports_folder filename s s1,
        extract_text_from_resume (Full.base x)
          (os_path_join resumes_folder filename) s = (Ok resume_text, s1) ->
        blank resume_text = false ->
        Full.process_file x job_desc resumes_folder reports_folder filename s
        = match Full.prompt_of job_desc resume_text with
          | Ok prompt =>
              bind (Full.get_analysis_from_gpt x prompt)
                (Full.save_report x reports_folder filename) s1
          | Raise e => (Raise e, s1)
          end)
  /\ (forall other_text e,
        Full.prompt_of job_desc resume_text = Raise e ->
        Full.prompt_of job_desc other_text = Raise e)
  /\ (forall other_text prompt,
        Full.prompt_of job_desc resume_text = Ok prompt ->
        Full.prompt_of job_desc other_text = Ok prompt ->
        other_text = resume_text).
Proof.
  split; [| split; [| split]].
  - intros s. apply full_prompt_run.
  - intros x resumes_folder reports_folder filename s s1 Hextract Hblank.
    unfold Full.process_file. unfold bind at 1. rewrite Hextract.
    fold (blank resume_text). rewrite Hblank.
    unfold bind at 1. rewrite full_prompt_run.
    now destruct (Full.prompt_of job_desc resume_text).
  - intros other_text e. rewrite !full_prompt_of.
    destruct (Full.ystr (Full.yget_or_none "City_Tier" job_desc));
      [| trivial].
    destruct (Full.ystr (Full.yget_or_none "Tier-1_cities" job_desc));
      [| trivial].
    destruct (Full.ystr (Full.yget_or_none "Tier-2_cities" job_desc));
      [| trivial].
    destruct (Full.yjson_dumps 2 (Full.YDict job_desc)); [| trivial].
    discriminate.
  - intros other_text prompt. rewrite !full_prompt_of.
    destruct (Full.ystr (Full.yget_or_none "City_Tier" job_desc));
      [| discriminate].
    destruct (Full.ystr (Full.yget_or_none "Tier-1_cities" job_desc));
      [| discriminate].
    destruct (Full.ystr (Full.yget_or_none "Tier-2_cities" job_desc));
      [| discriminate].
    destruct (Full.yjson_dumps 2 (Full.YDict job_desc)); [| discriminate].
    simpl. intros [= <-] [= H].
    repeat (apply append_cancel_l in H).
    now apply append_cancel_r in H.
Qed.

(** The sample job description and the text of Alice: the processing of
    [alice.txt] goes from the extraction to the analysis of the prompt
    of these two. *)
Lemma C7_prompt_is_function_of_ordered_mapping_witness :
  Full.process_file Faulty.office Faulty.job_desc "resumes/" "reports/"
    "alice.txt" initial
  = match Full.prompt_of Faulty.job_desc Sample.alice_text with
    | Ok prompt =>
        bind (Full.get_analysis_from_gpt Faulty.office prompt)
          (Full.save_report Faulty.office "reports/" "alice.txt")
          (log initial [Open "resumes/alice.txt" "r"])
    | Raise e => (Raise e, log initial [Open "resumes/alice.txt" "r"])
    end.
Proof.
  apply (proj1 (proj2 (C7_prompt_is_function_of_ordered_mapping
                         Faulty.job_desc Sample.alice_text)));
    reflexivity.
Defined.

(** ** C8: a missing field of the job description *)






(** ** C9: other endings *)

(** C9: for a path that ends neither in [.pdf] nor in [.txt],
    [extract_text_from_resume] returns the empty text and leaves the
    state as it is: no file is opened, nothing is read. *)
Theorem C9_other_endings_not_opened (w : env) (filepath : string) (s : state) :
  Str.endswith filepath ".pdf" = false ->
  Str.endswith filepath ".txt" = false ->
  extract_text_from_resume w filepath s = (Ok "", s)
  /\ opened (trace (snd (extract_text_from_resume w filepath s)))
     = opened (trace s).
Proof.
  intros Hpdf Htxt. unfold extract_text_from_resume.
  rewrite Hpdf, Htxt. split; reflexivity.
Qed.

Lemma C9_other_endings_not_opened_witness :
  extract_text_from_resume Sample.office "resumes/notes.md" initial
  = (Ok "", initial).
Proof.
  apply (C9_other_endings_not_opened Sample.office "resumes/notes.md" initial);
    reflexivity.
Defined.

(** ** C10: a falsy analysis *)

(** C10: when the analysis call returns a value that is falsy, the empty
    mapping among them, the file is treated as when the call returns
    [None]: the turn ends with the line that reports the failed analysis,
    [candidate_name] is set nowhere and no report is written. *)
Theorem C10_falsy_result_is_no_result (w : env) (job_desc : dict)
    (resumes_folder reports_folder filename : string) (s s1 s2 : state)
    (resume_text : string) (v : pyval) :
  eligible filename = true ->
  extract_text_from_resume w (os_path_join resumes_folder filename)
    (log s [Stdout (processing_line filename)]) = (Ok resume_text, s1) ->
  blank resume_text = false ->
  get_analysis_from_gpt w (create_llm_prompt job_desc resume_text) s1
  = (Ok v, s2) ->
  truthy v = false ->
  let failed :=
    log s2 [Stdout ("Failed to get analysis for " +:+ filename +:+ ".")] in
  truthy (PDict []) = false
  /\ save_report w reports_folder filename v s2
     = save_report w reports_folder filename PNone s2
  /\ iteration w job_desc resumes_folder reports_folder filename s
     = (Ok tt, failed)
  /\ files failed = files s
  /\ dumps (trace failed) = dumps (trace s).
Proof.
  intros Helig Hextract Hblank Hanalysis Hfalsy failed. subst failed.
  assert (Hsave : save_report w reports_folder filename v s2
                  = (Ok tt, log s2 [Stdout ("Failed to get analysis for "
                                            +:+ filename +:+ ".")])).
  { unfold save_report. now rewrite Hfalsy. }
  split; [reflexivity |].
  split; [now rewrite Hsave |].
  split.
  { rewrite (iteration_run _ _ _ _ _ _ Helig), Hextract, Hblank, Hanalysis.
    now rewrite Hsave. }
  pose proof (extract_step w (os_path_join resumes_folder filename)
                (log s [Stdout (processing_line filename)]))
    as ([Ht1 Hf1] & Hd1 & _).
  rewrite Hextract in Ht1, Hf1. simpl in Ht1, Hf1.
  rewrite Hd1 in Hf1. simpl in Hf1.
  pose proof (get_analysis_step w (create_llm_prompt job_desc resume_text) s1)
    as (evs2 & [Ht2 Hf2] & Hd2 & _).
  rewrite Hanalysis in Ht2, Hf2. simpl in Ht2, Hf2.
  rewrite Hd2 in Hf2. simpl in Hf2.
  split.
  - simpl. congruence.
  - simpl trace. rewrite Ht2, Ht1. rewrite !dumps_app, Hd1, Hd2. simpl.
    now rewrite !app_nil_r.
Qed.

(** The second request of the sample endpoint is answered with an empty
    object: for [bob.pdf] nothing is written. *)
Lemma C10_falsy_result_is_no_result_witness :
  iteration Sample.office Sample.job_desc "resumes/" "reports/" "bob.pdf"
    (log initial [Request "earlier"])
  = (Ok tt,
     log (log initial
            [Request "earlier"; Stdout (processing_line "bob.pdf");
             Open "resumes/bob.pdf" "rb"; LoadDotenv; NewClient;
             Request (create_llm_prompt Sample.job_desc "Bob, Python")])
       [Stdout "Failed to get analysis for bob.pdf."]).
Proof.
  apply (C10_falsy_result_is_no_result Sample.office Sample.job_desc
           "resumes/" "reports/" "bob.pdf"
           (log initial [Request "earlier"])
           (log initial [Request "earlier";
                         Stdout (processing_line "bob.pdf");
                         Open "resumes/bob.pdf" "rb"])
           (log initial
              [Request "earlier"; Stdout (processing_line "bob.pdf");
               Open "resumes/bob.pdf" "rb"; LoadDotenv; NewClient;
               Request (create_llm_prompt Sample.job_desc "Bob, Python")])
           "Bob, Python" (PDict []));
    reflexivity.
Defined.

(** * Further properties of the program *)

(** ** Paths and endings *)

(** Two endings of the same length exclude each other. *)
Lemma endswith_exclusive (s suffix1 suffix2 : string) :
  String.length suffix1 = String.length suffix2 ->
  suffix1 <> suffix2 ->
  Str.endswith s suffix1 = true ->
  Str.endswith s suffix2 = false.
Proof.
  unfold Str.endswith. intros Hlen Hne H1.
  apply andb_true_iff in H1 as [_ H1]. apply String.eqb_eq in H1.
  rewrite <- Hlen, H1.
  destruct (String.eqb suffix1 suffix2) eqn:E.
  - apply String.eqb_eq in E. contradiction.
  - apply andb_false_r.
Qed.

(** A path that ends in [_report.json] is not the name of a resume. *)
Lemma report_not_eligible (path : string) :
  Str.endswith path "_report.json" = true -> eligible path = false.
Proof.
  intros H. apply endswith_split in H.
  set (stem := Str.take _ path) in H.
  assert (Hjson : Str.endswith path "json" = true).
  { rewrite H.
    change "_report.json" with ("_report." +:+ "json").
    rewrite <- append_assoc. apply endswith_append. }
  unfold eligible.
  rewrite (endswith_exclusive path "json" ".pdf"),
          (endswith_exclusive path "json" ".txt");
    try reflexivity; try assumption; discriminate.
Qed.

Lemma report_path_endswith (reports_folder filename : string) :
  Str.endswith (report_path reports_folder filename) "_report.json" = true.
Proof.
  unfold report_path. apply os_path_join_endswith, endswith_append.
Qed.

(** ** Extraction *)

Lemma pages_loop_fault (before : list (option string)) (e : exn)
    (after : list page) (text : string) :
  pages_loop (map Ok before ++ Raise e :: after) text = Raise e.
Proof.
  revert text. induction before as [|x before IH]; intros text; simpl.
  - reflexivity.
  - apply IH.
Qed.

(** X1: when [extract_text] raises on a page of a PDF, the extraction
    ends with that exception: the text of the pages before it is not
    returned and the pages after it do not matter. *)
Theorem X1_pdf_page_fault_ends_extraction (w : env) (filepath : string)
    (s : state) (before : list (option string)) (e : exn) (after : list page) :
  Str.endswith filepath ".pdf" = true ->
  pdf_pages w filepath = Ok (map Ok before ++ Raise e :: after) ->
  extract_text_from_resume w filepath s
  = (Raise e, log s [Open filepath "rb"]).
Proof.
  intros Hpdf Hpages. unfold extract_text_from_resume.
  rewrite Hpdf. run_monad. now rewrite Hpages, pages_loop_fault.
Qed.

(** X2: [extract_text_from_resume] writes no file, prints nothing and
    sends no request, whatever the path and the environment; it opens at
    most one file, the one at the given path. *)
Theorem X2_extraction_only_reads (w : env) (filepath : string) (s : state) :
  let s' := snd (extract_text_from_resume w filepath s) in
  files s' = files s
  /\ dumps (trace s') = dumps (trace s)
  /\ printed (trace s') = printed (trace s)
  /\ requests (trace s') = requests (trace s)
  /\ (opened (trace s') = opened (trace s)
      \/ opened (trace s') = opened (trace s) ++ [filepath]).
Proof.
  intros s'. subst s'. rewrite extract_run. simpl.
  rewrite dumps_app, printed_app, requests_app, opened_app.
  unfold extract_events.
  destruct (Str.endswith filepath ".pdf");
    [| destruct (Str.endswith filepath ".txt")]; simpl;
    rewrite ?app_nil_r, ?Nat.add_0_r; repeat split; auto.
Qed.

(** ** One turn of the loop, case by case *)

Create Rewrite HintDb trace.
#[local] Hint Rewrite requests_app dumps_app printed_app opened_app : trace.

(** Rewrites a turn on an eligible file into the state it ends in, one
    goal per way through lines 108-136. *)
Ltac iteration_cases Helig :=
  rewrite (iteration_run _ _ _ _ _ _ Helig), extract_run;
  cbv beta iota zeta;
  let text := fresh "resume_text" in
  let e := fresh "e" in
  destruct (fst (extract_text_from_resume _ _ initial)) as [text|e];
  [ destruct (blank text) eqn:?Hblank;
    [ | rewrite get_analysis_run;
        destruct (load_dotenv _) as [[]|?e];
        [ destruct (OpenAI _ _) as [[]|?e];
          [ destruct (chat_completions_create _ _ _) as [?content|?e];
            [ destruct (loads_content _ _) as [?v|?e];
              [ cbv beta iota zeta; rewrite save_report_run;
                destruct (truthy _) eqn:?Htruthy;
                [ destruct (setitem _ _ _) as [?report|?e] eqn:?Hset;
                  [ cbv beta iota zeta;
                    destruct (open_for_writing _ _) as [[]|?e] eqn:?Hopen
                  | ]
                | ]
              | ]
            | ]
          | ]
        | ] ]
  | ];
  cbv beta iota zeta; rewrite ?log_log.

(** ** The loop and the batch *)

(** X3: the loop over the listing does for a listing what it does for its
    eligible entries alone: an entry that ends neither in [.pdf] nor in
    [.txt] (a sub-directory, a report, a file of another kind) has no
    effect at all. *)
Theorem X3_loop_skips_other_entries (w : env) (job_desc : dict)
    (resumes_folder reports_folder : string) (filenames : list string)
    (s : state) :
  for_each filenames (iteration w job_desc resumes_folder reports_folder) s
  = for_each (List.filter eligible filenames)
      (iteration w job_desc resumes_folder reports_folder) s.
Proof.
  revert s. induction filenames as [|filename rest IH]; intros s.
  - reflexivity.
  - simpl List.filter. destruct (eligible filename) eqn:Helig.
    + simpl. unfold bind.
      destruct (iteration w job_desc resumes_folder reports_folder filename s)
        as [[[]|e] s1]; [apply IH | reflexivity].
    + simpl. unfold bind. rewrite iteration_not_eligible by exact Helig.
      apply IH.
Qed.

(** X4: [process_resumes_in_batch] creates or changes only files whose
    path ends in [_report.json]: every other file, the resumes it reads
    among them, is after the batch what it was before. *)
Theorem X4_batch_writes_only_reports (w : env) (job_desc : dict)
    (resumes_folder reports_folder : string) (s : state) (path : string) :
  Str.endswith path "_report.json" = false ->
  files (snd (process_resumes_in_batch w job_desc resumes_folder
                reports_folder s)) !! path
  = files s !! path.
Proof.
  intros Hpath.
  destruct (batch_step w job_desc resumes_folder reports_folder s)
    as (evs & [_ Hfiles] & _ & Hrep).
  rewrite Hfiles. clear Hfiles.
  assert (Hpaths : forall p c, In (p, c) (dumps evs) -> p <> path).
  { intros p c Hin ->.
    destruct (Hrep _ _ Hin) as (filename & analysis & _ & _ & Hp & _).
    rewrite Hp, report_path_endswith in Hpath. discriminate. }
  clear Hrep. revert Hpaths. generalize (files s).
  induction (dumps evs) as [|[p c] ds IH]; intros m Hpaths; simpl.
  - reflexivity.
  - rewrite IH by (intros p' c' Hin; apply (Hpaths p' c'); now right).
    simpl. apply lookup_insert_ne. apply (Hpaths p c). now left.
Qed.

(** ** The script *)

Lemma dict_get_set_other (key k : string) (value : pyval) (d : dict) :
  key <> k -> dict_get k (dict_set key value d) = dict_get k d.
Proof.
  intros Hne. induction d as [|[k0 v0] d IH]; simpl.
  - destruct (String.eqb key k) eqn:E; [| reflexivity].
    apply String.eqb_eq in E. contradiction.
  - destruct (String.eqb k0 key) eqn:E0; simpl.
    + apply String.eqb_eq in E0. subst k0.
      destruct (String.eqb key k) eqn:E; [| reflexivity].
      apply String.eqb_eq in E. contradiction.
    + now rewrite IH.
Qed.

(** X9: for a configuration that is a mapping, the script runs the
    batch on that mapping with the two lists of cities set by the script:
    whatever the configuration gives for [Tier-1_cities] and
    [Tier-2_cities] is replaced, every other field is kept; the closing
    line is printed when the batch returns and not when it raises. *)
Theorem X9_script_sets_tier_lists (w : env) (s : state) (config : dict) :
  yaml_safe_load w "job_description.yml" = Ok (PDict config) ->
  exists job_desc,
    main w s
    = (let '(r, s1) :=
         process_resumes_in_batch w job_desc "resumes/" "reports/"
           (log s [Stdout "Starting NexResume Semantic Matcher...";
                   Open "job_description.yml" "r"]) in
       match r with
       | Ok _ =>
           (Ok tt,
            log s1 [Stdout "Processing complete. Reports are saved in the 'reports/' folder."])
       | Raise e => (Raise e, s1)
       end)
    /\ dict_get "Tier-1_cities" job_desc = Some tier1_cities
    /\ dict_get "Tier-2_cities" job_desc = Some tier2_cities
    /\ forall key,
         key <> "Tier-1_cities" -> key <> "Tier-2_cities" ->
         dict_get key job_desc = dict_get key config.
Proof.
  intros Hload.
  exists (dict_set "Tier-2_cities" tier2_cities
            (dict_set "Tier-1_cities" tier1_cities config)).
  split; [| split; [| split]].
  - unfold main, load_job_description. run_monad. rewrite Hload. simpl.
    rewrite log_log. simpl.
    now destruct (process_resumes_in_batch w _ "resumes/" "reports/" _)
      as [[[]|e] s1].
  - rewrite dict_get_set_other by discriminate. apply dict_get_set.
  - apply dict_get_set.
  - intros key H1 H2.
    rewrite !dict_get_set_other by congruence. reflexivity.
Qed.

(** X10: for a configuration that is not a mapping (an empty file, which
    loads as [None], a list, a text, a number) the script ends with a
    [TypeError] raised by the first assignment to it, before the output
    directory is looked at and before anything is listed or read. *)
Theorem X10_script_needs_a_mapping (w : env) (s : state) (config : pyval) :
  yaml_safe_load w "job_description.yml" = Ok config ->
  (forall d, config <> PDict d) ->
  exists message,
    main w s
    = (Raise (Exn "TypeError" message),
       log s [Stdout "Starting NexResume Semantic Matcher...";
              Open "job_description.yml" "r"]).
Proof.
  intros Hload Hnot. unfold main, load_job_description. run_monad.
  rewrite Hload. simpl. rewrite log_log. simpl.
  destruct config as [| b | n | f | t | l | d];
    try (eexists; reflexivity).
  now destruct (Hnot d).
Qed.

(** ** One file *)

(** X12: the turn of an eligible file prints the line that announces the
    file and ends with exactly one line that tells its outcome: skipped
    for want of text, report generated, analysis failed, or the
    exception caught for this file.  Between the two there is at most
    one line, the exception of the API call. *)
Theorem X12_one_outcome_line_per_file (w : env) (job_desc : dict)
    (resumes_folder reports_folder filename : string) (s : state) :
  eligible filename = true ->
  exists middle final,
    printed (trace (snd (iteration w job_desc resumes_folder reports_folder
                           filename s)))
    = printed (trace s) ++ processing_line filename :: middle ++ [final]
    /\ (middle = []
        \/ exists e,
             middle = ["An error occurred with the API call: " +:+ exn_str e])
    /\ (final = skipping_line filename
        \/ final = "Successfully generated report for " +:+ filename
        \/ final = "Failed to get analysis for " +:+ filename +:+ "."
        \/ exists e, final = error_line filename e).
Proof.
  intros Helig.
  assert (Hx : printed (extract_events (os_path_join resumes_folder filename))
               = []).
  { unfold extract_events.
    destruct (Str.endswith _ ".pdf"); [reflexivity |].
    now destruct (Str.endswith _ ".txt"). }
  iteration_cases Helig; simpl; autorewrite with trace; simpl;
    rewrite ?Hx; autorewrite with trace; simpl; rewrite ?Hx; simpl;
    rewrite <- ?app_assoc; simpl;
    match goal with
    | |- context [_ ++ [_; ?y; ?x]] => exists [y], x
    | |- context [_ ++ [_; ?x]] => exists [], x
    end;
    (split; [reflexivity | split; [eauto | eauto 6]]).
Qed.

(** X13: the turn of a file leaves every file other than the report of
    that file as it was. *)
Theorem X13_turn_touches_only_its_report (w : env) (job_desc : dict)
    (resumes_folder reports_folder filename : string) (s : state)
    (path : string) :
  path <> report_path reports_folder filename ->
  files (snd (iteration w job_desc resumes_folder reports_folder filename s))
    !! path
  = files s !! path.
Proof.
  intros Hpath. destruct (eligible filename) eqn:Helig.
  2:{ now rewrite iteration_not_eligible. }
  iteration_cases Helig; simpl; try reflexivity.
  apply lookup_insert_ne. congruence.
Qed.

Lemma succeeds_with_unique (w : env) (job_desc : dict)
    (resumes_folder reports_folder filename : string) (s : state)
    (text1 text2 : string) (analysis1 analysis2 : dict) :
  succeeds_with w job_desc resumes_folder reports_folder filename s
    text1 analysis1 ->
  succeeds_with w job_desc resumes_folder reports_folder filename s
    text2 analysis2 ->
  text1 = text2 /\ analysis1 = analysis2.
Proof.
  intros (Hr1 & _ & Hv1 & _) (Hr2 & _ & Hv2 & _).
  rewrite Hr1 in Hr2. injection Hr2 as <-.
  rewrite Hv1 in Hv2. now injection Hv2 as <-.
Qed.

(** X14: a PDF and a text file with the same name up to the extension
    have the same report file; when the text file is processed with
    success, whatever that file held, the report of the PDF too, is
    replaced by the report of the text file. *)
Theorem X14_same_stem_same_report (w : env) (job_desc : dict)
    (resumes_folder reports_folder stem : string) (s : state)
    (resume_text : string) (analysis : dict) :
  Str.contains "/" stem = false ->
  only_dots stem = false ->
  succeeds_with w job_desc resumes_folder reports_folder (stem +:+ ".txt") s
    resume_text analysis ->
  report_path reports_folder (stem +:+ ".pdf")
  = report_path reports_folder (stem +:+ ".txt")
  /\ files (snd (iteration w job_desc resumes_folder reports_folder
                   (stem +:+ ".txt") s))
       !! report_path reports_folder (stem +:+ ".pdf")
     = Some (report_content (stem +:+ ".txt") analysis).
Proof.
  intros Hsep Hdots Hwith.
  assert (Hpath : report_path reports_folder (stem +:+ ".pdf")
                  = report_path reports_folder (stem +:+ ".txt")).
  { unfold report_path.
    change ".pdf" with (String "." "pdf"). change ".txt" with (String "." "txt").
    now rewrite !splitext_stem. }
  split; [exact Hpath |]. rewrite Hpath.
  assert (Helig : eligible (stem +:+ ".txt") = true).
  { unfold eligible. rewrite (endswith_append stem ".txt").
    apply orb_true_r. }
  destruct (iteration_step w job_desc resumes_folder reports_folder
              (stem +:+ ".txt") s Helig)
    as [(t & a & evs & Hwith' & [_ Hfiles] & Hd) | (Hnot & _)].
  - destruct (succeeds_with_unique _ _ _ _ _ _ _ _ _ _ Hwith Hwith')
      as [_ ->].
    rewrite Hfiles. simpl dumps. rewrite Hd. simpl.
    apply lookup_insert_eq.
  - destruct Hnot. now exists resume_text, analysis.
Qed.

(** ** The prompt *)

(** X15: for one job description, the prompt determines the resume text:
    two resumes with different texts are never sent under the same
    prompt. *)
Theorem X15_prompt_determines_resume_text (job_desc : dict)
    (resume_text1 resume_text2 : string) :
  create_llm_prompt job_desc resume_text1
  = create_llm_prompt job_desc resume_text2 ->
  resume_text1 = resume_text2.
Proof.
  unfold create_llm_prompt. intros H.
  repeat (apply String.app_inj in H).
  now apply append_cancel_r in H.
Qed.

(** ** The name of the candidate and the fields of the report *)

Lemma rfind_found (c : ascii) (s : string) :
  Str.contains c s = true -> 0 <= Str.rfind c s.
Proof.
  induction s as [|a s IH]; simpl; [discriminate |].
  intros H. destruct (0 <=? Str.rfind c s) eqn:E.
  - apply Z.leb_le in E. lia.
  - destruct (Ascii.eqb a c); [lia |]. simpl in H.
    apply IH in H. apply Z.leb_gt in E. lia.
Qed.

Lemma rfind_drop (c : ascii) (s : string) :
  0 <= Str.rfind c s ->
  exists rest,
    Str.drop (Z.to_nat (Str.rfind c s)) s = String c rest
    /\ Str.contains c rest = false.
Proof.
  induction s as [|a s IH]; simpl; [lia |].
  destruct (0 <=? Str.rfind c s) eqn:E.
  - apply Z.leb_le in E. intros _.
    destruct (IH E) as (rest & Hdrop & Hrest).
    exists rest. split; [| exact Hrest].
    replace (Z.to_nat (Str.rfind c s + 1)) with (S (Z.to_nat (Str.rfind c s)))
      by lia.
    exact Hdrop.
  - apply Z.leb_gt in E.
    destruct (Ascii.eqb a c) eqn:Ha; [| lia]. intros _.
    apply Ascii.eqb_eq in Ha. subst a. exists s. split; [reflexivity |].
    destruct (Str.contains c s) eqn:Hc; [| reflexivity].
    apply rfind_found in Hc. lia.
Qed.

(** X16: [os.path.splitext] cuts the filename in two parts that put
    together give the filename again; the second part is empty or begins
    with the last dot of the name.  So the name of the candidate and of
    the report is always a beginning of the filename, and no character
    before the last dot is lost. *)
Theorem X16_splitext_parts (filename : string) :
  fst (os_path_splitext filename) +:+ snd (os_path_splitext filename)
  = filename
  /\ (snd (os_path_splitext filename) = ""
      \/ exists rest,
           snd (os_path_splitext filename) = String "." rest
           /\ Str.contains "." rest = false).
Proof.
  unfold os_path_splitext.
  destruct ((Str.rfind "/" filename <? Str.rfind "." filename)
            && negb (only_dots
                       (Str.slice filename (Str.rfind "/" filename + 1)
                          (Str.rfind "." filename)))) eqn:E; simpl.
  - split.
    + unfold Str.slice. rewrite Z.sub_0_r. change (Z.to_nat 0) with O.
      simpl Str.drop at 1. apply take_drop.
    + right. apply rfind_drop.
      apply andb_true_iff in E as [E _]. apply Z.ltb_lt in E.
      assert (Hsep : -1 <= Str.rfind "/" filename).
      { clear E. induction filename as [|a s IH]; simpl; [lia |].
        destruct (0 <=? Str.rfind "/" s) eqn:E'.
        - apply Z.leb_le in E'. lia.
        - destruct (Ascii.eqb a "/"); lia. }
      lia.
  - split; [apply append_empty_r | now left].
Qed.

Lemma dict_set_absent (key : string) (value : pyval) (d : dict) :
  dict_get key d = None -> dict_set key value d = d ++ [(key, value)].
Proof.
  induction d as [|[k v] d IH]; simpl; [reflexivity |].
  destruct (String.eqb k key); [discriminate |].
  intros H. now rewrite (IH H).
Qed.

Lemma dict_set_present (key : string) (value : pyval) (d : dict) :
  dict_get key d <> None ->
  map fst (dict_set key value d) = map fst d.
Proof.
  induction d as [|[k v] d IH]; simpl; [congruence |].
  destruct (String.eqb k key); [reflexivity |].
  intros H. simpl. now rewrite (IH H).
Qed.

(** X17: the report that is written holds every field of the analysis
    with the value the analysis gave it, in the order of the analysis;
    the one exception is [candidate_name]: a value the analysis gave for
    it is replaced, at its place, by the name taken from the filename,
    and when the analysis has no such field it is added as the last
    one. *)
Theorem X17_report_keeps_the_analysis (w : env)
    (reports_folder filename : string) (analysis : dict) (s : state) :
  analysis <> [] ->
  open_for_writing w (report_path reports_folder filename) = Ok tt ->
  exists report,
    dumps (trace (snd (save_report w reports_folder filename
                         (PDict analysis) s)))
    = dumps (trace s)
      ++ [(report_path reports_folder filename, json_dumps 4 (PDict report))]
    /\ (forall key,
          key <> "candidate_name" ->
          dict_get key report = dict_get key analysis)
    /\ dict_get "candidate_name" report
       = Some (PStr (fst (os_path_splitext filename)))
    /\ (dict_get "candidate_name" analysis = None ->
        report
        = analysis
          ++ [("candidate_name", PStr (fst (os_path_splitext filename)))])
    /\ (dict_get "candidate_name" analysis <> None ->
        map fst report = map fst analysis).
Proof.
  intros Hne Hopen.
  exists (dict_set "candidate_name" (PStr (fst (os_path_splitext filename)))
            analysis).
  split; [| split; [| split; [| split]]].
  - rewrite save_report_run.
    destruct analysis as [|kv d]; [congruence |].
    simpl truthy. simpl setitem. cbv beta iota zeta. rewrite Hopen.
    simpl. rewrite dumps_app. reflexivity.
  - intros key Hkey. apply dict_get_set_other. congruence.
  - apply dict_get_set.
  - apply dict_set_absent.
  - apply dict_set_present.
Qed.

(** ** Running the batch again *)

Ltac close Hx :=
  simpl; autorewrite with trace; simpl; rewrite ?Hx; simpl;
  rewrite <- ?app_assoc, ?app_nil_r; simpl; reflexivity.

Section Rerun.

Variable w : env.

(** The endpoint answers a prompt the same way whenever it is asked. *)
Hypothesis steady :
  forall n m prompt,
    chat_completions_create w n prompt = chat_completions_create w m prompt.

Variables (job_desc : dict) (resumes_folder reports_folder : string).

Lemma iteration_dumps_from (filename : string) (s : state) :
  dumps (trace (snd (iteration w job_desc resumes_folder reports_folder
                       filename s)))
  = dumps (trace s)
    ++ dumps (trace (snd (iteration w job_desc resumes_folder reports_folder
                            filename initial))).
Proof.
  destruct (eligible filename) eqn:Helig.
  2:{ rewrite !iteration_not_eligible by exact Helig. simpl.
      now rewrite app_nil_r. }
  assert (Hx : dumps (extract_events (os_path_join resumes_folder filename))
               = []).
  { unfold extract_events.
    destruct (Str.endswith _ ".pdf"); [reflexivity |].
    now destruct (Str.endswith _ ".txt"). }
  rewrite (iteration_run _ _ _ _ _ s Helig),
          (iteration_run _ _ _ _ _ initial Helig).
  rewrite (extract_run w _ (log s _)), (extract_run w _ (log initial _)).
  cbv beta iota zeta.
  destruct (fst (extract_text_from_resume w _ initial)) as [resume_text|e].
  2:{ close Hx. }
  destruct (blank resume_text).
  { close Hx. }
  rewrite !get_analysis_run.
  rewrite (steady (requests (trace (log (log s _) _))) O),
          (steady (requests (trace (log (log initial _) _))) O).
  destruct (load_dotenv w) as [[]|e].
  2:{ close Hx. }
  destruct (OpenAI w _) as [[]|e].
  2:{ close Hx. }
  destruct (match chat_completions_create w 0 _ with
            | Ok content => loads_content w content
            | Raise e => Raise e
            end) as [v|e].
  2:{ close Hx. }
  cbv beta iota zeta. rewrite !save_report_run.
  destruct (truthy v).
  2:{ close Hx. }
  destruct (setitem v _ _) as [report|e].
  2:{ close Hx. }
  cbv beta iota zeta.
  destruct (open_for_writing w _) as [[]|e];
    close Hx.
Qed.

Lemma loop_dumps_from (filenames : list string) (s : state) :
  dumps (trace (after_loop w job_desc resumes_folder reports_folder
                  filenames s))
  = dumps (trace s)
    ++ dumps (trace (after_loop w job_desc resumes_folder reports_folder
                       filenames initial)).
Proof.
  revert s. induction filenames as [|filename rest IH]; intros s.
  - unfold after_loop. simpl. now rewrite app_nil_r.
  - rewrite !after_loop_cons.
    rewrite (IH (snd (iteration w job_desc resumes_folder reports_folder
                        filename s))),
            (IH (snd (iteration w job_desc resumes_folder reports_folder
                        filename initial))).
    rewrite (iteration_dumps_from filename s). now rewrite app_assoc.
Qed.

(** The files the loop leaves are those it found, with the reports of a
    run from the empty state written over them. *)
Lemma loop_files_from (filenames : list string) (s : state) :
  files (after_loop w job_desc resumes_folder reports_folder filenames s)
  = apply_dumps (files s)
      (dumps (trace (after_loop w job_desc resumes_folder reports_folder
                       filenames initial))).
Proof.
  destruct (loop_step w job_desc resumes_folder reports_folder filenames s)
    as (evs & [Htrace Hfiles] & _).
  pose proof (loop_dumps_from filenames s) as Hd.
  rewrite Htrace, dumps_app in Hd. apply app_inv_head in Hd.
  now rewrite Hfiles, Hd.
Qed.

End Rerun.

Lemma apply_dumps_agree (ds : list (string * string))
    (m m' : gmap string string) (path : string) :
  In path (map fst ds) \/ m !! path = m' !! path ->
  apply_dumps m ds !! path = apply_dumps m' ds !! path.
Proof.
  revert m m'. induction ds as [|[p c] ds IH]; intros m m' H; simpl.
  - destruct H as [[] | H]. exact H.
  - apply IH. destruct (String.eq_dec p path) as [-> | Hne].
    + right. now rewrite !lookup_insert_eq.
    + destruct H as [[H | H] | H].
      * simpl in H. contradiction.
      * now left.
      * right. simpl. now rewrite !lookup_insert_ne.
Qed.

Lemma apply_dumps_elsewhere (ds : list (string * string))
    (m : gmap string string) (path : string) :
  ~ In path (map fst ds) -> apply_dumps m ds !! path = m !! path.
Proof.
  revert m. induction ds as [|[p c] ds IH]; intros m H; simpl.
  - reflexivity.
  - rewrite IH by (intros Hin; apply H; now right).
    simpl. apply lookup_insert_ne. intros ->. apply H. now left.
Qed.

(** Writing the same reports a second time changes nothing. *)
Lemma apply_dumps_twice (ds : list (string * string))
    (m : gmap string string) :
  apply_dumps (apply_dumps m ds) ds = apply_dumps m ds.
Proof.
  apply map_eq. intros path. apply apply_dumps_agree.
  destruct (in_dec String.eq_dec path (map fst ds)) as [Hin | Hnot].
  - now left.
  - right. now apply apply_dumps_elsewhere.
Qed.

(** X18: with an endpoint that answers a prompt the same way whenever it
    is asked, running [process_resumes_in_batch] a second time, on what
    the first run left, leaves every file as the first run left it: the
    same reports are written again with the same content. *)
Theorem X18_second_run_changes_no_file (w : env) (job_desc : dict)
    (resumes_folder reports_folder : string) (s : state) :
  (forall n m prompt,
      chat_completions_create w n prompt = chat_completions_create w m prompt) ->
  let once := snd (process_resumes_in_batch w job_desc resumes_folder
                     reports_folder s) in
  let twice := snd (process_resumes_in_batch w job_desc resumes_folder
                      reports_folder once) in
  files twice = files once.
Proof.
  intros steady once twice. subst once twice.
  rewrite (batch_run w job_desc resumes_folder reports_folder s).
  cbv zeta.
  destruct (if os_path_exists w reports_folder then Ok tt
            else os_makedirs w reports_folder) as [[]|e] eqn:Hmade.
  2:{ simpl snd. rewrite batch_run. cbv zeta. now rewrite Hmade. }
  destruct (os_listdir w resumes_folder) as [filenames|e] eqn:Hlist.
  2:{ simpl snd. rewrite batch_run. cbv zeta. now rewrite Hmade, Hlist. }
  simpl snd. rewrite batch_run. cbv zeta. rewrite Hmade, Hlist. simpl snd.
  rewrite !(loop_files_from w steady). simpl files.
  rewrite (loop_files_from w steady). simpl files.
  apply apply_dumps_twice.
Qed.

(** ** The further properties at work *)

Lemma X1_pdf_page_fault_ends_extraction_witness :
  extract_text_from_resume Cases.torn_pdf "resumes/eve.pdf" initial
  = (Raise (Exn "PdfReadError" "Invalid page object"),
     log initial [Open "resumes/eve.pdf" "rb"]).
Proof.
  apply (X1_pdf_page_fault_ends_extraction Cases.torn_pdf "resumes/eve.pdf"
           initial [Some "Eve"]
           (Exn "PdfReadError" "Invalid page object") [Ok (Some "Rust")]);
    reflexivity.
Defined.

Lemma X4_batch_writes_only_reports_witness :
  files (snd (process_resumes_in_batch Sample.office Sample.job_desc
                "resumes/" "reports/" initial)) !! "resumes/alice.txt"
  = files initial !! "resumes/alice.txt".
Proof.
  apply (X4_batch_writes_only_reports Sample.office Sample.job_desc
           "resumes/" "reports/" initial "resumes/alice.txt").
  reflexivity.
Defined.

Lemma X9_script_sets_tier_lists_witness :
  exists job_desc,
    dict_get "Tier-1_cities" job_desc = Some tier1_cities
    /\ dict_get "Tier-2_cities" job_desc = Some tier2_cities
    /\ dict_get "City_Tier" job_desc = Some (PStr "Tier-1").
Proof.
  destruct (X9_script_sets_tier_lists Sample.office initial
              Sample.job_description eq_refl)
    as (job_desc & _ & H1 & H2 & Hother).
  exists job_desc. split; [exact H1 |]. split; [exact H2 |].
  rewrite Hother; [reflexivity | discriminate | discriminate].
Defined.

Lemma X10_script_needs_a_mapping_witness :
  exists message,
    main Cases.empty_config initial
    = (Raise (Exn "TypeError" message),
       log initial [Stdout "Starting NexResume Semantic Matcher...";
                    Open "job_description.yml" "r"]).
Proof.
  apply (X10_script_needs_a_mapping Cases.empty_config initial PNone).
  - reflexivity.
  - discriminate.
Defined.

Lemma X12_one_outcome_line_per_file_witness :
  exists middle final,
    printed (trace (snd (iteration Sample.office Sample.job_desc "resumes/"
                           "reports/" "carol.pdf" initial)))
    = printed (trace initial)
      ++ processing_line "carol.pdf" :: middle ++ [final].
Proof.
  destruct (X12_one_outcome_line_per_file Sample.office Sample.job_desc
              "resumes/" "reports/" "carol.pdf" initial eq_refl)
    as (middle & final & H & _).
  now exists middle, final.
Defined.

Lemma X13_turn_touches_only_its_report_witness :
  files (snd (iteration Sample.office Sample.job_desc "resumes/" "reports/"
                "alice.txt" initial)) !! "reports/bob_report.json"
  = files initial !! "reports/bob_report.json".
Proof.
  apply (X13_turn_touches_only_its_report Sample.office Sample.job_desc
           "resumes/" "reports/" "alice.txt" initial
           "reports/bob_report.json").
  vm_compute. discriminate.
Defined.

Lemma X14_same_stem_same_report_witness :
  report_path "reports/" "alice.pdf" = report_path "reports/" "alice.txt"
  /\ files (snd (iteration Cases.two_resumes Sample.job_desc "resumes/"
                   "reports/" "alice.txt"
                   (snd (iteration Cases.two_resumes Sample.job_desc
                           "resumes/" "reports/" "alice.pdf" initial))))
       !! report_path "reports/" "alice.pdf"
     = Some (report_content "alice.txt" Sample.alice_analysis).
Proof.
  apply (X14_same_stem_same_report Cases.two_resumes Sample.job_desc
           "resumes/" "reports/" "alice"
           (snd (iteration Cases.two_resumes Sample.job_desc "resumes/"
                   "reports/" "alice.pdf" initial))
           Sample.alice_text Sample.alice_analysis).
  - reflexivity.
  - reflexivity.
  - repeat split; try (vm_compute; reflexivity). discriminate.
Defined.

Lemma X15_prompt_determines_resume_text_witness :
  Sample.alice_text = "5 years Java experience, Chennai".
Proof.
  apply (X15_prompt_determines_resume_text Sample.job_desc).
  reflexivity.
Defined.

Lemma X17_report_keeps_the_analysis_witness :
  exists report,
    dumps (trace (snd (save_report Sample.office "reports/" "alice.txt"
                         (PDict Sample.alice_analysis) initial)))
    = dumps (trace initial)
      ++ [(report_path "reports/" "alice.txt", json_dumps 4 (PDict report))]
    /\ dict_get "final_score" report = Some (PInt 85).
Proof.
  destruct (X17_report_keeps_the_analysis Sample.office "reports/"
              "alice.txt" Sample.alice_analysis initial)
    as (report & Hd & Hkeep & _).
  - discriminate.
  - reflexivity.
  - exists report. split; [exact Hd |].
    rewrite Hkeep; [reflexivity | discriminate].
Defined.

Lemma X18_second_run_changes_no_file_witness :
  files (snd (process_resumes_in_batch Cases.two_resumes Sample.job_desc
                "resumes/" "reports/"
                (snd (process_resumes_in_batch Cases.two_resumes
                        Sample.job_desc "resumes/" "reports/" initial))))
  = files (snd (process_resumes_in_batch Cases.two_resumes Sample.job_desc
                  "resumes/" "reports/" initial)).
Proof.
  apply (X18_second_run_changes_no_file Cases.two_resumes Sample.job_desc
           "resumes/" "reports/" initial).
  reflexivity.
Defined.

(** ** Replies and texts of other shapes *)

(** X19: a reply that decodes to a truthy value other than a mapping (a
    list with items, a number other than zero, a text, [true]) cannot
    take the name of the candidate: the assignment raises a [TypeError],
    which the [try] of the file catches.  The turn ends with the error
    line of the file, and no file is opened for writing. *)
Theorem X19_reply_that_is_no_mapping (w : env) (job_desc : dict)
    (resumes_folder reports_folder filename : string) (s s1 s2 : state)
    (resume_text : string) (v : pyval) :
  eligible filename = true ->
  extract_text_from_resume w (os_path_join resumes_folder filename)
    (log s [Stdout (processing_line filename)]) = (Ok resume_text, s1) ->
  blank resume_text = false ->
  get_analysis_from_gpt w (create_llm_prompt job_desc resume_text) s1
  = (Ok v, s2) ->
  truthy v = true ->
  (forall d, v <> PDict d) ->
  exists message,
    iteration w job_desc resumes_folder reports_folder filename s
    = (Ok tt, log s2 [Stdout (error_line filename (Exn "TypeError" message))]).
Proof.
  intros Helig Hextract Hblank Hanalysis Htruthy Hnot.
  rewrite (iteration_run _ _ _ _ _ _ Helig), Hextract, Hblank, Hanalysis.
  rewrite save_report_run, Htruthy.
  destruct v as [| b | n | f | t | l | d]; simpl setitem; cbv beta iota;
    try (eexists; reflexivity).
  now destruct (Hnot d).
Qed.

Lemma all_whitespace_append (s t : string) :
  Str.all_whitespace (s +:+ t)
  = Str.all_whitespace s && Str.all_whitespace t.
Proof.
  induction s as [|a s IH]; [reflexivity |].
  rewrite append_cons. simpl. now rewrite IH, andb_assoc.
Qed.

Lemma concat_pages_blank (texts : list (option string)) :
  forallb (fun x => Str.all_whitespace (or_empty x)) texts = true ->
  blank (concat_pages texts) = true.
Proof.
  rewrite blank_all_whitespace. unfold concat_pages.
  induction texts as [|x texts IH]; simpl; [reflexivity |].
  intros H. apply andb_true_iff in H as [Hx Hrest].
  now rewrite all_whitespace_append, Hx, (IH Hrest).
Qed.

(** X20: a PDF that opens and whose pages all come without text (the
    extraction gives [None], the empty text or whitespace for each, as
    for a scanned document) is not reported as a fault: it is skipped
    with the line for a resume without text, and no request is made for
    it. *)
Theorem X20_pdf_without_text_is_skipped (w : env) (job_desc : dict)
    (resumes_folder reports_folder filename : string) (s : state)
    (texts : list (option string)) :
  Str.endswith filename ".pdf" = true ->
  pdf_pages w (os_path_join resumes_folder filename) = Ok (map Ok texts) ->
  forallb (fun x => Str.all_whitespace (or_empty x)) texts = true ->
  iteration w job_desc resumes_folder reports_folder filename s
  = (Ok tt,
     log s [Stdout (processing_line filename);
            Open (os_path_join resumes_folder filename) "rb";
            Stdout (skipping_line filename)]).
Proof.
  intros Hpdf Hpages Hblank.
  assert (Helig : eligible filename = true)
    by (unfold eligible; now rewrite Hpdf).
  pose proof (os_path_join_endswith resumes_folder _ _ Hpdf) as Hpath.
  rewrite (iteration_run _ _ _ _ _ _ Helig).
  unfold extract_text_from_resume. rewrite Hpath. run_monad.
  rewrite Hpages, pages_loop_all. rewrite append_nil.
  rewrite (concat_pages_blank texts Hblank).
  unfold log. simpl. now rewrite <- !app_assoc.
Qed.

(** X21: whatever the configuration holds, a prompt built from the job
    description of the script names the six Tier-1 and the three Tier-2
    cities the script fixes, and shows the [City_Tier] of the
    configuration, or [None] when it has none. *)
Theorem X21_prompt_of_the_script (config : dict) (resume_text : string) :
  let job_desc :=
    dict_set "Tier-2_cities" tier2_cities
      (dict_set "Tier-1_cities" tier1_cities config) in
  create_llm_prompt job_desc resume_text
  = prompt_part0 +:+ py_str (get_or_none "City_Tier" config)
    +:+ prompt_part1
    +:+ "['Chennai', 'Bangalore', 'Delhi', 'Hyderabad', 'Kolkata', 'Mumbai']"
    +:+ prompt_part2 +:+ "['Coimbatore', 'Trichy', 'Madurai']"
    +:+ prompt_part3 +:+ json_dumps 2 (PDict job_desc)
    +:+ prompt_part4 +:+ resume_text
    +:+ prompt_part5 +:+ json_format_instructions
    +:+ prompt_part6.
Proof.
  intros job_desc. subst job_desc. unfold create_llm_prompt, get_or_none.
  rewrite !(dict_get_set_other _ "City_Tier") by discriminate.
  rewrite (dict_get_set_other "Tier-2_cities" "Tier-1_cities") by discriminate.
  rewrite !dict_get_set. reflexivity.
Qed.

Lemma X19_reply_that_is_no_mapping_witness :
  exists message,
    iteration (Cases.listed_reply) Sample.job_desc "resumes/" "reports/"
      "alice.txt" initial
    = (Ok tt,
       log (log initial
              [Stdout (processing_line "alice.txt");
               Open "resumes/alice.txt" "r"; LoadDotenv; NewClient;
               Request (create_llm_prompt Sample.job_desc Sample.alice_text)])
         [Stdout (error_line "alice.txt" (Exn "TypeError" message))]).
Proof.
  apply (X19_reply_that_is_no_mapping Cases.listed_reply Sample.job_desc
           "resumes/" "reports/" "alice.txt" initial
           (log initial [Stdout (processing_line "alice.txt");
                         Open "resumes/alice.txt" "r"])
           (log initial
              [Stdout (processing_line "alice.txt");
               Open "resumes/alice.txt" "r"; LoadDotenv; NewClient;
               Request (create_llm_prompt Sample.job_desc Sample.alice_text)])
           Sample.alice_text (PList [PStr "Java"]));
    try reflexivity.
  discriminate.
Defined.

Lemma X20_pdf_without_text_is_skipped_witness :
  iteration Cases.scanned_pdf Sample.job_desc "resumes/" "reports/"
    "scan.pdf" initial
  = (Ok tt,
     log initial [Stdout (processing_line "scan.pdf");
                  Open (os_path_join "resumes/" "scan.pdf") "rb";
                  Stdout (skipping_line "scan.pdf")]).
Proof.
  apply (X20_pdf_without_text_is_skipped Cases.scanned_pdf Sample.job_desc
           "resumes/" "reports/" "scan.pdf" initial
           [None; Some ""; Some " "]);
    reflexivity.
Defined.

(** * Further properties of the program with every fault *)

(** ** Reads, calls and aborts *)

Lemma full_batch_profile (x : Full.world) (job_desc : Full.ydict)
    (resumes_folder reports_folder : string) (s : state) :
  fst (Full.process_resumes_in_batch x job_desc resumes_folder reports_folder
         s) = Ok tt ->
  let s' := snd (Full.process_resumes_in_batch x job_desc resumes_folder
                   reports_folder s) in
  let eligible_files :=
    List.filter eligible (listing (Full.base x) resumes_folder) in
  opened (trace s')
  = opened (trace s) ++ map (os_path_join resumes_folder) eligible_files
  /\ Full.dotenv_loads (trace s')
     = (Full.dotenv_loads (trace s)
        + length (List.filter
                    (fun filename =>
                       bool_decide
                         (is_Some (Full.prompt_for x job_desc resumes_folder
                                     filename)))
                    eligible_files))%nat.
Proof.
  rewrite full_batch_run. cbv zeta. unfold listing.
  set (before := if os_path_exists (Full.base x) reports_folder then []
                 else [Makedirs reports_folder]).
  assert (Hb : opened before = [] /\ Full.dotenv_loads before = O)
    by (unfold before;
        now destruct (os_path_exists (Full.base x) reports_folder)).
  destruct Hb as [Hbo Hbl].
  destruct (if os_path_exists (Full.base x) reports_folder then Ok tt
            else os_makedirs (Full.base x) reports_folder) as [[]|e];
    [| discriminate].
  destruct (os_listdir (Full.base x) resumes_folder) as [filenames|e];
    [| discriminate].
  intros Hloop.
  destruct (full_loop_profile x job_desc resumes_folder reports_folder
              filenames _ Hloop) as [Ho Hl].
  rewrite Ho, Hl. simpl trace.
  rewrite !opened_app, !dotenv_loads_app, Hbo, Hbl. simpl.
  now rewrite app_nil_r, Nat.add_0_r.
Qed.

(** X5: when [process_resumes_in_batch] returns, what it has opened for
    reading with [open] are the eligible entries of the listing, each
    once, in the order of the listing, under the path that
    [os.path.join] gives them; and [load_dotenv], which reads the file
    [.env], has been called once for every eligible entry whose text was
    extracted, is not blank, and has a prompt. *)
Theorem X5_batch_reads_each_eligible_file_once (x : Full.world)
    (job_desc : Full.ydict) (resumes_folder reports_folder : string)
    (s : state) :
  fst (Full.process_resumes_in_batch x job_desc resumes_folder reports_folder
         s) = Ok tt ->
  let s' := snd (Full.process_resumes_in_batch x job_desc resumes_folder
                   reports_folder s) in
  let eligible_files :=
    List.filter eligible (listing (Full.base x) resumes_folder) in
  opened (trace s')
  = opened (trace s) ++ map (os_path_join resumes_folder) eligible_files
  /\ Full.dotenv_loads (trace s')
     = (Full.dotenv_loads (trace s)
        + length (List.filter
                    (fun filename =>
                       bool_decide
                         (is_Some (Full.prompt_for x job_desc resumes_folder
                                     filename)))
                    eligible_files))%nat.
Proof. apply full_batch_profile. Qed.

(** X6: in the turn of an eligible file whose first line is printed,
    [client.chat.completions.create] is called, once, exactly when the
    extraction returned a text that is not blank, the prompt was built,
    and [load_dotenv] and the constructor of the client returned; the
    HTTP requests of the turn are those that the client makes inside
    that call.  A turn whose first line is not printed calls nothing. *)
Theorem X6_request_made_only_for_extracted_text (x : Full.world)
    (job_desc : Full.ydict) (resumes_folder reports_folder filename : string)
    (s : state) :
  eligible filename = true ->
  let s' := snd (Full.iteration x job_desc resumes_folder reports_folder
                   filename s) in
  let called :=
    match Full.prompt_for x job_desc resumes_folder filename with
    | Some prompt => if Full.client_made x then Some prompt else None
    | None => None
    end in
  match Full.stdout_write x (Full.next_line s) (processing_line filename) with
  | Ok _ =>
      requests (trace s')
      = (requests (trace s) + match called with Some _ => 1 | None => 0 end)%nat
      /\ Full.http_sent x (trace s')
         = (Full.http_sent x (trace s)
            + match called with
              | Some prompt => Full.http_requests x (requests (trace s)) prompt
              | None => 0
              end)%nat
  | Raise _ =>
      requests (trace s') = requests (trace s)
      /\ Full.http_sent x (trace s') = Full.http_sent x (trace s)
  end.
Proof.
  intros Helig. cbv zeta.
  destruct (Full.stdout_write x (Full.next_line s) (processing_line filename))
    as [[]|e] eqn:Hstart.
  - destruct (full_iteration_profile x job_desc resumes_folder reports_folder
                filename s Helig Hstart) as (_ & _ & Hr & Hh).
    now split.
  - now rewrite (full_iteration_not_started _ _ _ _ _ _ _ Helig Hstart).
Qed.

Lemma full_iteration_http (x : Full.world) (job_desc : Full.ydict)
    (resumes_folder reports_folder filename : string) (s : state) (k : nat) :
  (forall n prompt, (Full.http_requests x n prompt <= k)%nat) ->
  (Full.http_sent x
     (trace (snd (Full.iteration x job_desc resumes_folder reports_folder
                    filename s)))
   <= Full.http_sent x (trace s) + (if eligible filename then k else 0))%nat.
Proof.
  intros Hk. destruct (eligible filename) eqn:Helig.
  2:{ rewrite full_iteration_not_eligible by exact Helig. simpl. lia. }
  destruct (Full.stdout_write x (Full.next_line s) (processing_line filename))
    as [[]|e] eqn:Hstart.
  2:{ rewrite (full_iteration_not_started _ _ _ _ _ _ _ Helig Hstart).
      simpl. lia. }
  destruct (full_iteration_profile x job_desc resumes_folder reports_folder
              filename s Helig Hstart) as (_ & _ & _ & Hh).
  rewrite Hh.
  destruct (Full.prompt_for x job_desc resumes_folder filename) as [prompt|];
    [destruct (Full.client_made x) |]; try lia.
  specialize (Hk (requests (trace s)) prompt). lia.
Qed.

Lemma full_loop_http (x : Full.world) (job_desc : Full.ydict)
    (resumes_folder reports_folder : string) (filenames : list string)
    (s : state) (k : nat) :
  (forall n prompt, (Full.http_requests x n prompt <= k)%nat) ->
  (Full.http_sent x
     (trace (snd (for_each filenames
                    (Full.iteration x job_desc resumes_folder reports_folder)
                    s)))
   <= Full.http_sent x (trace s)
      + k * length (List.filter eligible filenames))%nat.
Proof.
  intros Hk. revert s. induction filenames as [|filename rest IH]; intros s.
  - simpl. lia.
  - simpl for_each. unfold bind.
    pose proof (full_iteration_http x job_desc resumes_folder reports_folder
                  filename s k Hk) as H1.
    simpl List.filter.
    destruct (Full.iteration x job_desc resumes_folder reports_folder
                filename s) as [[[]|e] s1]; simpl in H1.
    + specialize (IH s1).
      destruct (eligible filename); simpl length; lia.
    + simpl snd. destruct (eligible filename); simpl length; lia.
Qed.

(** X7: [process_resumes_in_batch] calls
    [client.chat.completions.create] at most once per eligible entry of
    the listing: the program never calls again for a file, whatever
    became of its call.  The HTTP requests inside a call are the
    client's: when the client makes at most [k] of them in a call (3
    with its default settings), at most [k] per eligible entry are
    sent. *)
Theorem X7_batch_requests_bounded (x : Full.world) (job_desc : Full.ydict)
    (resumes_folder reports_folder : string) (s : state) :
  let s' := snd (Full.process_resumes_in_batch x job_desc resumes_folder
                   reports_folder s) in
  let n :=
    length (List.filter eligible (listing (Full.base x) resumes_folder)) in
  (requests (trace s') <= requests (trace s) + n)%nat
  /\ forall k,
       (forall m prompt, (Full.http_requests x m prompt <= k)%nat) ->
       (Full.http_sent x (trace s') <= Full.http_sent x (trace s) + k * n)%nat.
Proof.
  cbv zeta. split.
  - apply full_batch_bounds.
  - intros k Hk. rewrite full_batch_run. cbv zeta. unfold listing.
    set (before := if os_path_exists (Full.base x) reports_folder then []
                   else [Makedirs reports_folder]).
    assert (Hb : forall m, Full.http_from x m before = O)
      by (intros m; unfold before;
          now destruct (os_path_exists (Full.base x) reports_folder)).
    assert (Hs0 : Full.http_sent x
                    (trace (log s (before ++ [Listdir resumes_folder])))
                  = Full.http_sent x (trace s)).
    { unfold Full.http_sent. simpl trace.
      rewrite !http_from_app, Hb. simpl. lia. }
    destruct (if os_path_exists (Full.base x) reports_folder then Ok tt
              else os_makedirs (Full.base x) reports_folder) as [[]|e].
    2:{ simpl snd. unfold Full.http_sent. simpl trace.
        rewrite http_from_app, Hb. lia. }
    destruct (os_listdir (Full.base x) resumes_folder) as [filenames|e].
    2:{ simpl snd. rewrite Hs0. lia. }
    pose proof (full_loop_http x job_desc resumes_folder reports_folder
                  filenames (log s (before ++ [Listdir resumes_folder])) k Hk)
      as H.
    rewrite Hs0 in H. exact H.
Qed.

(** X8: with a standard output that accepts every line, when the batch
    ends with an exception, all it has done is to try to create the
    output directory and, if that went well, to list the input
    directory: no resume was opened, no call made, no line printed, no
    file written; and after a failed [os.makedirs] the input directory
    is not listed. *)
Theorem X8_aborted_batch_did_nothing (x : Full.world) (job_desc : Full.ydict)
    (resumes_folder reports_folder : string) (s : state) (e : exn) :
  Full.stdout_works x ->
  fst (Full.process_resumes_in_batch x job_desc resumes_folder reports_folder
         s) = Raise e ->
  let s' := snd (Full.process_resumes_in_batch x job_desc resumes_folder
                   reports_folder s) in
  files s' = files s
  /\ ((os_makedirs (Full.base x) reports_folder = Raise e
       /\ trace s' = trace s ++ [Makedirs reports_folder])
      \/ (os_listdir (Full.base x) resumes_folder = Raise e
          /\ (trace s' = trace s ++ [Listdir resumes_folder]
              \/ trace s' = trace s ++ [Makedirs reports_folder;
                                        Listdir resumes_folder]))).
Proof.
  intros Hout. rewrite full_batch_run. cbv zeta.
  destruct (os_path_exists (Full.base x) reports_folder).
  - destruct (os_listdir (Full.base x) resumes_folder) as [filenames|e0].
    + rewrite full_loop_ok by exact Hout. discriminate.
    + simpl. intros [= ->]. split; [reflexivity |]. right. auto.
  - destruct (os_makedirs (Full.base x) reports_folder) as [[]|e0].
    + destruct (os_listdir (Full.base x) resumes_folder) as [filenames|e0].
      * rewrite full_loop_ok by exact Hout. discriminate.
      * simpl. intros [= ->]. split; [reflexivity |]. right. auto.
    + simpl. intros [= ->]. split; [reflexivity |]. left. auto.
Qed.

(** ** The script with every fault *)

Lemma full_main_run (x : Full.world) (s : state) :
  Full.main x s =
  match Full.stdout_write x (Full.next_line s)
          "Starting NexResume Semantic Matcher..." with
  | Raise e => (Raise e, s)
  | Ok _ =>
      let s0 := log s [Stdout "Starting NexResume Semantic Matcher...";
                       Open "job_description.yml" "r"] in
      match Full.load_yaml x "job_description.yml" with
      | Raise e => (Raise e, s0)
      | Ok v =>
          match Full.ysetitem v "Tier-1_cities" Full.tier1_cities with
          | Raise e => (Raise e, s0)
          | Ok with_tier1 =>
              let '(r, s1) :=
                Full.process_resumes_in_batch x
                  (Full.ydict_set "Tier-2_cities" Full.tier2_cities with_tier1)
                  "resumes/" "reports/" s0 in
              match r with
              | Raise e => (Raise e, s1)
              | Ok _ =>
                  Full.print x
                    "Processing complete. Reports are saved in the 'reports/' folder."
                    s1
              end
          end
      end
  end.
Proof.
  unfold Full.main, Full.load_job_description.
  unfold bind at 1. rewrite full_print_run.
  destruct (Full.stdout_write x (Full.next_line s) _) as [[]|e0];
    [| reflexivity].
  unfold bind at 1. unfold bind at 1. unfold emit, lift.
  rewrite log_log. simpl app.
  destruct (Full.load_yaml x "job_description.yml") as [v|e0];
    [| reflexivity].
  unfold bind at 1.
  destruct (Full.ysetitem v "Tier-1_cities" Full.tier1_cities) as [d|e0];
    [| reflexivity].
  unfold bind at 1. simpl Full.ysetitem. cbv iota beta.
  unfold bind.
  now destruct (Full.process_resumes_in_batch x _ "resumes/" "reports/" _)
    as [[[]|e0] s1].
Qed.

Lemma ysetitem_mapping (v : Full.yval) (key : string) (value : Full.yval)
    (d : Full.ydict) :
  Full.ysetitem v key value = Ok d ->
  exists config, v = Full.YDict config.
Proof. destruct v; try discriminate. now eexists. Qed.

Lemma full_loop_printed (x : Full.world) (job_desc : Full.ydict)
    (resumes_folder reports_folder : string) (filenames : list string)
    (s : state) :
  exists lines,
    printed (trace (snd (for_each filenames
                           (Full.iteration x job_desc resumes_folder
                              reports_folder) s)))
    = printed (trace s) ++ lines.
Proof.
  revert s. induction filenames as [|filename rest IH]; intros s.
  - exists []. simpl. now rewrite app_nil_r.
  - simpl for_each. unfold bind.
    destruct (full_iteration_printed x job_desc resumes_folder reports_folder
                filename s) as (lines1 & H1 & _).
    destruct (Full.iteration x job_desc resumes_folder reports_folder
                filename s) as [[[]|e] s1]; simpl in H1.
    + destruct (IH s1) as (lines2 & H2).
      exists (lines1 ++ lines2). now rewrite H2, H1, app_assoc.
    + now exists lines1.
Qed.

(** X11: when the script ends normally, the configuration has loaded as
    a mapping, the output directory existed or was created, and the
    input directory was listed; the opening line was printed first and
    the closing line last.  With a standard output that accepts every
    line the converse holds as well: what happens to the single resumes
    has then no part in how the script ends. *)
Theorem X11_script_outcome (x : Full.world) (s : state) :
  let loaded :=
    (exists config,
       Full.load_yaml x "job_description.yml" = Ok (Full.YDict config))
    /\ (os_path_exists (Full.base x) "reports/" = true
        \/ os_makedirs (Full.base x) "reports/" = Ok tt)
    /\ exists filenames, os_listdir (Full.base x) "resumes/" = Ok filenames in
  (fst (Full.main x s) = Ok tt ->
   loaded
   /\ exists lines,
        printed (trace (snd (Full.main x s)))
        = printed (trace s)
          ++ ["Starting NexResume Semantic Matcher..."] ++ lines
          ++ ["Processing complete. Reports are saved in the 'reports/' folder."])
  /\ (Full.stdout_works x -> loaded -> fst (Full.main x s) = Ok tt).
Proof.
  cbv zeta. rewrite full_main_run. split.
  - destruct (Full.stdout_write x (Full.next_line s) _) as [[]|e0];
      [| discriminate].
    cbv zeta.
    destruct (Full.load_yaml x "job_description.yml") as [v|e0];
      [| discriminate].
    destruct (Full.ysetitem v "Tier-1_cities" Full.tier1_cities)
      as [d|e0] eqn:Hset; [| discriminate].
    destruct (ysetitem_mapping _ _ _ _ Hset) as [config ->].
    rewrite full_batch_run. cbv zeta.
    destruct (os_path_exists (Full.base x) "reports/") eqn:Hexists.
    + destruct (os_listdir (Full.base x) "resumes/") as [filenames|e0];
        [| discriminate].
      match goal with
      | |- context [for_each filenames ?body ?st] =>
          destruct (full_loop_printed x
                      (Full.ydict_set "Tier-2_cities" Full.tier2_cities d)
                      "resumes/" "reports/" filenames st) as (lines & Hl);
          destruct (for_each filenames body st) as [[[]|e0] s1];
          [| discriminate]
      end.
      rewrite full_print_run.
      destruct (Full.stdout_write x (Full.next_line s1) _) as [[]|e0];
        [| discriminate].
      intros _. split.
      * split; [now exists config |]. split; [now left | now eexists].
      * exists lines. simpl in Hl. simpl. rewrite printed_app, Hl.
        rewrite !printed_app. simpl. now rewrite <- !app_assoc.
    + destruct (os_makedirs (Full.base x) "reports/") as [[]|e0];
        [| discriminate].
      destruct (os_listdir (Full.base x) "resumes/") as [filenames|e0];
        [| discriminate].
      match goal with
      | |- context [for_each filenames ?body ?st] =>
          destruct (full_loop_printed x
                      (Full.ydict_set "Tier-2_cities" Full.tier2_cities d)
                      "resumes/" "reports/" filenames st) as (lines & Hl);
          destruct (for_each filenames body st) as [[[]|e0] s1];
          [| discriminate]
      end.
      rewrite full_print_run.
      destruct (Full.stdout_write x (Full.next_line s1) _) as [[]|e0];
        [| discriminate].
      intros _. split.
      * split; [now exists config |]. split; [now right | now eexists].
      * exists lines. simpl in Hl. simpl. rewrite printed_app, Hl.
        rewrite !printed_app. simpl. now rewrite <- !app_assoc.
  - intros Hout ((config & Hload) & Hmade & (filenames & Hlist)).
    rewrite Hout, Hload. simpl Full.ysetitem. cbv iota beta zeta.
    rewrite full_batch_run. cbv zeta. rewrite Hlist.
    assert (Hdir : (if os_path_exists (Full.base x) "reports/" then Ok tt
                    else os_makedirs (Full.base x) "reports/") = Ok tt).
    { destruct Hmade as [-> | Hm]; [reflexivity |].
      now destruct (os_path_exists (Full.base x) "reports/"). }
    rewrite Hdir.
    match goal with
    | |- context [for_each filenames ?body ?st] =>
        pose proof (full_loop_ok x
                      (Full.ydict_set "Tier-2_cities" Full.tier2_cities
                         (Full.ydict_set "Tier-1_cities" Full.tier1_cities
                            config))
                      "resumes/" "reports/" filenames st Hout) as Hok;
        destruct (for_each filenames body st) as [r s1]
    end.
    simpl in Hok. subst r. rewrite full_print_run. now rewrite Hout.
Qed.

(** ** The two embeddings *)

(** With a standard output that accepts every line, report files that
    are written completely once they have opened, and a job description
    whose prompts are those of a job description of JSON's values, the
    program with every fault does what the program of the first
    embedding does. *)
Lemma full_print_plain (x : Full.world) (line : string) (s : state) :
  Full.stdout_works x -> Full.print x line s = print line s.
Proof. intros Hout. now rewrite full_print_run, Hout. Qed.

Lemma full_iteration_plain (x : Full.world) (job_desc : Full.ydict)
    (job_desc0 : dict) (resumes_folder reports_folder filename : string)
    (s : state) :
  Full.stdout_works x ->
  (forall path content, Full.dump_fault x path content = None) ->
  (forall resume_text,
      Full.prompt_of job_desc resume_text
      = Ok (create_llm_prompt job_desc0 resume_text)) ->
  Full.iteration x job_desc resumes_folder reports_folder filename s
  = iteration (Full.base x) job_desc0 resumes_folder reports_folder filename s.
Proof.
  intros Hout Hdump Hprompt.
  destruct (eligible filename) eqn:Helig.
  2:{ now rewrite full_iteration_not_eligible, iteration_not_eligible. }
  rewrite (full_iteration_run _ _ _ _ _ _ Helig), Hout.
  rewrite (iteration_run _ _ _ _ _ _ Helig).
  rewrite full_process_file_run, extract_run. cbv zeta. simpl fst. simpl snd.
  destruct (fst (extract_text_from_resume (Full.base x) _ initial))
    as [resume_text|e].
  2:{ now rewrite full_print_plain. }
  destruct (blank resume_text).
  { rewrite full_print_plain by exact Hout. reflexivity. }
  rewrite Hprompt, full_get_analysis_run, get_analysis_run.
  unfold Full.reply.
  destruct (load_dotenv (Full.base x)) as [[]|e];
    [| now rewrite full_print_plain].
  destruct (OpenAI (Full.base x) _) as [[]|e];
    [| now rewrite full_print_plain].
  destruct (match chat_completions_create (Full.base x) _ _ with
            | Ok content => loads_content (Full.base x) content
            | Raise e => Raise e
            end) as [v|e].
  - rewrite full_save_report_run, save_report_run.
    destruct (truthy v).
    + destruct (setitem v _ _) as [report|e];
        [| now rewrite full_print_plain].
      cbv zeta.
      destruct (open_for_writing (Full.base x) _) as [[]|e];
        [| now rewrite full_print_plain].
      now rewrite Hdump, Hout.
    + now rewrite Hout.
  - rewrite Hout. rewrite full_save_report_run, save_report_run.
    simpl truthy. cbv iota. now rewrite Hout.
Qed.

Lemma full_loop_plain (x : Full.world) (job_desc : Full.ydict)
    (job_desc0 : dict) (resumes_folder reports_folder : string)
    (filenames : list string) (s : state) :
  Full.stdout_works x ->
  (forall path content, Full.dump_fault x path content = None) ->
  (forall resume_text,
      Full.prompt_of job_desc resume_text
      = Ok (create_llm_prompt job_desc0 resume_text)) ->
  for_each filenames
    (Full.iteration x job_desc resumes_folder reports_folder) s
  = for_each filenames
      (iteration (Full.base x) job_desc0 resumes_folder reports_folder) s.
Proof.
  intros Hout Hdump Hprompt. revert s.
  induction filenames as [|filename rest IH]; intros s; [reflexivity |].
  simpl. unfold bind.
  rewrite (full_iteration_plain x job_desc job_desc0) by assumption.
  destruct (iteration (Full.base x) job_desc0 _ _ filename s) as [[[]|e] s1];
    [apply IH | reflexivity].
Qed.

Lemma full_batch_plain (x : Full.world) (job_desc : Full.ydict)
    (job_desc0 : dict) (resumes_folder reports_folder : string) (s : state) :
  Full.stdout_works x ->
  (forall path content, Full.dump_fault x path content = None) ->
  (forall resume_text,
      Full.prompt_of job_desc resume_text
      = Ok (create_llm_prompt job_desc0 resume_text)) ->
  Full.process_resumes_in_batch x job_desc resumes_folder reports_folder s
  = process_resumes_in_batch (Full.base x) job_desc0 resumes_folder
      reports_folder s.
Proof.
  intros Hout Hdump Hprompt.
  rewrite full_batch_run. cbv zeta.
  unfold process_resumes_in_batch.
  destruct (os_path_exists (Full.base x) reports_folder); run_monad.
  - destruct (os_listdir (Full.base x) resumes_folder) as [filenames|e];
      [| reflexivity].
    now apply full_loop_plain.
  - destruct (os_makedirs (Full.base x) reports_folder) as [[]|e];
      [| reflexivity].
    rewrite log_log. simpl.
    destruct (os_listdir (Full.base x) resumes_folder) as [filenames|e];
      [| reflexivity].
    now apply full_loop_plain.
Qed.

(** ** The further properties of the program with every fault at work *)

Lemma sample_prompts_agree (resume_text : string) :
  Full.prompt_of Faulty.job_desc resume_text
  = Ok (create_llm_prompt Sample.job_desc resume_text).
Proof. now rewrite full_prompt_of. Qed.

(** The sample run is the same in both embeddings. *)
Example sample_batch_agrees :
  Full.process_resumes_in_batch Faulty.office Faulty.job_desc "resumes/"
    "reports/" initial
  = process_resumes_in_batch Sample.office Sample.job_desc "resumes/"
      "reports/" initial.
Proof.
  apply (full_batch_plain Faulty.office Faulty.job_desc Sample.job_desc).
  - intros n line. reflexivity.
  - intros path content. reflexivity.
  - apply sample_prompts_agree.
Qed.

(** A name that the standard output cannot encode: the first line of its
    turn is printed outside the [try], the exception of [print] ends the
    batch and the script, and [dave.txt], which comes after it in the
    listing, is never started. *)
Example unencodable_name_aborts_run :
  fst (Full.main Faulty.ascii_stdout initial)
  = Raise (Exn "UnicodeEncodeError"
             "'ascii' codec can't encode character '\xe9' in position 12: ordinal not in range(128)")
  /\ printed (trace (snd (Full.main Faulty.ascii_stdout initial)))
     = ["Starting NexResume Semantic Matcher...";
        "Processing alice.txt...";
        "Successfully generated report for alice.txt"].
Proof. split; vm_compute; reflexivity. Qed.

Lemma X5_batch_reads_each_eligible_file_once_witness :
  opened (trace (snd (Full.process_resumes_in_batch Faulty.office
                        Faulty.job_desc "resumes/" "reports/" initial)))
  = ["resumes/alice.txt"; "resumes/blank.txt"; "resumes/bob.pdf";
     "resumes/carol.pdf"; "resumes/dave.txt"]
  /\ Full.dotenv_loads
       (trace (snd (Full.process_resumes_in_batch Faulty.office
                      Faulty.job_desc "resumes/" "reports/" initial)))
     = 3%nat.
Proof.
  apply (X5_batch_reads_each_eligible_file_once Faulty.office Faulty.job_desc
           "resumes/" "reports/" initial).
  vm_compute. reflexivity.
Defined.

Lemma X6_request_made_only_for_extracted_text_witness :
  requests (trace (snd (Full.iteration Faulty.office Faulty.job_desc
                          "resumes/" "reports/" "alice.txt" initial)))
  = 1%nat
  /\ Full.http_sent Faulty.office
       (trace (snd (Full.iteration Faulty.office Faulty.job_desc "resumes/"
                      "reports/" "alice.txt" initial)))
     = 1%nat.
Proof.
  apply (X6_request_made_only_for_extracted_text Faulty.office
           Faulty.job_desc "resumes/" "reports/" "alice.txt" initial).
  reflexivity.
Defined.

Lemma X7_batch_requests_bounded_witness :
  (Full.http_sent Faulty.retrying
     (trace (snd (Full.process_resumes_in_batch Faulty.retrying
                    Faulty.job_desc "resumes/" "reports/" initial)))
   <= 0 + 3 * 5)%nat.
Proof.
  apply (proj2 (X7_batch_requests_bounded Faulty.retrying Faulty.job_desc
                  "resumes/" "reports/" initial) 3%nat).
  intros m prompt. simpl.
  destruct m as [|[|m]]; simpl; lia.
Defined.

Lemma X8_aborted_batch_did_nothing_witness :
  files (snd (Full.process_resumes_in_batch
                (Faulty.plain_world Cases.no_reports_folder
                   (Ok (Full.YDict Faulty.job_description)))
                Faulty.job_desc "resumes/" "reports/" initial))
  = files initial.
Proof.
  apply (X8_aborted_batch_did_nothing
           (Faulty.plain_world Cases.no_reports_folder
              (Ok (Full.YDict Faulty.job_description)))
           Faulty.job_desc "resumes/" "reports/" initial
           (Exn "PermissionError" "[Errno 13] Permission denied: 'reports/'")).
  - intros n line. reflexivity.
  - reflexivity.
Defined.

Lemma X11_script_outcome_witness :
  fst (Full.main Faulty.office initial) = Ok tt.
Proof.
  apply (proj2 (X11_script_outcome Faulty.office initial)).
  - intros n line. reflexivity.
  - split; [| split].
    + now exists Faulty.job_description.
    + now right.
    + now eexists.
Defined.
